(** * Study Notes Revision Tracker: the scheduling, status, store, export
    and reminder logic of [study_notes_pyqt.py], embedded in Rocq.

    Python values are modelled as they are used by the program: calendar
    dates as the [datetime] module computes them (proleptic Gregorian
    ordinals), [str] as UTF-8 byte strings, dictionaries as association
    lists in insertion order, exceptions as a [result] type.  The Qt widgets
    only appear through the values the program reads from them. *)

From stdpp Require Import base option list strings pretty.
From Stdlib Require Import ZArith Lia Ascii.

Local Open Scope Z_scope.

(** ** Exceptions *)

Inductive exn := KeyError | ValueError | OverflowError | OSError | LayoutError.

Inductive result (A : Type) : Type :=
  | Ok (a : A)
  | Raise (e : exn).
Arguments Ok {A} a.
Arguments Raise {A} e.

#[global] Instance result_ret : MRet result := @Ok.
#[global] Instance result_bind : MBind result := λ A B f m,
  match m with Ok a => f a | Raise e => Raise e end.

(** [try: m except Exception: h] *)
Definition try_except {A} (m : result A) (h : A) : A :=
  match m with Ok a => a | Raise _ => h end.

(** ** The [datetime] module: dates at midnight

    [datetime.strptime(s, "%Y-%m-%d")] yields a datetime whose time of day
    is 00:00:00, and adding whole days keeps it there, so a datetime of this
    program is its calendar date. *)

Record date := mkdate { year : Z; month : Z; day : Z }.

#[global] Instance date_eq_dec : EqDecision date.
Proof. solve_decision. Defined.

Definition MINYEAR : Z := 1.
Definition MAXYEAR : Z := 9999.
Definition _MAXORDINAL : Z := 3652059.

Definition _DAYS_IN_MONTH : list Z :=
  [-1; 31; 28; 31; 30; 31; 30; 31; 31; 30; 31; 30; 31].
Definition _DAYS_BEFORE_MONTH : list Z :=
  [-1; 0; 31; 59; 90; 120; 151; 181; 212; 243; 273; 304; 334].

(** [t[i]] for the two tables above *)
Definition tbl (t : list Z) (i : Z) : Z := nth (Z.to_nat i) t (-1).

Definition _is_leap (y : Z) : bool :=
  (y mod 4 =? 0) && (negb (y mod 100 =? 0) || (y mod 400 =? 0)).

Definition _days_before_year (year : Z) : Z :=
  let y := year - 1 in y * 365 + y / 4 - y / 100 + y / 400.

Definition _days_in_month (year month : Z) : Z :=
  if (month =? 2) && _is_leap year then 29 else tbl _DAYS_IN_MONTH month.

Definition _days_before_month (year month : Z) : Z :=
  tbl _DAYS_BEFORE_MONTH month + (if (2 <? month) && _is_leap year then 1 else 0).

Definition _ymd2ord (year month day : Z) : Z :=
  _days_before_year year + _days_before_month year month + day.

Definition _DI400Y : Z := 146097.
Definition _DI100Y : Z := 36524.
Definition _DI4Y : Z := 1461.

Definition _ord2ymd (n0 : Z) : date :=
  let n := n0 - 1 in
  let n400 := n / _DI400Y in let n := n mod _DI400Y in
  let year := n400 * 400 + 1 in
  let n100 := n / _DI100Y in let n := n mod _DI100Y in
  let n4 := n / _DI4Y in let n := n mod _DI4Y in
  let n1 := n / 365 in let n := n mod 365 in
  let year := year + (n100 * 100 + n4 * 4 + n1) in
  if (n1 =? 4) || (n100 =? 4) then mkdate (year - 1) 12 31
  else
    let leapyear := (n1 =? 3) && (negb (n4 =? 24) || (n100 =? 3)) in
    let month := Z.shiftr (n + 50) 5 in
    let preceding :=
      tbl _DAYS_BEFORE_MONTH month + (if (2 <? month) && leapyear then 1 else 0) in
    let '(month, preceding) :=
      if n <? preceding
      then (month - 1,
            preceding - (tbl _DAYS_IN_MONTH (month - 1)
                         + (if (month - 1 =? 2) && leapyear then 1 else 0)))
      else (month, preceding) in
    mkdate year month (n - preceding + 1).

Definition toordinal (d : date) : Z := _ymd2ord (year d) (month d) (day d).

(** [_check_date_fields]: what the [date] constructor accepts *)
Definition _check_date_fields (y m d : Z) : bool :=
  (MINYEAR <=? y) && (y <=? MAXYEAR) && (1 <=? m) && (m <=? 12)
  && (1 <=? d) && (d <=? _days_in_month y m).

(** [d + timedelta(days=k)] *)
Definition datetime_add (d : date) (k : Z) : result date :=
  let o := toordinal d + k in
  if (0 <? o) && (o <=? _MAXORDINAL) then Ok (_ord2ymd o) else Raise OverflowError.

(** [(a - b).days] *)
Definition date_sub_days (a b : date) : Z := toordinal a - toordinal b.

(** [a < b] and [a == b] on dates compare the (year, month, day) triples. *)
Definition date_ltb (a b : date) : bool :=
  (year a <? year b)
  || ((year a =? year b)
      && ((month a <? month b) || ((month a =? month b) && (day a <? day b)))).
Definition date_eqb (a b : date) : bool :=
  (year a =? year b) && (month a =? month b) && (day a =? day b).

(** *** [strptime] and [strftime] for the format ["%Y-%m-%d"]

    The format compiles to the regular expression
    [(\d\d\d\d)-(1[0-2]|0[1-9]|[1-9])-(3[0-1]|[1-2]\d|0[1-9]|[1-9]| [1-9])];
    the text must match it to its end, and the three numbers must make a
    date.

    [\d] is read here as the ASCII digits 0-9.  On a [str], Python's [\d]
    also matches the other decimal digits of Unicode (the fullwidth digits,
    for one) and [int] converts them, so a text with such digits may parse
    in Python where [strptime] below raises.  On a text of ASCII characters
    the two agree; whatever is concluded below from [strptime] raising is
    stated for ASCII texts. *)

Definition byte (c : ascii) : Z := Z.of_N (Ascii.N_of_ascii c).
Definition is_digit (c : ascii) : bool := (48 <=? byte c) && (byte c <=? 57).
Definition digit_val (c : ascii) : Z := byte c - 48.
Definition in_range (lo hi : Z) (c : ascii) : bool :=
  (lo <=? digit_val c) && (digit_val c <=? hi).

(** One alternative of a regular-expression group: the value it converts to
    and the rest of the text, when it matches a prefix. *)
Definition alt := string → option (Z * string).

(** [\d\d\d\d] *)
Definition re_Y : alt := λ s,
  match s with
  | String a (String b (String c (String d rest))) =>
      if is_digit a && is_digit b && is_digit c && is_digit d
      then Some (1000 * digit_val a + 100 * digit_val b + 10 * digit_val c + digit_val d, rest)
      else None
  | _ => None
  end.

(** two characters [x][y] with [x] in [lo1..hi1] and [y] in [lo2..hi2] *)
Definition two_digits (lo1 hi1 lo2 hi2 : Z) : alt := λ s,
  match s with
  | String a (String b rest) =>
      if is_digit a && is_digit b && in_range lo1 hi1 a && in_range lo2 hi2 b
      then Some (10 * digit_val a + digit_val b, rest) else None
  | _ => None
  end.

(** [[1-9]] *)
Definition one_digit : alt := λ s,
  match s with
  | String a rest => if is_digit a && in_range 1 9 a then Some (digit_val a, rest) else None
  | _ => None
  end.

(** [ [1-9]]: a space, then a digit *)
Definition space_digit : alt := λ s,
  match s with
  | String " " rest => one_digit rest
  | _ => None
  end.

(** [1[0-2]|0[1-9]|[1-9]] *)
Definition re_m : list alt := [two_digits 1 1 0 2; two_digits 0 0 1 9; one_digit].
(** [3[0-1]|[1-2]\d|0[1-9]|[1-9]| [1-9]] *)
Definition re_d : list alt :=
  [two_digits 3 3 0 1; two_digits 1 2 0 9; two_digits 0 0 1 9; one_digit; space_digit].

(** Ordered alternation with backtracking: the first alternative after which
    the rest of the pattern [k] matches. *)
Fixpoint first_alt {A} (alts : list alt) (k : Z → string → option A) (s : string) : option A :=
  match alts with
  | [] => None
  | a :: alts' =>
      match a s ≫= (λ '(v, rest), k v rest) with
      | Some r => Some r
      | None => first_alt alts' k s
      end
  end.

Definition lit (c : ascii) {A} (k : string → option A) (s : string) : option A :=
  match s with
  | String a rest => if decide (a = c) then k rest else None
  | _ => None
  end.

(** [re.match] of the compiled format on [s]: the three groups and the text
    left after the match. *)
Definition format_match (s : string) : option (Z * Z * Z * string) :=
  re_Y s ≫= λ '(y, s1),
  lit "-" (first_alt re_m (λ m, lit "-" (first_alt re_d (λ d rest, Some (y, m, d, rest))))) s1.

Definition strptime (s : string) : result date :=
  match format_match s with
  | None => Raise ValueError
  | Some (y, m, d, rest) =>
      if decide (rest = "") then
        if _check_date_fields y m d then Ok (mkdate y m d) else Raise ValueError
      else Raise ValueError
  end.

Definition digit_char (n : Z) : ascii := Ascii.ascii_of_N (Z.to_N (48 + n)).
Definition pad2 (n : Z) : string :=
  String (digit_char (n / 10 mod 10)) (String (digit_char (n mod 10)) "").
Definition pad4 (n : Z) : string :=
  String (digit_char (n / 1000 mod 10)) (String (digit_char (n / 100 mod 10)) (pad2 n)).

(** [d.strftime("%Y-%m-%d")]; the year is written with four digits, as the
    C runtime of the program's platform (Windows) does. *)
Definition strftime (d : date) : string :=
  pad4 (year d) +:+ "-" +:+ pad2 (month d) +:+ "-" +:+ pad2 (day d).

(** ** Strings *)

(** [sep.join(l)] *)
Fixpoint join (sep : string) (l : list string) : string :=
  match l with
  | [] => ""
  | [x] => x
  | x :: rest => x +:+ sep +:+ join sep rest
  end.

(** [s.replace(c, by)] for a one-character pattern [c] *)
Fixpoint replace (c : ascii) (by_ : string) (s : string) : string :=
  match s with
  | EmptyString => ""
  | String a rest =>
      if decide (a = c) then by_ +:+ replace c by_ rest else String a (replace c by_ rest)
  end.

(** [s.split(c)] for a one-character separator [c] *)
Fixpoint split (c : ascii) (s : string) : list string :=
  match s with
  | EmptyString => [""]
  | String a rest =>
      if decide (a = c) then "" :: split c rest
      else match split c rest with
           | h :: t => String a h :: t
           | [] => [String a ""]
           end
  end.

(** White space as [str.isspace] has it, on the UTF-8 encoding: the
    code points 9-13, 28-32 (one byte), U+0085 and U+00A0 (two bytes),
    U+1680, U+2000-200A, U+2028, U+2029, U+202F, U+205F and U+3000 (three
    bytes). *)
Definition space1 (a : ascii) : bool :=
  ((9 <=? byte a) && (byte a <=? 13)) || ((28 <=? byte a) && (byte a <=? 32)).
Definition space2 (a b : ascii) : bool :=
  (byte a =? 194) && ((byte b =? 133) || (byte b =? 160)).
Definition space3 (a b c : ascii) : bool :=
  ((byte a =? 225) && (byte b =? 154) && (byte c =? 128))
  || ((byte a =? 226) && (byte b =? 128)
      && (((128 <=? byte c) && (byte c <=? 138))
          || (byte c =? 168) || (byte c =? 169) || (byte c =? 175)))
  || ((byte a =? 226) && (byte b =? 129) && (byte c =? 159))
  || ((byte a =? 227) && (byte b =? 128) && (byte c =? 128)).

(** Drops the white space at the front of [s]; with [back], [s] is a
    reversed string and the bytes of a character come last byte first. *)
Fixpoint drop_space (back : bool) (s : string) : string :=
  match s with
  | EmptyString => s
  | String a s1 =>
      if space1 a then drop_space back s1
      else match s1 with
           | EmptyString => s
           | String b s2 =>
               if (if back then space2 b a else space2 a b) then drop_space back s2
               else match s2 with
                    | EmptyString => s
                    | String c s3 =>
                        if (if back then space3 c b a else space3 a b c)
                        then drop_space back s3 else s
                    end
           end
  end.

(** [s.strip()] *)
Definition strip (s : string) : string :=
  String.rev (drop_space true (String.rev (drop_space false s))).

(** ** Values read from the persisted document

    The value under a checkpoint's ["completed"] key is read with [.get], so
    it may be absent, and after [json.load] it may be any JSON value; the
    scalar ones are modelled. *)

Inductive pyval :=
  | PyNone
  | PyBool (b : bool)
  | PyInt (z : Z)
  | PyStr (s : string).

#[global] Instance pyval_eq_dec : EqDecision pyval.
Proof. solve_decision. Defined.

(** [bool(v)] *)
Definition truthy (v : pyval) : bool :=
  match v with
  | PyNone => false
  | PyBool b => b
  | PyInt z => negb (z =? 0)
  | PyStr s => negb (bool_decide (s = ""))
  end.

(** [str(v)] *)
Definition str (v : pyval) : string :=
  match v with
  | PyNone => "None"
  | PyBool true => "True"
  | PyBool false => "False"
  | PyInt z => pretty z
  | PyStr s => s
  end.

(** A checkpoint: [{"date": ..., "completed": ...}] *)
Record rev := mkrev { rev_date : string; rev_completed : option pyval }.

(** A note; [revisions] is a dict, kept in insertion order. *)
Record note := mknote {
  id : Z;
  subjectName : string;
  noteCode : string;
  completionDate : string;
  revisions : list (string * rev)
}.

#[global] Instance rev_eq_dec : EqDecision rev.
Proof. solve_decision. Defined.
#[global] Instance note_eq_dec : EqDecision note.
Proof. solve_decision. Defined.

(** [d[k]] *)
Fixpoint getitem {V} (k : string) (d : list (string * V)) : result V :=
  match d with
  | [] => Raise KeyError
  | (k', v) :: d' => if decide (k' = k) then Ok v else getitem k d'
  end.

(** [d[k] = v] for a key that [d] has *)
Fixpoint setitem {V} (k : string) (v : V) (d : list (string * V)) : list (string * V) :=
  match d with
  | [] => []
  | (k', v') :: d' => if decide (k' = k) then (k', v) :: d' else (k', v') :: setitem k v d'
  end.

(** [r.get("completed")] and [r.get("completed", False)] *)
Definition get_completed (r : rev) : pyval := default PyNone (rev_completed r).
Definition get_completed_or_False (r : rev) : pyval := default (PyBool false) (rev_completed r).
(** [r["completed"]] *)
Definition item_completed (r : rev) : result pyval :=
  match rev_completed r with Some v => Ok v | None => Raise KeyError end.

(** The four checkpoint labels, in the order the program lists them. *)
Definition LABELS : list string := ["24H"; "3Days"; "1Week"; "1Month"].

Definition SUBJECT_OPTIONS : list (string * string) :=
  [ ("I64T001M01", "Occupational Health & Safety");
    ("I64T001M02", "Fundamentals of Applied Electricity and Electronics -1");
    ("I64T001M03", "Fundamentals of Communications – I");
    ("I64T001M04", "Data Communication and Computer Networking – I");
    ("I64T001M05", "Computer Structures and Programming Fundamentals");
    ("I64T001M06", "Advanced Mathematics –I");
    ("EMPM01", "Workplace Information Management");
    ("EMPM02", "Workplace Communication Management") ].

(** ** Scheduling *)

Definition make_revision_dates (completion_date_str : string) : result (list (string * rev)) :=
  d ← strptime completion_date_str;
  d1 ← datetime_add d 1;
  d3 ← datetime_add d 3;
  d7 ← datetime_add d 7;
  d30 ← datetime_add d 30;
  Ok [ ("24H", mkrev (strftime d1) (Some (PyBool false)));
       ("3Days", mkrev (strftime d3) (Some (PyBool false)));
       ("1Week", mkrev (strftime d7) (Some (PyBool false)));
       ("1Month", mkrev (strftime d30) (Some (PyBool false))) ].

(** ** The note store

    [notes] is [self.notes]; [DATA_FILE] is the document last written to the
    data file, if any.  Writing the file is taken to succeed. *)

Record world := mkworld { notes : list note; DATA_FILE : option (list note) }.

Definition save_notes (w : world) : world :=
  mkworld (notes w) (Some (notes w)).

Inductive dialog :=
  | Warning (title text : string)
  | Information (title text : string).

(** The items of the subject combo box: shown text and item data. *)
Definition subject_combo : list (string * string) :=
  ("-- Select a subject --", "")
  :: map (λ '(code, name), (name +:+ " (" +:+ code +:+ ")", code +:+ "|" +:+ name))
         SUBJECT_OPTIONS.

(** [self.subject_combo.currentData()]; no current item gives [None] *)
Definition currentData (currentIndex : nat) : option string :=
  snd <$> subject_combo !! currentIndex.

(** [add_note], from the state of the form: the combo box's current index,
    the text of the note-code field, the date picker's date written as
    [yyyy-MM-dd], and the clock in milliseconds.  The result is the dialog
    shown, if any. *)
Definition add_note (w : world) (currentIndex : nat) (text completion_date : string)
    (now_ms : Z) : world * result (option dialog) :=
  match currentData currentIndex with
  | None | Some "" => (w, Ok (Some (Warning "Missing subject" "Please select a subject.")))
  | Some data =>
      match split "|" data with
      | [code; name] =>
          let note_code := strip text in
          if decide (note_code = "") then
            (w, Ok (Some (Warning "Missing code" "Please enter the note code.")))
          else
            match make_revision_dates completion_date with
            | Raise e => (w, Raise e)
            | Ok revisions =>
                let new_note := mknote now_ms name note_code completion_date revisions in
                (save_notes (mkworld (notes w ++ [new_note]) (DATA_FILE w)), Ok None)
            end
      | _ => (w, Raise ValueError)
      end
  end.

(** [r] after [r["completed"] = not r.get("completed", False)] *)
Definition flip_completed (r : rev) : rev :=
  mkrev (rev_date r) (Some (PyBool (negb (truthy (get_completed_or_False r))))).

(** [n] with the dict [revs] as its revisions *)
Definition with_revisions (n : note) (revs : list (string * rev)) : note :=
  mknote (id n) (subjectName n) (noteCode n) (completionDate n) revs.

(** The loop of [_toggle_revision] over [self.notes]: [None] when no note has
    the identifier, otherwise the list with the first such note updated. *)
Fixpoint toggle_loop (note_id : Z) (key : string) (ns : list note)
    : result (option (list note)) :=
  match ns with
  | [] => Ok None
  | n :: rest =>
      if decide (id n = note_id) then
        r ← getitem key (revisions n);
        Ok (Some (with_revisions n (setitem key (flip_completed r) (revisions n)) :: rest))
      else
        o ← toggle_loop note_id key rest;
        Ok (fmap (M:=option) (cons n) o)
  end.

Definition _toggle_revision (w : world) (note_id : Z) (key : string) : world * result () :=
  match toggle_loop note_id key (notes w) with
  | Raise e => (w, Raise e)
  | Ok None => (w, Ok ())
  | Ok (Some ns) => (save_notes (mkworld ns (DATA_FILE w)), Ok ())
  end.

(** The counters of [_update_stats]: (total, pending, completed). *)
Definition count_rev (acc : nat * nat) (r : rev) : nat * nat :=
  let '(pending, completed) := acc in
  if truthy (get_completed r) then (pending, S completed) else (S pending, completed).

Definition count_note (acc : nat * nat) (n : note) : nat * nat :=
  fold_left count_rev (snd <$> revisions n) acc.

Definition _update_stats (ns : list note) : nat * nat * nat :=
  let total := length ns in
  let '(pending, completed) := fold_left count_note ns (0, 0)%nat in
  (total, pending, completed).

(** The label texts [_update_stats] sets. *)
Definition stats_labels (ns : list note) : list string :=
  let '(total, pending, completed) := _update_stats ns in
  [ "Total notes: " +:+ pretty total;
    "Pending revisions: " +:+ pretty pending;
    "Completed revisions: " +:+ pretty completed ].

(** The style [_fill_table] gives the date label of a checkpoint cell. *)
Definition _fill_table_highlight (r : rev) (today : date) : result (option string) :=
  rd ← strptime (rev_date r);
  if truthy (get_completed r) then Ok (Some "color: green; font-weight:600")
  else if date_ltb rd today then Ok (Some "color: red; font-weight:600")
  else if date_eqb rd today then Ok (Some "color: orange; font-weight:600")
  else Ok None.

(** ** Export

    [export_csv] and [export_pdf] below are the two methods up to the point
    where they touch the file system: they give the text handed to
    [f.write] and the story handed to [doc.build].  The methods in full,
    with the file written, are [export_csv_file] and [export_pdf_file]
    further down. *)

Inductive export_outcome (A : Type) :=
  | NoNotes (d : dialog)
  | Saved (content : A).
Arguments NoNotes {A} d.
Arguments Saved {A} content.

Definition QUOTE : ascii := ascii_of_N 34.
(** The two-character text that replaces a quote, and the line break. *)
Definition QQ : string := String QUOTE (String QUOTE "").
Definition NL : string := String (ascii_of_N 10) "".
(** [f'"{c}"'] *)
Definition quoted (c : string) : string := String QUOTE (c +:+ String QUOTE "").

Definition CSV_HEADER : string :=
  "Subject,Note Code,Completion Date,24H Date,24H Status,3Days Date,3Days Status,1Week Date,1Week Status,1Month Date,1Month Status".

(** The [row] list of [export_csv] for one note. *)
Definition csv_row (n : note) : result (list string) :=
  r1 ← getitem "24H" (revisions n);
  r2 ← getitem "3Days" (revisions n);
  r3 ← getitem "1Week" (revisions n);
  r4 ← getitem "1Month" (revisions n);
  Ok [ replace QUOTE QQ (subjectName n);
       replace QUOTE QQ (noteCode n);
       completionDate n;
       rev_date r1; str (get_completed_or_False r1);
       rev_date r2; str (get_completed_or_False r2);
       rev_date r3; str (get_completed_or_False r3);
       rev_date r4; str (get_completed_or_False r4) ].

Fixpoint csv_lines (lines : list string) (ns : list note) : result (list string) :=
  match ns with
  | [] => Ok lines
  | n :: rest =>
      row ← csv_row n;
      csv_lines (lines ++ [join "," (quoted <$> row)]) rest
  end.

(** [export_csv] up to the opening of the file: the dialog for an empty
    collection, otherwise the text that is handed to [f.write]. *)
Definition export_csv (ns : list note) : result (export_outcome string) :=
  match ns with
  | [] => Ok (NoNotes (Information "Export" "No notes to export."))
  | _ =>
      lines ← csv_lines [CSV_HEADER] ns;
      Ok (Saved (join NL lines))
  end.

Inductive flowable :=
  | Paragraph (text style : string)
  | Spacer (width height : Z)
  | Table (data : list (list string)) (repeatRows : Z).

(** One revision cell of the PDF table *)
Definition pdf_cell (n : note) (key : string) : result string :=
  r ← getitem key (revisions n);
  c ← item_completed r;
  Ok (rev_date r +:+ (if truthy c then " ✓" else "")).

Definition pdf_row (n : note) : result (list string) :=
  c1 ← pdf_cell n "24H";
  c2 ← pdf_cell n "3Days";
  c3 ← pdf_cell n "1Week";
  c4 ← pdf_cell n "1Month";
  Ok [noteCode n; subjectName n; completionDate n; c1; c2; c3; c4].

Fixpoint pdf_rows (table_data : list (list string)) (ns : list note)
    : result (list (list string)) :=
  match ns with
  | [] => Ok table_data
  | n :: rest =>
      row ← pdf_row n;
      pdf_rows (table_data ++ [row]) rest
  end.

(** [sum(1 for n in notes for r in n["revisions"].values() if p(r))] *)
Definition sum_ones (p : rev → bool) (ns : list note) : nat :=
  sum_list ((λ _, 1%nat) <$> filter (λ r, p r = true) (ns ≫= λ n, snd <$> revisions n)).

(** [export_pdf] up to the call of [doc.build]: the dialog for an empty
    collection, otherwise the story that is handed to [doc.build].
    [generated] is the time stamp text of the second line. *)
Definition export_pdf (ns : list note) (generated : string)
    : result (export_outcome (list flowable)) :=
  match ns with
  | [] => Ok (NoNotes (Information "Export" "No notes to export."))
  | _ =>
      let story :=
        [ Paragraph "Study Notes — Revision Tracker" "Title";
          Paragraph ("Generated: " +:+ generated) "Normal";
          Spacer 1 12 ] in
      table_data ← pdf_rows [["Code"; "Module"; "Completed"; "24H"; "3 Days"; "1 Week"; "1 Month"]] ns;
      let story := story ++ [Table table_data 1] in
      let story := story ++ [Spacer 1 12] in
      let total := length ns in
      let pending := sum_ones (λ r, negb (truthy (get_completed r))) ns in
      let completed := sum_ones (λ r, truthy (get_completed r)) ns in
      let story := story ++
        [ Paragraph ("Total notes: " +:+ pretty total +:+ " — Pending revisions: "
                     +:+ pretty pending +:+ " — Completed revisions: " +:+ pretty completed)
                    "Normal" ] in
      Ok (Saved story)
  end.

(** *** The exports in full

    Writing the file can fail for reasons that are not the program's: no
    Desktop folder, a full disk, a story that does not fit the page.  The
    file system and the PDF library are therefore parameters:
    [open_w fname] is what [open(fname, "w", encoding="utf-8")] gives,
    [f_write fname text] what writing [text] and leaving the [with] block
    gives, [doc_build fname story] what [doc.build(story)] gives for the
    document created on [fname].  [fname] is the path the method computes
    from the home directory and the clock, which is taken to succeed.  The
    calls made are recorded in order, next to the dialog shown or the
    exception raised. *)

Inductive io_call :=
  | CallOpen (fname : string)
  | CallWrite (fname text : string)
  | CallBuild (fname : string) (story : list flowable).

Section Files.
Variable open_w : string → result ().
Variable f_write : string → string → result ().
Variable doc_build : string → list flowable → result ().

Definition export_csv_file (ns : list note) (fname : string) : list io_call * result dialog :=
  match export_csv ns with
  | Raise e => ([], Raise e)
  | Ok (NoNotes d) => ([], Ok d)
  | Ok (Saved text) =>
      match open_w fname with
      | Raise e => ([CallOpen fname], Raise e)
      | Ok _ =>
          ([CallOpen fname; CallWrite fname text],
           match f_write fname text with
           | Raise e => Raise e
           | Ok _ => Ok (Information "Export" ("CSV saved to: " +:+ fname))
           end)
      end
  end.

Definition export_pdf_file (ns : list note) (generated fname : string)
    : list io_call * result dialog :=
  match export_pdf ns generated with
  | Raise e => ([], Raise e)
  | Ok (NoNotes d) => ([], Ok d)
  | Ok (Saved story) =>
      ([CallBuild fname story],
       match doc_build fname story with
       | Raise e => Raise e
       | Ok _ => Ok (Information "Export" ("PDF saved to: " +:+ fname))
       end)
  end.
End Files.

(** ** Reminders *)

Record toast := mktoast { toast_title : string; toast_body : string }.

#[global] Instance toast_eq_dec : EqDecision toast.
Proof. solve_decision. Defined.

(** [rev_date == now or (rev_date - now).days == 1] *)
Definition is_due (rev_date now : date) : bool :=
  date_eqb rev_date now || (date_sub_days rev_date now =? 1).

(** The inner loop of [_check_due_revisions] over the checkpoints of [n];
    [sent] are the toasts shown so far.  A toast that fails to show is
    passed over, so every call of [show_toast] is recorded. *)
Fixpoint check_revisions (now : date) (n : note) (items : list (string * rev))
    (sent : list toast) : list toast * result () :=
  match items with
  | [] => (sent, Ok ())
  | (key, r) :: rest =>
      if truthy (get_completed r) then check_revisions now n rest sent
      else
        match strptime (rev_date r) with
        | Raise e => (sent, Raise e)
        | Ok rd =>
            if is_due rd now then
              let title := "Revision Reminder" in
              let body := noteCode n +:+ " — " +:+ key +:+ " due " +:+ rev_date r in
              check_revisions now n rest (sent ++ [mktoast title body])
            else check_revisions now n rest sent
        end
  end.

Fixpoint check_notes (now : date) (ns : list note) (sent : list toast)
    : list toast * result () :=
  match ns with
  | [] => (sent, Ok ())
  | n :: rest =>
      match check_revisions now n (revisions n) sent with
      | (sent', Ok _) => check_notes now rest sent'
      | (sent', Raise e) => (sent', Raise e)
      end
  end.

(** [_check_due_revisions]: [enabled] is the state of the check box,
    [toaster] tells whether the notifier could be created, [now] is today. *)
Definition _check_due_revisions (enabled toaster : bool) (now : date) (ns : list note)
    : list toast * result () :=
  if negb enabled then ([], Ok ())
  else if negb toaster then ([], Ok ())
  else check_notes now ns [].

(** ** Loading *)

#[local] Unset Elimination Schemes.
Inductive json :=
  | JNull
  | JBool (b : bool)
  | JNum (z : Z)
  | JStr (s : string)
  | JArr (items : list json)
  | JObj (members : list (string * json)).
#[local] Set Elimination Schemes.

Section Loading.
(** [json.load] on the text of a file *)
Variable json_load : string → result json.

(** [load_notes]; [file] is [None] when [DATA_FILE] does not exist,
    otherwise what opening and reading it gives. *)
Definition load_notes (file : option (result string)) : result json :=
  match file with
  | Some content => Ok (try_except (content ≫= json_load) (JArr []))
  | None => Ok (JArr [])
  end.
End Loading.

(** * Specification-side notions *)

Definition valid_date (d : date) : Prop :=
  1 <= year d ∧ 1 <= month d <= 12 ∧ 1 <= day d <= _days_in_month (year d) (month d).

(** The day after [d] on the calendar. *)
Definition next_day (d : date) : date :=
  if day d <? _days_in_month (year d) (month d) then mkdate (year d) (month d) (day d + 1)
  else if month d <? 12 then mkdate (year d) (month d + 1) 1
  else mkdate (year d + 1) 1 1.

(** [D + k] days, one day at a time. *)
Definition plus_days (k : nat) (d : date) : date := Nat.iter k next_day d.

(** [a] is a day strictly before [b]. *)
Definition before (a b : date) : Prop := toordinal a < toordinal b.

#[global] Instance before_dec : RelDecision before.
Proof. intros a b. unfold before. apply _. Defined.

Definition date_lt (a b : date) : Prop :=
  year a < year b
  ∨ (year a = year b ∧ (month a < month b ∨ (month a = month b ∧ day a < day b))).

Inductive Status := Completed | Overdue | DueToday | Upcoming.

Definition classify (completed : bool) (d today : date) : Status :=
  if completed then Completed
  else if bool_decide (before d today) then Overdue
  else if bool_decide (d = today) then DueToday
  else Upcoming.

(** How each status is shown. *)
Definition status_style (s : Status) : option string :=
  match s with
  | Completed => Some "color: green; font-weight:600"
  | Overdue => Some "color: red; font-weight:600"
  | DueToday => Some "color: orange; font-weight:600"
  | Upcoming => None
  end.

(** All checkpoints of all notes. *)
Definition checkpoints (ns : list note) : list rev :=
  ns ≫= λ n, snd <$> revisions n.

Definition is_completed (r : rev) : bool := truthy (get_completed r).

(** The checkpoints whose completed flag is false, and those whose flag is
    true. *)
Definition pending_count (ns : list note) : nat :=
  length (filter (λ r, is_completed r = false) (checkpoints ns)).
Definition completed_count (ns : list note) : nat :=
  length (filter (λ r, is_completed r = true) (checkpoints ns)).

(** A note with every completed flag forgotten: what remains is the
    identifier, the texts, the labels and the target dates, in order. *)
Definition forget_flags (n : note) : note :=
  mknote (id n) (subjectName n) (noteCode n) (completionDate n)
         ((λ '(k, r), (k, mkrev (rev_date r) None)) <$> revisions n).

(** Position of the first note with identifier [note_id]. *)
Definition find_note (note_id : Z) (ns : list note) : option (nat * note) :=
  list_find (λ n, id n = note_id) ns.

(** A reader of one CSV record in which every field is quoted and a doubled
    quote inside a field stands for one quote. *)
Inductive csv_state := FieldStart | InField | QuoteSeen.

Definition push (c : ascii) (fs : list string) : list string :=
  match fs with
  | f :: fs' => String c f :: fs'
  | [] => [String c ""]
  end.

Fixpoint csv_read (st : csv_state) (s : string) : option (list string) :=
  match s with
  | EmptyString => match st with QuoteSeen => Some [""] | _ => None end
  | String c rest =>
      match st with
      | FieldStart => if decide (c = QUOTE) then csv_read InField rest else None
      | InField =>
          if decide (c = QUOTE) then csv_read QuoteSeen rest
          else push c <$> csv_read InField rest
      | QuoteSeen =>
          if decide (c = QUOTE) then push QUOTE <$> csv_read InField rest
          else if decide (c = ","%char) then cons "" <$> csv_read FieldStart rest
          else None
      end
  end.

(** [v] put in front of the field being read. *)
Fixpoint push_str (v : string) (fs : list string) : list string :=
  match v with
  | EmptyString => fs
  | String c v' => push c (push_str v' fs)
  end.

Fixpoint has_quote (s : string) : bool :=
  match s with
  | EmptyString => false
  | String c rest => bool_decide (c = QUOTE) || has_quote rest
  end.

(** The number of double quotes in a text. *)
Fixpoint quotes (s : string) : nat :=
  match s with
  | EmptyString => 0%nat
  | String c rest => ((if decide (c = QUOTE) then 1 else 0) + quotes rest)%nat
  end.

(** The text of a checkpoint's status column: True for a set flag, False
    for a cleared or missing one; a flag that is no boolean (a data file
    edited by hand) is written as Python prints it. *)
Definition status_text (r : rev) : string :=
  match rev_completed r with
  | Some (PyBool true) => "True"
  | Some (PyBool false) | None => "False"
  | Some PyNone => "None"
  | Some (PyInt z) => pretty z
  | Some (PyStr s) => s
  end.

(** The values of the eleven columns of a note's CSV row. *)
Definition csv_values (n : note) : result (list string) :=
  r1 ← getitem "24H" (revisions n);
  r2 ← getitem "3Days" (revisions n);
  r3 ← getitem "1Week" (revisions n);
  r4 ← getitem "1Month" (revisions n);
  Ok [ subjectName n; noteCode n; completionDate n;
       rev_date r1; status_text r1;
       rev_date r2; status_text r2;
       rev_date r3; status_text r3;
       rev_date r4; status_text r4 ].

(** The names of the eleven columns. *)
Definition COLUMNS : list string :=
  [ "Subject"; "Note Code"; "Completion Date" ]
  ++ (LABELS ≫= λ l, [l +:+ " Date"; l +:+ " Status"]).

(** A record in which every field is enclosed in double quotes and every
    double quote inside a field is doubled. *)
Definition csv_record (fields : list string) : string :=
  join "," (quoted <$> (replace QUOTE QQ <$> fields)).

(** A checkpoint as the program makes and toggles it: its date is a
    calendar date, its flag a boolean, or missing. *)
Definition well_formed (r : rev) : Prop :=
  (∃ d, strptime (rev_date r) = Ok d)
  ∧ (rev_completed r = None ∨ ∃ b, rev_completed r = Some (PyBool b)).

(** An alternative of the date format that consumes no double quote. *)
Definition plain (a : alt) : Prop :=
  ∀ s v rest, a s = Some (v, rest) → ∃ pre, s = pre +:+ rest ∧ has_quote pre = false.

(** Checkpoint [l] of [n] cannot be shown in the PDF table: the label, or
    the completed key under it, is missing. *)
Definition lacks_flag (n : note) (l : string) : Prop :=
  getitem l (revisions n) = Raise KeyError
  ∨ ∃ r, getitem l (revisions n) = Ok r ∧ rev_completed r = None.

(** A text of ASCII characters only. *)
Fixpoint is_ascii (s : string) : bool :=
  match s with
  | EmptyString => true
  | String c rest => (byte c <? 128) && is_ascii rest
  end.

(** The reminders that are due: one per checkpoint that is not completed
    and falls today or tomorrow. *)
Definition due_on (today : date) (r : rev) : bool :=
  negb (is_completed r)
  && match strptime (rev_date r) with
     | Ok d => bool_decide (d = today ∨ d = next_day today)
     | Raise _ => false
     end.

Definition reminders (today : date) (ns : list note) : list toast :=
  n ← ns;
  '(key, r) ← revisions n;
  if due_on today r
  then [mktoast "Revision Reminder" (noteCode n +:+ " — " +:+ key +:+ " due " +:+ rev_date r)]
  else [].

(** The schedule in the specification's words: label and offset in days. *)
Definition OFFSETS : list (string * nat) :=
  [("24H", 1); ("3Days", 3); ("1Week", 7); ("1Month", 30)]%nat.

Definition schedule (d : date) : list (string * rev) :=
  (λ '(label, k), (label, mkrev (strftime (plus_days k d)) (Some (PyBool false)))) <$> OFFSETS.

(** A store with two notes, for the scenarios. *)
Definition fresh_revisions : list (string * rev) :=
  [ ("24H", mkrev "2025-01-11" (Some (PyBool false)));
    ("3Days", mkrev "2025-01-13" (Some (PyBool false)));
    ("1Week", mkrev "2025-01-17" (Some (PyBool false)));
    ("1Month", mkrev "2025-02-09" (Some (PyBool false))) ].

Definition quote_note : note :=
  mknote 1736503200000 ("Test " +:+ String QUOTE ("Quote" +:+ String QUOTE ""))
         "I64T001M01-01" "2025-01-10" fresh_revisions.

Definition other_note : note :=
  mknote 1736503260000 "Advanced Mathematics –I" "I64T001M06-02" "2025-01-10"
         [ ("24H", mkrev "2025-01-11" (Some (PyBool true)));
           ("3Days", mkrev "2025-01-13" (Some (PyBool false)));
           ("1Week", mkrev "2025-01-17" None);
           ("1Month", mkrev "2025-02-09" (Some (PyBool false))) ].

Definition third_note : note :=
  mknote 1736503290000 "Workplace Information Management" "EMPM01-01" "2025-01-10"
         [ ("24H", mkrev "2025-01-11" (Some (PyBool true)));
           ("3Days", mkrev "2025-01-13" (Some (PyBool false)));
           ("1Week", mkrev "2025-01-17" (Some (PyBool false)));
           ("1Month", mkrev "2025-02-09" (Some (PyBool false))) ].

Definition two_notes : world := mkworld [quote_note; other_note] None.

(** A note whose completion date holds a double quote, as a data file
    edited by hand may give. *)
Definition quoted_date_note : note :=
  mknote 1736503320000 "Advanced Mathematics –I" "I64T001M06-03"
         ("d" +:+ String QUOTE "e") fresh_revisions.

(** What a revision cell of the PDF table shows. *)
Definition date_cell (r : rev) : string :=
  if is_completed r then rev_date r +:+ " ✓" else rev_date r.

Definition PDF_HEADER : list string :=
  ["Code"; "Module"; "Completed"; "24H"; "3 Days"; "1 Week"; "1 Month"].

(** A stand-in for [json.load] that reads two documents, for the scenarios. *)
Definition toy_json_load (text : string) : result json :=
  if decide (text = "[]") then Ok (JArr [])
  else if decide (text = "[1]") then Ok (JArr [JNum 1])
  else Raise ValueError.

(** Check of the month and day that [_ord2ymd] computes for day [n] of a
    year, used to cover the 365 or 366 cases by evaluation. *)
Definition month_day_ok (n : Z) (leapyear : bool) : bool :=
  let month := Z.shiftr (n + 50) 5 in
  let preceding :=
    tbl _DAYS_BEFORE_MONTH month + (if (2 <? month) && leapyear then 1 else 0) in
  let '(month, preceding) :=
    if n <? preceding
    then (month - 1,
          preceding - (tbl _DAYS_IN_MONTH (month - 1)
                       + (if (month - 1 =? 2) && leapyear then 1 else 0)))
    else (month, preceding) in
  (1 <=? month) && (month <=? 12) && (1 <=? n - preceding + 1)
  && (n - preceding + 1 <=? (if (month =? 2) && leapyear then 29 else tbl _DAYS_IN_MONTH month))
  && (tbl _DAYS_BEFORE_MONTH month + (if (2 <? month) && leapyear then 1 else 0)
      + (n - preceding + 1) =? n + 1).

(** * The rest of the window's logic *)

(** The answer to the confirmation dialog of [_delete_note]. *)
Inductive StandardButton := Yes | No.

(** [_delete_note], given the identifier carried by the button and the
    answer to the question. *)
Definition _delete_note (w : world) (note_id : Z) (ret : StandardButton) : world :=
  match ret with
  | Yes => save_notes (mkworld (filter (λ n, id n ≠ note_id) (notes w)) (DATA_FILE w))
  | No => w
  end.

(** [all(r.get("completed") for r in note["revisions"].values())] *)
Definition _is_all_done (n : note) : bool :=
  forallb (λ r, truthy (get_completed r)) (snd <$> revisions n).

(** [rows = [n for n in self.notes if filter_fn(n)]] of [_fill_table] *)
Definition table_rows (filter_fn : note → bool) (ns : list note) : list note :=
  filter (λ n, filter_fn n = true) ns.

(** The rows [refresh_table] gives the three tables: All, Pending, All Done. *)
Definition refresh_table (ns : list note) : list note * list note * list note :=
  (table_rows (λ n, true) ns,
   table_rows (λ n, negb (_is_all_done n)) ns,
   table_rows (λ n, _is_all_done n) ns).

(** The text of a checkpoint's button in [_fill_table]. *)
Definition button_text (r : rev) : string :=
  if negb (truthy (get_completed r)) then "Done" else "Undo".

(** A note without its completed checkpoints. *)
Definition drop_completed (n : note) : note :=
  with_revisions n (filter (λ kr, is_completed kr.2 = false) (revisions n)).

(** The reminder text for checkpoint [key] of note [n] with date text [d]. *)
Definition reminder (n : note) (key d : string) : toast :=
  mktoast "Revision Reminder" (noteCode n +:+ " — " +:+ key +:+ " due " +:+ d).

(** Does [s] begin with white space ([back]: is [s], read backwards, ended
    by white space)? *)
Definition starts_space (back : bool) (s : string) : bool :=
  match s with
  | EmptyString => false
  | String a s1 =>
      space1 a
      || match s1 with
         | EmptyString => false
         | String b s2 =>
             (if back then space2 b a else space2 a b)
             || match s2 with
                | EmptyString => false
                | String c _ => if back then space3 c b a else space3 a b c
                end
         end
  end.

(** * Strings *)

Lemma string_app_cons c (s1 s2 : string) : String c s1 +:+ s2 = String c (s1 +:+ s2).
Proof. reflexivity. Qed.

Lemma string_app_nil_l (s : string) : "" +:+ s = s.
Proof. reflexivity. Qed.

Lemma string_app_assoc (s1 s2 s3 : string) : (s1 +:+ s2) +:+ s3 = s1 +:+ s2 +:+ s3.
Proof.
  induction s1 as [|c s1 IH]; [done|]. rewrite !string_app_cons. by f_equal.
Qed.

Lemma string_app_nil_r (s : string) : s +:+ "" = s.
Proof.
  induction s as [|c s IH]; [done|]. rewrite string_app_cons. by f_equal.
Qed.

(** * The calendar *)

Section Calendar.

Ltac each_month m Hm :=
  let H := fresh in
  assert (H : m = 1 ∨ m = 2 ∨ m = 3 ∨ m = 4 ∨ m = 5 ∨ m = 6 ∨ m = 7 ∨ m = 8
              ∨ m = 9 ∨ m = 10 ∨ m = 11 ∨ m = 12) by lia;
  destruct H as [->|[->|[->|[->|[->|[->|[->|[->|[->|[->|[->| ->]]]]]]]]]]].

Lemma days_before_year_succ y :
  _days_before_year (y + 1) = _days_before_year y + 365 + (if _is_leap y then 1 else 0).
Proof.
  unfold _days_before_year, _is_leap.
  replace (y + 1 - 1) with y by lia.
  destruct (Z.eqb_spec (y mod 4) 0), (Z.eqb_spec (y mod 100) 0),
    (Z.eqb_spec (y mod 400) 0); simpl; Z.div_mod_to_equations; lia.
Qed.

Lemma days_before_year_mono a b : a <= b → _days_before_year a <= _days_before_year b.
Proof. unfold _days_before_year. intros. Z.div_mod_to_equations. lia. Qed.

Lemma days_in_month_bounds y m : 1 <= m <= 12 → 28 <= _days_in_month y m <= 31.
Proof.
  intros Hm. unfold _days_in_month.
  destruct (_is_leap y); each_month m Hm; unfold tbl; simpl; lia.
Qed.

Lemma days_before_month_succ y m :
  1 <= m < 12 → _days_before_month y (m + 1) = _days_before_month y m + _days_in_month y m.
Proof.
  intros Hm. unfold _days_before_month, _days_in_month.
  destruct (_is_leap y); each_month m Hm; unfold tbl; simpl; lia.
Qed.

Lemma days_before_month_mono y m1 m2 :
  1 <= m1 → m1 < m2 <= 12 →
  _days_before_month y m1 + _days_in_month y m1 <= _days_before_month y m2.
Proof.
  intros H1 H2. unfold _days_before_month, _days_in_month.
  destruct (_is_leap y); each_month m1 H1; each_month m2 H2;
    try lia; unfold tbl; simpl; lia.
Qed.

Lemma year_length y m d :
  1 <= m <= 12 → 1 <= d <= _days_in_month y m →
  1 <= _days_before_month y m + d <= 365 + (if _is_leap y then 1 else 0).
Proof.
  intros Hm. unfold _days_before_month, _days_in_month.
  destruct (_is_leap y); each_month m Hm; unfold tbl; simpl; lia.
Qed.

Lemma toordinal_pos d : valid_date d → 1 <= toordinal d.
Proof.
  intros (Hy & Hm & Hd). unfold toordinal, _ymd2ord.
  pose proof (year_length _ _ _ Hm Hd). pose proof (days_before_year_mono 1 (year d) Hy).
  change (_days_before_year 1) with 0 in *. lia.
Qed.

Lemma next_day_valid d : valid_date d → valid_date (next_day d).
Proof.
  destruct d as [y m dd]. unfold valid_date, next_day; simpl. intros (Hy & Hm & Hd).
  destruct (Z.ltb_spec dd (_days_in_month y m)); simpl; [lia|].
  destruct (Z.ltb_spec m 12); simpl.
  - pose proof (days_in_month_bounds y (m + 1)). lia.
  - pose proof (days_in_month_bounds (y + 1) 1). lia.
Qed.

(** The day after has the next ordinal. *)
Lemma toordinal_next_day d : valid_date d → toordinal (next_day d) = toordinal d + 1.
Proof.
  destruct d as [y m dd]. unfold valid_date, toordinal, next_day; simpl.
  intros (Hy & Hm & Hd).
  destruct (Z.ltb_spec dd (_days_in_month y m)); simpl.
  - unfold _ymd2ord. lia.
  - assert (dd = _days_in_month y m) as -> by lia.
    destruct (Z.ltb_spec m 12); simpl; unfold _ymd2ord.
    + rewrite days_before_month_succ by lia. lia.
    + assert (m = 12) as -> by lia.
      rewrite days_before_year_succ.
      unfold _days_before_month, _days_in_month.
      destruct (_is_leap y), (_is_leap (y + 1)); unfold tbl; simpl; lia.
Qed.

(** The ordinal grows with the date. *)
Lemma toordinal_lt a b : valid_date a → valid_date b → date_lt a b → before a b.
Proof.
  destruct a as [y1 m1 d1], b as [y2 m2 d2].
  unfold valid_date, date_lt, before, toordinal, _ymd2ord; simpl.
  intros (Hy1 & Hm1 & Hd1) (Hy2 & Hm2 & Hd2) [Hlt | [-> [Hlt | [-> Hlt]]]].
  - pose proof (days_before_year_mono (y1 + 1) y2 ltac:(lia)) as H.
    rewrite days_before_year_succ in H.
    pose proof (year_length y1 m1 d1 Hm1 Hd1). pose proof (year_length y2 m2 d2 Hm2 Hd2).
    lia.
  - pose proof (days_before_month_mono y2 m1 m2 ltac:(lia) ltac:(lia)). lia.
  - lia.
Qed.

Lemma date_trichotomy a b : date_lt a b ∨ a = b ∨ date_lt b a.
Proof.
  destruct a as [y1 m1 d1], b as [y2 m2 d2]. unfold date_lt; simpl.
  destruct (Z.lt_total y1 y2) as [?|[->|?]]; [lia| |lia].
  destruct (Z.lt_total m1 m2) as [?|[->|?]]; [lia| |lia].
  destruct (Z.lt_total d1 d2) as [?|[->|?]]; [lia| |lia].
  right; left; reflexivity.
Qed.

Lemma toordinal_inj a b : valid_date a → valid_date b → toordinal a = toordinal b → a = b.
Proof.
  intros Ha Hb E.
  destruct (date_trichotomy a b) as [H|[H|H]]; [|done|].
  - pose proof (toordinal_lt a b Ha Hb H). unfold before in *. lia.
  - pose proof (toordinal_lt b a Hb Ha H). unfold before in *. lia.
Qed.

Lemma before_date_lt a b : valid_date a → valid_date b → before a b ↔ date_lt a b.
Proof.
  intros Ha Hb. split; [|by apply toordinal_lt].
  intros H. destruct (date_trichotomy a b) as [?|[->|H']]; [done| |].
  - unfold before in H. lia.
  - pose proof (toordinal_lt b a Hb Ha H'). unfold before in *. lia.
Qed.

Lemma month_day_ok_all (leap : bool) (n : Z) :
  0 <= n < 365 + (if leap then 1 else 0) → month_day_ok n leap = true.
Proof.
  intros Hn.
  assert (H : forallb (λ k, month_day_ok (Z.of_nat k) leap)
                (seq 0 (if leap then 366 else 365)) = true)
    by (destruct leap; vm_compute; reflexivity).
  rewrite forallb_forall in H.
  specialize (H (Z.to_nat n)). rewrite Z2Nat.id in H by lia.
  apply H. apply in_seq. destruct leap; lia.
Qed.

Lemma is_leap_decomp n400 n100 n4 n1 :
  0 <= n100 <= 3 → 0 <= n4 <= 24 → 0 <= n1 <= 3 →
  _is_leap (n400 * 400 + 1 + (n100 * 100 + n4 * 4 + n1))
  = (n1 =? 3) && (negb (n4 =? 24) || (n100 =? 3)).
Proof.
  intros. unfold _is_leap.
  repeat match goal with |- context [Z.eqb ?a ?b] => destruct (Z.eqb_spec a b) end;
    simpl; try reflexivity; exfalso; Z.div_mod_to_equations; lia.
Qed.

Lemma days_before_year_decomp n400 n100 n4 n1 :
  0 <= n100 <= 3 → 0 <= n4 <= 24 → 0 <= n1 <= 3 →
  _days_before_year (n400 * 400 + 1 + (n100 * 100 + n4 * 4 + n1))
  = n400 * 146097 + n100 * 36524 + n4 * 1461 + n1 * 365.
Proof. intros. unfold _days_before_year. Z.div_mod_to_equations. lia. Qed.

(** [_ord2ymd] yields a date of the calendar, and it is the date with that
    ordinal. *)
Lemma ord2ymd_spec n : 1 <= n → valid_date (_ord2ymd n) ∧ toordinal (_ord2ymd n) = n.
Proof.
  intros Hn. unfold _ord2ymd, _DI400Y, _DI100Y, _DI4Y.
  set (n400 := (n - 1) / 146097). set (r1 := (n - 1) mod 146097).
  set (n100 := r1 / 36524). set (r2 := r1 mod 36524).
  set (n4 := r2 / 1461). set (r3 := r2 mod 1461).
  set (n1 := r3 / 365). set (r4 := r3 mod 365).
  assert (E1 : n - 1 = 146097 * n400 + r1 ∧ 0 <= r1 < 146097)
    by (subst n400 r1; Z.div_mod_to_equations; lia).
  assert (E2 : r1 = 36524 * n100 + r2 ∧ 0 <= r2 < 36524)
    by (subst n100 r2; Z.div_mod_to_equations; lia).
  assert (E3 : r2 = 1461 * n4 + r3 ∧ 0 <= r3 < 1461)
    by (subst n4 r3; Z.div_mod_to_equations; lia).
  assert (E4 : r3 = 365 * n1 + r4 ∧ 0 <= r4 < 365)
    by (subst n1 r4; Z.div_mod_to_equations; lia).
  assert (B400 : 0 <= n400) by (subst n400; Z.div_mod_to_equations; lia).
  clearbody n400 r1 n100 r2 n4 r3 n1 r4.
  assert (0 <= n100 <= 4 ∧ 0 <= n4 <= 24 ∧ 0 <= n1 <= 4) as (B100 & B4 & B1) by lia.
  destruct (Z.eqb_spec n1 4) as [-> | N1];
    [|destruct (Z.eqb_spec n100 4) as [-> | N100]]; simpl.
  - (* the last day of a leap year *)
    assert (r4 = 0) as -> by lia.
    replace (n400 * 400 + 1 + (n100 * 100 + n4 * 4 + 4) - 1)
      with (n400 * 400 + 1 + (n100 * 100 + n4 * 4 + 3)) by lia.
    assert (n100 <= 3 ∧ n4 <= 23) as [? ?] by lia.
    unfold valid_date, toordinal, _ymd2ord, _days_in_month, _days_before_month;
      cbn [year month day].
    rewrite is_leap_decomp, days_before_year_decomp by lia.
    destruct (Z.eqb_spec n4 24); [lia|].
    unfold tbl; simpl. lia.
  - (* the last day of a 400-year cycle *)
    assert (r2 = 0 ∧ n4 = 0 ∧ r3 = 0 ∧ n1 = 0 ∧ r4 = 0) as (-> & -> & -> & -> & ->) by lia.
    replace (n400 * 400 + 1 + (4 * 100 + 0 * 4 + 0) - 1)
      with (n400 * 400 + 1 + (3 * 100 + 24 * 4 + 3)) by lia.
    unfold valid_date, toordinal, _ymd2ord, _days_in_month, _days_before_month;
      cbn [year month day].
    rewrite is_leap_decomp, days_before_year_decomp by lia.
    unfold tbl; simpl. lia.
  - assert (n100 <= 3 ∧ n1 <= 3) as [? ?] by lia.
    set (lp := (n1 =? 3) && (negb (n4 =? 24) || (n100 =? 3))).
    pose proof (month_day_ok_all lp r4 ltac:(destruct lp; lia)) as Hmd.
    unfold month_day_ok in Hmd.
    destruct (r4 <? _) in Hmd |- *;
      rewrite !andb_true_iff, !Z.leb_le, Z.eqb_eq in Hmd;
      destruct Hmd as ((((? & ?) & ?) & ?) & ?);
      unfold valid_date, toordinal, _ymd2ord, _days_in_month, _days_before_month;
      cbn [year month day];
      rewrite is_leap_decomp, days_before_year_decomp by lia; fold lp; lia.
Qed.

Lemma ord2ymd_toordinal d : valid_date d → _ord2ymd (toordinal d) = d.
Proof.
  intros Hd. pose proof (toordinal_pos d Hd).
  destruct (ord2ymd_spec (toordinal d)) as [Hv He]; [done|].
  by apply toordinal_inj.
Qed.

Lemma plus_days_spec k d :
  valid_date d →
  valid_date (plus_days k d) ∧ toordinal (plus_days k d) = toordinal d + Z.of_nat k.
Proof.
  intros Hd. induction k as [|k [IHv IHo]]; simpl.
  - split; [done|lia].
  - split; [by apply next_day_valid|].
    rewrite toordinal_next_day by done. lia.
Qed.

(** Adding [k] days in [datetime] is going [k] days forward on the
    calendar, as long as the result is not after 9999-12-31. *)
Lemma datetime_add_plus_days d k :
  valid_date d → toordinal d + Z.of_nat k <= _MAXORDINAL →
  datetime_add d (Z.of_nat k) = Ok (plus_days k d).
Proof.
  intros Hd Hk. unfold datetime_add.
  pose proof (toordinal_pos d Hd).
  destruct (plus_days_spec k d Hd) as [Hv Ho].
  destruct (Z.ltb_spec 0 (toordinal d + Z.of_nat k)); [|lia].
  destruct (Z.leb_spec (toordinal d + Z.of_nat k) _MAXORDINAL); [|lia].
  simpl. rewrite <- Ho. by rewrite ord2ymd_toordinal.
Qed.

Lemma datetime_add_overflow d k :
  _MAXORDINAL < toordinal d + k → datetime_add d k = Raise OverflowError.
Proof.
  intros Hk. unfold datetime_add.
  destruct (Z.leb_spec (toordinal d + k) _MAXORDINAL); [lia|].
  by rewrite andb_false_r.
Qed.

Lemma datetime_add_raises d k e : datetime_add d k = Raise e → e = OverflowError.
Proof. unfold datetime_add. by destruct (_ && _); intros [=]. Qed.

Lemma strptime_valid s d : strptime s = Ok d → valid_date d ∧ year d <= 9999.
Proof.
  unfold strptime. destruct (format_match s) as [[[[y m] dd] rest]|]; [|done].
  destruct (decide (rest = "")); [|done].
  destruct (_check_date_fields y m dd) eqn:E; [|done].
  intros [= <-]. unfold _check_date_fields, MINYEAR, MAXYEAR in E.
  rewrite !andb_true_iff, !Z.leb_le in E. unfold valid_date; simpl. lia.
Qed.

Lemma digit_char_props n :
  0 <= n <= 9 → is_digit (digit_char n) = true ∧ digit_val (digit_char n) = n.
Proof.
  intros H.
  assert (n = 0 ∨ n = 1 ∨ n = 2 ∨ n = 3 ∨ n = 4 ∨ n = 5 ∨ n = 6 ∨ n = 7 ∨ n = 8 ∨ n = 9)
    as [->|[->|[->|[->|[->|[->|[->|[->|[->| ->]]]]]]]]] by lia; by vm_compute.
Qed.

Lemma re_Y_pad4 y s : 0 <= y <= 9999 → re_Y (pad4 y +:+ s) = Some (y, s).
Proof.
  intros Hy. unfold pad4, pad2. rewrite !string_app_cons, string_app_nil_l.
  unfold re_Y.
  destruct (digit_char_props (y / 1000 mod 10)) as [-> ->]; [Z.div_mod_to_equations; lia|].
  destruct (digit_char_props (y / 100 mod 10)) as [-> ->]; [Z.div_mod_to_equations; lia|].
  destruct (digit_char_props (y / 10 mod 10)) as [-> ->]; [Z.div_mod_to_equations; lia|].
  destruct (digit_char_props (y mod 10)) as [-> ->]; [Z.div_mod_to_equations; lia|].
  simpl. do 2 f_equal. Z.div_mod_to_equations. lia.
Qed.

Lemma month_day_match (y m d : Z) :
  1 <= m <= 12 → 1 <= d <= 31 →
  lit "-" (first_alt re_m (λ m', lit "-" (first_alt re_d (λ d' rest, Some (y, m', d', rest)))))
    ("-" +:+ pad2 m +:+ "-" +:+ pad2 d)
  = Some (y, m, d, "").
Proof.
  intros Hm Hd.
  assert (Hm' : ∃ k, (k < 12)%nat ∧ m = 1 + Z.of_nat k) by (exists (Z.to_nat (m - 1)); lia).
  assert (Hd' : ∃ k, (k < 31)%nat ∧ d = 1 + Z.of_nat k) by (exists (Z.to_nat (d - 1)); lia).
  destruct Hm' as (i & Hi & ->), Hd' as (j & Hj & ->).
  do 12 (destruct i as [|i]; [do 31 (destruct j as [|j]; [reflexivity|]); lia|]). lia.
Qed.

(** What [strftime] writes, [strptime] reads back. *)
Lemma strptime_strftime d : valid_date d → year d <= 9999 → strptime (strftime d) = Ok d.
Proof.
  destruct d as [y m dd]. unfold valid_date; simpl. intros (Hy & Hm & Hd) Hy'.
  pose proof (days_in_month_bounds y m Hm).
  unfold strptime, strftime, format_match; cbn [year month day].
  rewrite re_Y_pad4 by lia. cbn [mbind option_bind].
  rewrite month_day_match by lia.
  rewrite decide_True by done.
  unfold _check_date_fields, MINYEAR, MAXYEAR.
  repeat match goal with
    | |- context [?a <=? ?b] => destruct (Z.leb_spec a b); [|lia]
    end.
  reflexivity.
Qed.

Lemma year_bound d : valid_date d → toordinal d <= _MAXORDINAL → year d <= 9999.
Proof.
  intros Hd Ho. destruct (Z.le_gt_cases (year d) 9999) as [|Hgt]; [done|].
  assert (Hl : valid_date (mkdate 9999 12 31))
    by (unfold valid_date; simpl; vm_compute; intuition discriminate).
  pose proof (toordinal_lt (mkdate 9999 12 31) d Hl Hd) as Hlt.
  unfold before, date_lt in Hlt. simpl in Hlt.
  change (toordinal (mkdate 9999 12 31)) with _MAXORDINAL in Hlt. lia.
Qed.

End Calendar.

(** * Scheduling *)

Lemma last_schedulable_day : toordinal (mkdate 9999 12 1) + 30 = _MAXORDINAL.
Proof. reflexivity. Qed.

(** C1 (as amended): for every completion date D that [strptime] reads in
    the form YYYY-MM-DD and that is not after 9999-12-01, [make_revision_dates]
    returns exactly the four checkpoints 24H, 3Days, 1Week, 1Month, dated
    D+1, D+3, D+7 and D+30 days, each with completed = false, and each date
    text reads back as that day; a completion date after 9999-12-01 raises
    OverflowError; and for "2025-01-10" the dates are 2025-01-11, 2025-01-13,
    2025-01-17 and 2025-02-09. *)
Theorem make_revision_dates_schedule :
  (∀ s d, strptime s = Ok d → ¬ before (mkdate 9999 12 1) d →
     make_revision_dates s = Ok (schedule d)
     ∧ schedule d =
         [ ("24H", mkrev (strftime (plus_days 1 d)) (Some (PyBool false)));
           ("3Days", mkrev (strftime (plus_days 3 d)) (Some (PyBool false)));
           ("1Week", mkrev (strftime (plus_days 7 d)) (Some (PyBool false)));
           ("1Month", mkrev (strftime (plus_days 30 d)) (Some (PyBool false))) ]
     ∧ ∀ k, (k <= 30)%nat → strptime (strftime (plus_days k d)) = Ok (plus_days k d))
  ∧ (∀ s d, strptime s = Ok d → before (mkdate 9999 12 1) d →
       make_revision_dates s = Raise OverflowError)
  ∧ make_revision_dates "2025-01-10" =
      Ok [ ("24H", mkrev "2025-01-11" (Some (PyBool false)));
           ("3Days", mkrev "2025-01-13" (Some (PyBool false)));
           ("1Week", mkrev "2025-01-17" (Some (PyBool false)));
           ("1Month", mkrev "2025-02-09" (Some (PyBool false))) ].
Proof.
  split; [|split; [|reflexivity]].
  - intros s d Hs Hd.
    destruct (strptime_valid s d Hs) as [Hv _].
    unfold before in Hd. pose proof last_schedulable_day.
    split; [|split; [reflexivity|]]; cycle 1.
    { intros k Hk. destruct (plus_days_spec k d Hv) as [Hvk Hok].
      apply strptime_strftime; [done|]. apply year_bound; [done|lia]. }
    unfold make_revision_dates. rewrite Hs. simpl.
    change (datetime_add d 1) with (datetime_add d (Z.of_nat 1)).
    change (datetime_add d 3) with (datetime_add d (Z.of_nat 3)).
    change (datetime_add d 7) with (datetime_add d (Z.of_nat 7)).
    change (datetime_add d 30) with (datetime_add d (Z.of_nat 30)).
    rewrite !datetime_add_plus_days by (done || lia).
    reflexivity.
  - intros s d Hs Hd. unfold before in Hd. pose proof last_schedulable_day.
    unfold make_revision_dates. rewrite Hs. simpl.
    rewrite (datetime_add_overflow d 30) by lia.
    destruct (datetime_add d 1) eqn:E1, (datetime_add d 3) eqn:E3,
      (datetime_add d 7) eqn:E7; simpl;
      repeat match goal with
        | E : datetime_add _ _ = Raise _ |- _ => apply datetime_add_raises in E; subst
        end; reflexivity.
Qed.

Lemma make_revision_dates_schedule_witness :
  strptime "2024-02-28" = Ok (mkdate 2024 2 28)
  ∧ make_revision_dates "2024-02-28" =
      Ok [ ("24H", mkrev "2024-02-29" (Some (PyBool false)));
           ("3Days", mkrev "2024-03-02" (Some (PyBool false)));
           ("1Week", mkrev "2024-03-06" (Some (PyBool false)));
           ("1Month", mkrev "2024-03-29" (Some (PyBool false))) ].
Proof.
  split; [reflexivity|].
  destruct (proj1 make_revision_dates_schedule "2024-02-28" (mkdate 2024 2 28)) as (H & _).
  - reflexivity.
  - unfold before. vm_compute. discriminate.
  - exact H.
Defined.

(** C1 as stated fails on the last days the calendar has: 9999-12-31 is a
    date in the form YYYY-MM-DD, and no checkpoint is returned for it. *)
Lemma make_revision_dates_last_day :
  strptime "9999-12-31" = Ok (mkdate 9999 12 31)
  ∧ make_revision_dates "9999-12-31" = Raise OverflowError.
Proof. split; reflexivity. Qed.

(** * Status of a checkpoint *)

Lemma date_ltb_lt a b : date_ltb a b = true ↔ date_lt a b.
Proof.
  unfold date_ltb, date_lt.
  rewrite orb_true_iff, andb_true_iff, orb_true_iff, andb_true_iff,
    !Z.ltb_lt, !Z.eqb_eq. tauto.
Qed.

Lemma date_eqb_eq a b : date_eqb a b = true ↔ a = b.
Proof.
  unfold date_eqb. rewrite !andb_true_iff, !Z.eqb_eq.
  destruct a, b; simpl. split; [intros [[-> ->] ->]; reflexivity | intros [= -> -> ->]; done].
Qed.

Lemma date_ltb_before a b :
  valid_date a → valid_date b → date_ltb a b = bool_decide (before a b).
Proof.
  intros Ha Hb. apply eq_true_iff_eq.
  rewrite date_ltb_lt, bool_decide_eq_true. symmetry. by apply before_date_lt.
Qed.

Lemma date_eqb_decide a b : date_eqb a b = bool_decide (a = b).
Proof. apply eq_true_iff_eq. by rewrite date_eqb_eq, bool_decide_eq_true. Qed.

Lemma status_style_inj s1 s2 : status_style s1 = status_style s2 → s1 = s2.
Proof. by destruct s1, s2. Qed.

(** C2: the style of a checkpoint's date label follows the classification
    in priority order: Completed when the completed flag is true, whatever
    the date; otherwise Overdue when the date is strictly before today;
    otherwise DueToday when the date is today; otherwise Upcoming. *)
Theorem fill_table_highlight_classify (r : rev) (today d : date) :
  strptime (rev_date r) = Ok d → valid_date today →
  _fill_table_highlight r today = Ok (status_style (classify (is_completed r) d today))
  ∧ (is_completed r = true →
       _fill_table_highlight r today = Ok (status_style Completed))
  ∧ (is_completed r = false → before d today →
       _fill_table_highlight r today = Ok (status_style Overdue))
  ∧ (is_completed r = false → ¬ before d today → d = today →
       _fill_table_highlight r today = Ok (status_style DueToday))
  ∧ (is_completed r = false → ¬ before d today → d ≠ today →
       _fill_table_highlight r today = Ok (status_style Upcoming)).
Proof.
  intros Hs Ht. destruct (strptime_valid _ _ Hs) as [Hd _].
  assert (H : _fill_table_highlight r today
              = Ok (status_style (classify (is_completed r) d today))).
  { unfold _fill_table_highlight, classify, is_completed. rewrite Hs. simpl.
    rewrite date_ltb_before, date_eqb_decide by done.
    destruct (truthy _); [done|]. by repeat case_bool_decide. }
  rewrite H. unfold classify.
  repeat split; intros ->; intros; repeat case_bool_decide; done.
Qed.

Lemma valid_2025_03_01 : valid_date (mkdate 2025 3 1).
Proof. unfold valid_date; simpl. vm_compute. intuition discriminate. Defined.

Lemma fill_table_highlight_classify_witness :
  _fill_table_highlight (mkrev "2025-01-11" (Some (PyBool true))) (mkdate 2025 3 1)
    = Ok (Some "color: green; font-weight:600")
  ∧ _fill_table_highlight (mkrev "2025-01-11" (Some (PyBool false))) (mkdate 2025 3 1)
    = Ok (Some "color: red; font-weight:600").
Proof.
  split.
  - exact (proj1 (fill_table_highlight_classify
             (mkrev "2025-01-11" (Some (PyBool true))) (mkdate 2025 3 1) (mkdate 2025 1 11)
             eq_refl valid_2025_03_01)).
  - exact (proj1 (fill_table_highlight_classify
             (mkrev "2025-01-11" (Some (PyBool false))) (mkdate 2025 3 1) (mkdate 2025 1 11)
             eq_refl valid_2025_03_01)).
Defined.

(** * Dictionaries *)

Section Dict.
Context {V : Type}.
Implicit Types (d : list (string * V)) (k : string) (v : V).

Lemma getitem_raises k d e : getitem k d = Raise e → e = KeyError.
Proof.
  induction d as [|[k' v'] d IH]; simpl; [by intros [= <-]|].
  by destruct (decide (k' = k)).
Qed.

Lemma getitem_setitem k v v0 d : getitem k d = Ok v0 → getitem k (setitem k v d) = Ok v.
Proof.
  induction d as [|[k' v'] d IH]; simpl; [done|].
  destruct (decide (k' = k)) as [->|Hne]; simpl.
  - by rewrite decide_True.
  - rewrite decide_False by done. exact IH.
Qed.

Lemma getitem_setitem_ne k k' v d : k' ≠ k → getitem k' (setitem k v d) = getitem k' d.
Proof.
  intros Hne. induction d as [|[k0 v0] d IH]; simpl; [done|].
  destruct (decide (k0 = k)) as [->|?]; simpl.
  - by rewrite !decide_False by done.
  - destruct (decide (k0 = k')); [done|exact IH].
Qed.

Lemma setitem_setitem k v v' d : setitem k v (setitem k v' d) = setitem k v d.
Proof.
  induction d as [|[k0 v0] d IH]; simpl; [done|].
  destruct (decide (k0 = k)) as [->|?]; simpl.
  - by rewrite decide_True.
  - rewrite decide_False by done. by rewrite IH.
Qed.

Lemma setitem_id k v d : getitem k d = Ok v → setitem k v d = d.
Proof.
  induction d as [|[k0 v0] d IH]; simpl; [done|].
  destruct (decide (k0 = k)) as [->|?]; [by intros [= ->]|].
  intros H. by rewrite IH.
Qed.

Lemma setitem_keys k v d : (setitem k v d).*1 = d.*1.
Proof.
  induction d as [|[k0 v0] d IH]; simpl; [done|].
  destruct (decide (k0 = k)); simpl; [done|by f_equal].
Qed.

(** An entry under another key stays where it is. *)
Lemma setitem_lookup_ne k v d p k' v' :
  d !! p = Some (k', v') → k' ≠ k → setitem k v d !! p = Some (k', v').
Proof.
  revert p. induction d as [|[k0 v0] d IH]; intros [|p]; simpl; try done.
  - intros [= -> ->] Hne. by rewrite decide_False.
  - intros H Hne. destruct (decide (k0 = k)); simpl; [done|by apply IH].
Qed.

Lemma setitem_fmap {W} (f : string * V → W) k v v0 d :
  getitem k d = Ok v0 → f (k, v) = f (k, v0) → f <$> setitem k v d = f <$> d.
Proof.
  intros Hg Hf. induction d as [|[k0 v1] d IH]; simpl in *; [done|].
  destruct (decide (k0 = k)) as [->|?]; simpl.
  - injection Hg as ->. by rewrite Hf.
  - f_equal. by apply IH.
Qed.
End Dict.

(** * Toggling a checkpoint *)

Lemma find_note_cons note_id n ns :
  find_note note_id (n :: ns)
  = if decide (id n = note_id) then Some (0%nat, n)
    else prod_map S (λ x, x) <$> find_note note_id ns.
Proof. reflexivity. Qed.

Lemma find_note_None note_id ns :
  find_note note_id ns = None ↔ ∀ n, n ∈ ns → id n ≠ note_id.
Proof.
  unfold find_note. rewrite list_find_None, Forall_forall. reflexivity.
Qed.

Lemma find_note_Some note_id ns i n :
  find_note note_id ns = Some (i, n) →
  ns !! i = Some n ∧ id n = note_id ∧ ∀ j m, ns !! j = Some m → (j < i)%nat → id m ≠ note_id.
Proof. unfold find_note. by rewrite list_find_Some. Qed.

(** The loop changes the first note with the identifier, in place. *)
Lemma toggle_loop_find note_id key ns :
  toggle_loop note_id key ns =
  match find_note note_id ns with
  | None => Ok None
  | Some (i, n) =>
      r ← getitem key (revisions n);
      Ok (Some (<[i := with_revisions n (setitem key (flip_completed r) (revisions n))]> ns))
  end.
Proof.
  induction ns as [|n ns IH]; [done|].
  rewrite find_note_cons. simpl.
  destruct (decide (id n = note_id)); [done|].
  rewrite IH. destruct (find_note note_id ns) as [[i m]|]; simpl; [|done].
  by destruct (getitem key (revisions m)).
Qed.

Lemma forget_flags_setitem n key r :
  getitem key (revisions n) = Ok r →
  forget_flags (with_revisions n (setitem key (flip_completed r) (revisions n)))
  = forget_flags n.
Proof.
  intros Hr. unfold forget_flags, with_revisions; simpl. f_equal.
  by apply setitem_fmap with (v0 := r).
Qed.

(** C3: [_toggle_revision] leaves the store as it is when no note has the
    identifier; otherwise only the completed flag under the given label of
    the (first) note with that identifier can change: identifiers, texts,
    labels, target dates and the order of notes and of checkpoints stay,
    every other note stays, and so does every checkpoint of that note under
    another label. *)
Theorem toggle_revision_frame (w w' : world) (note_id : Z) (key : string) (out : result ()) :
  _toggle_revision w note_id key = (w', out) →
  ((∀ n, n ∈ notes w → id n ≠ note_id) → w' = w ∧ out = Ok ())
  ∧ forget_flags <$> notes w' = forget_flags <$> notes w
  ∧ length (notes w') = length (notes w)
  ∧ (∀ i n, find_note note_id (notes w) = Some (i, n) →
       (∀ j, j ≠ i → notes w' !! j = notes w !! j)
       ∧ (∃ n', notes w' !! i = Some n'
            ∧ ∀ p k r, revisions n !! p = Some (k, r) → k ≠ key →
                       revisions n' !! p = Some (k, r))
       ∧ (∀ r, getitem key (revisions n) = Ok r →
            out = Ok () ∧ DATA_FILE w' = Some (notes w')
            ∧ notes w' = <[i := with_revisions n
                                  (setitem key (flip_completed r) (revisions n))]> (notes w))
       ∧ (getitem key (revisions n) = Raise KeyError → w' = w ∧ out = Raise KeyError)).
Proof.
  unfold _toggle_revision. rewrite toggle_loop_find.
  destruct (find_note note_id (notes w)) as [[i n]|] eqn:Hf.
  - destruct (find_note_Some _ _ _ _ Hf) as (Hi & Hid & _).
    destruct (getitem key (revisions n)) as [r|e] eqn:Hr; simpl; intros [= <- <-]; simpl.
    + split; [|split; [|split]].
      * intros Hno. exfalso. apply (Hno n); [|done]. by eapply list_elem_of_lookup_2.
      * rewrite list_fmap_insert, forget_flags_setitem by done.
        apply list_insert_id. by rewrite list_lookup_fmap, Hi.
      * by rewrite length_insert.
      * intros i' n' [= <- <-]. split; [|split; [|split]].
        -- intros j Hj. by rewrite list_lookup_insert_ne.
        -- eexists. split.
           ++ apply list_lookup_insert_eq. by eapply lookup_lt_Some.
           ++ simpl. intros p k r0 Hp Hk. by apply setitem_lookup_ne.
        -- intros r0 Hr0. rewrite Hr in Hr0. by injection Hr0 as <-.
        -- by rewrite Hr.
    + apply getitem_raises in Hr as Hk. subst e.
      split; [|split; [|split]]; try done.
      * intros Hno. exfalso. apply (Hno n); [|done]. by eapply list_elem_of_lookup_2.
      * intros i' n' [= <- <-]. split; [done|]. split; [|split].
        -- exists n. split; [done|]. by intros.
        -- intros r0 Hr0. by rewrite Hr in Hr0.
        -- done.
  - intros [= <- <-]. split; [done|]. split; [done|]. split; [done|]. by intros.
Qed.

Lemma toggle_revision_frame_witness :
  forget_flags <$> notes (_toggle_revision two_notes 1736503260000 "1Week").1
    = forget_flags <$> notes two_notes
  ∧ notes (_toggle_revision two_notes 1736503260000 "1Week").1 !! 0%nat = Some quote_note.
Proof.
  destruct (toggle_revision_frame two_notes
              (_toggle_revision two_notes 1736503260000 "1Week").1 1736503260000 "1Week"
              (_toggle_revision two_notes 1736503260000 "1Week").2 eq_refl)
    as (_ & Hf & _ & Hi).
  split; [exact Hf|].
  destruct (Hi 1%nat other_note eq_refl) as (Ho & _).
  rewrite (Ho 0%nat) by lia. reflexivity.
Defined.

Lemma flip_completed_flip r b :
  rev_completed r = Some (PyBool b) → flip_completed (flip_completed r) = r.
Proof.
  destruct r as [d c]. simpl. intros ->. unfold flip_completed; simpl.
  by rewrite negb_involutive.
Qed.

Lemma with_revisions_id n : with_revisions n (revisions n) = n.
Proof. by destruct n. Qed.

Lemma find_note_insert note_id ns i n n' :
  find_note note_id ns = Some (i, n) → id n' = note_id →
  find_note note_id (<[i := n']> ns) = Some (i, n').
Proof.
  intros Hf Hid. destruct (find_note_Some _ _ _ _ Hf) as (Hi & _ & Hlt).
  unfold find_note. apply list_find_Some. split; [|split; [done|]].
  - apply list_lookup_insert_eq. by eapply lookup_lt_Some.
  - intros j m Hj Hji. rewrite list_lookup_insert_ne in Hj by lia. by eapply Hlt.
Qed.

(** C10: when the note with identifier [note_id] carries a boolean
    completed flag under the label, toggling twice gives back the note
    collection, while toggling once changes that flag's value. *)
Theorem toggle_revision_involution (w : world) (note_id : Z) (key : string)
    (n : note) (r : rev) (b : bool) :
  n ∈ notes w → id n = note_id →
  (∀ m, m ∈ notes w → id m = note_id → m = n) →
  getitem key (revisions n) = Ok r → rev_completed r = Some (PyBool b) →
  ∃ w1 w2 i n1 r1,
    _toggle_revision w note_id key = (w1, Ok ())
    ∧ _toggle_revision w1 note_id key = (w2, Ok ())
    ∧ notes w2 = notes w
    ∧ notes w !! i = Some n ∧ notes w1 !! i = Some n1
    ∧ getitem key (revisions n1) = Ok r1
    ∧ rev_completed r1 = Some (PyBool (negb b))
    ∧ notes w1 ≠ notes w.
Proof.
  intros Hin Hid Huniq Hr Hb.
  destruct (find_note note_id (notes w)) as [[i n0]|] eqn:Hf; cycle 1.
  { rewrite find_note_None in Hf. by destruct (Hf n Hin). }
  destruct (find_note_Some _ _ _ _ Hf) as (Hi & Hid0 & _).
  assert (n0 = n) as -> by (apply Huniq; [by eapply list_elem_of_lookup_2|done]).
  set (n1 := with_revisions n (setitem key (flip_completed r) (revisions n))).
  assert (Hi1 : <[i := n1]> (notes w) !! i = Some n1)
    by (apply list_lookup_insert_eq; by eapply lookup_lt_Some).
  assert (Hr1 : getitem key (revisions n1) = Ok (flip_completed r))
    by (by apply getitem_setitem with (v0 := r)).
  exists (save_notes (mkworld (<[i := n1]> (notes w)) (DATA_FILE w))),
    (save_notes (mkworld (notes w) (Some (<[i := n1]> (notes w))))), i, n1, (flip_completed r).
  split; [|split; [|split; [|split; [|split; [|split; [|split]]]]]]; try done.
  - unfold _toggle_revision. by rewrite toggle_loop_find, Hf, Hr.
  - unfold _toggle_revision. rewrite toggle_loop_find. simpl.
    rewrite (find_note_insert note_id (notes w) i n n1) by done.
    rewrite Hr1. simpl.
    rewrite (flip_completed_flip r b), setitem_setitem, setitem_id by done.
    change (with_revisions n1 (revisions n)) with (with_revisions n (revisions n)).
    rewrite with_revisions_id, list_insert_insert_eq, list_insert_id by done.
    reflexivity.
  - simpl. unfold get_completed_or_False. by rewrite Hb.
  - simpl. intros Heq. rewrite Heq, Hi in Hi1. injection Hi1 as Hn.
    rewrite <- Hn, Hr in Hr1. injection Hr1 as Hfl.
    apply (f_equal rev_completed) in Hfl. rewrite Hb in Hfl.
    unfold flip_completed, get_completed_or_False in Hfl. rewrite Hb in Hfl.
    simpl in Hfl. by destruct b.
Qed.

Lemma toggle_revision_involution_witness :
  ∃ w1 w2,
    _toggle_revision two_notes 1736503260000 "24H" = (w1, Ok ())
    ∧ _toggle_revision w1 1736503260000 "24H" = (w2, Ok ())
    ∧ notes w2 = notes two_notes.
Proof.
  destruct (toggle_revision_involution two_notes 1736503260000 "24H" other_note
              (mkrev "2025-01-11" (Some (PyBool true))) true)
    as (w1 & w2 & _ & _ & _ & H1 & H2 & H3 & _).
  - apply list_elem_of_In. simpl. right. left. reflexivity.
  - reflexivity.
  - intros m Hm. apply list_elem_of_In in Hm. simpl in Hm.
    destruct Hm as [<- | [<- | []]]; [discriminate | reflexivity].
  - reflexivity.
  - reflexivity.
  - exists w1, w2. split; [exact H1 | split; [exact H2 | exact H3]].
Defined.

(** * Statistics *)

Lemma fold_count_rev rs p c :
  fold_left count_rev rs (p, c)
  = ((p + length (filter (λ r, is_completed r = false) rs))%nat,
     (c + length (filter (λ r, is_completed r = true) rs))%nat).
Proof.
  revert p c. induction rs as [|r rs IH]; intros p c; simpl.
  - f_equal; lia.
  - assert (E : truthy (get_completed r) = is_completed r) by done.
    destruct (is_completed r) eqn:Hc; rewrite E, IH.
    + rewrite filter_cons_False, filter_cons_True by congruence. simpl. f_equal; lia.
    + rewrite filter_cons_True, filter_cons_False by congruence. simpl. f_equal; lia.
Qed.

Lemma fold_count_note ns p c :
  fold_left count_note ns (p, c)
  = ((p + pending_count ns)%nat, (c + completed_count ns)%nat).
Proof.
  revert p c. unfold pending_count, completed_count, checkpoints.
  induction ns as [|n ns IH]; intros p c.
  - simpl. f_equal; lia.
  - cbn [fold_left]. unfold count_note at 2. rewrite fold_count_rev, IH.
    rewrite bind_cons, !filter_app, !length_app. f_equal; lia.
Qed.

Lemma update_stats_total ns :
  _update_stats ns = (length ns, pending_count ns, completed_count ns).
Proof. unfold _update_stats. by rewrite fold_count_note. Qed.

Lemma truthy_get_completed_or_False r :
  truthy (get_completed_or_False r) = is_completed r.
Proof. by destruct r as [d [c|]]. Qed.

Lemma is_completed_flip r : is_completed (flip_completed r) = negb (is_completed r).
Proof. unfold is_completed at 1. simpl. by rewrite truthy_get_completed_or_False. Qed.

(** C4: the counters of [_update_stats] are the number of notes, the
    number of checkpoints whose completed flag is false and the number whose
    flag is true, over all notes; a store with one note and no checkpoint
    completed gives (1, 4, 0), and (1, 3, 1) after one checkpoint is toggled. *)
Theorem update_stats_counts :
  (∀ ns, _update_stats ns = (length ns, pending_count ns, completed_count ns)
         ∧ (pending_count ns + completed_count ns)%nat = length (checkpoints ns)
         ∧ stats_labels ns = [ "Total notes: " +:+ pretty (length ns);
                               "Pending revisions: " +:+ pretty (pending_count ns);
                               "Completed revisions: " +:+ pretty (completed_count ns) ])
  ∧ (∀ n, (revisions n).*1 = LABELS →
          (∀ r, r ∈ (revisions n).*2 → is_completed r = false) →
          _update_stats [n] = (1, 4, 0)%nat
          ∧ ∀ w key, notes w = [n] → key ∈ LABELS →
              _update_stats (notes (_toggle_revision w (id n) key).1) = (1, 3, 1)%nat).
Proof.
  split.
  - intros ns. split; [|split]; cycle 2.
    + unfold stats_labels. by rewrite update_stats_total.
    + apply update_stats_total.
    + unfold pending_count, completed_count.
      induction (checkpoints ns) as [|r rs IH]; [done|].
      destruct (is_completed r) eqn:Hc.
      * rewrite filter_cons_False, filter_cons_True by congruence. simpl. lia.
      * rewrite filter_cons_True, filter_cons_False by congruence. simpl. lia.
  - intros [i s c cd revs]. simpl. intros Hk Hr.
    destruct revs as [|[k1 r1] [|[k2 r2] [|[k3 r3] [|[k4 r4] [|? ?]]]]]; try done.
    injection Hk as -> -> -> ->.
    assert (is_completed r1 = false ∧ is_completed r2 = false
            ∧ is_completed r3 = false ∧ is_completed r4 = false) as (H1 & H2 & H3 & H4).
    { repeat split; apply Hr; apply list_elem_of_In; simpl; tauto. }
    unfold is_completed in *.
    split.
    + unfold _update_stats, count_note, count_rev; simpl. by rewrite H1, H2, H3, H4.
    + intros [ns f] key Hns Hkey. simpl in Hns. subst ns.
      apply list_elem_of_In in Hkey. simpl in Hkey.
      destruct Hkey as [<-|[<-|[<-|[<-|[]]]]];
        unfold _toggle_revision; simpl; rewrite decide_True by done; simpl;
        unfold _update_stats, count_note, count_rev; simpl;
        fold (is_completed r1) (is_completed r2) (is_completed r3) (is_completed r4) in *;
        rewrite ?truthy_get_completed_or_False; by rewrite H1, H2, H3, H4.
Qed.

Lemma update_stats_counts_witness :
  _update_stats [quote_note] = (1, 4, 0)%nat
  ∧ _update_stats (notes (_toggle_revision (mkworld [quote_note] None)
                            1736503200000 "1Week").1) = (1, 3, 1)%nat.
Proof.
  destruct (proj2 update_stats_counts quote_note) as [H0 H1].
  - reflexivity.
  - intros r Hr. apply list_elem_of_In in Hr. simpl in Hr.
    destruct Hr as [<-|[<-|[<-|[<-|[]]]]]; reflexivity.
  - split; [exact H0|].
    apply (H1 (mkworld [quote_note] None) "1Week"); [reflexivity|].
    apply list_elem_of_In. simpl. tauto.
Defined.

(** * Loading *)

(** C8: [load_notes] never raises; it returns the empty collection when the
    file is absent, cannot be read or does not parse, and the parsed document
    when the file exists and parses, and in no other case. *)
Theorem load_notes_recovers (json_load : string → result json) (file : option (result string)) :
  ∃ v, load_notes json_load file = Ok v
    ∧ (file = None → v = JArr [])
    ∧ (∀ e, file = Some (Raise e) → v = JArr [])
    ∧ (∀ text e, file = Some (Ok text) → json_load text = Raise e → v = JArr [])
    ∧ (∀ text doc, file = Some (Ok text) → json_load text = Ok doc → v = doc)
    ∧ (v ≠ JArr [] → ∃ text, file = Some (Ok text) ∧ json_load text = Ok v).
Proof.
  destruct file as [[text|e]|]; simpl.
  - destruct (json_load text) as [doc|e] eqn:E; simpl.
    + exists doc. repeat split; try done.
      * intros ? ? [= <-]. by rewrite E.
      * intros ? ? [= <-]. rewrite E. by intros [= <-].
      * intros _. by exists text.
    + exists (JArr []). repeat split; try done.
      intros ? ? [= <-]. by rewrite E.
  - exists (JArr []). by repeat split.
  - exists (JArr []). by repeat split.
Qed.

Lemma load_notes_recovers_witness :
  load_notes toy_json_load None = Ok (JArr [])
  ∧ load_notes toy_json_load (Some (Raise OSError)) = Ok (JArr [])
  ∧ load_notes toy_json_load (Some (Ok "{oops")) = Ok (JArr [])
  ∧ load_notes toy_json_load (Some (Ok "[1]")) = Ok (JArr [JNum 1]).
Proof.
  split; [|split; [|split]].
  - destruct (load_notes_recovers toy_json_load None) as (v & -> & H & _).
    by rewrite H.
  - destruct (load_notes_recovers toy_json_load (Some (Raise OSError))) as (v & -> & _ & H & _).
    by rewrite (H OSError).
  - destruct (load_notes_recovers toy_json_load (Some (Ok "{oops"))) as (v & -> & _ & _ & H & _).
    by rewrite (H "{oops" ValueError).
  - destruct (load_notes_recovers toy_json_load (Some (Ok "[1]"))) as (v & -> & _ & _ & _ & H & _).
    by rewrite (H "[1]" (JArr [JNum 1])).
Defined.

(** * Adding a note *)

Lemma currentData_selected i code name :
  SUBJECT_OPTIONS !! i = Some (code, name) →
  currentData (S i) = Some (code +:+ "|" +:+ name)
  ∧ code +:+ "|" +:+ name ≠ ""
  ∧ split "|" (code +:+ "|" +:+ name) = [code; name].
Proof.
  do 8 (destruct i as [|i]; [intros [= <- <-]; by vm_compute|]). done.
Qed.

Lemma currentData_unselected idx :
  (idx = 0 ∨ 8 < idx)%nat → currentData idx = Some "" ∨ currentData idx = None.
Proof.
  intros [->|H]; [by left|right].
  unfold currentData. rewrite lookup_ge_None_2; [done|]. simpl. lia.
Qed.

Lemma make_revision_dates_labels s revs : make_revision_dates s = Ok revs → revs.*1 = LABELS.
Proof.
  unfold make_revision_dates.
  destruct (strptime s) as [d|]; simpl; [|done].
  destruct (datetime_add d 1); simpl; [|done].
  destruct (datetime_add d 3); simpl; [|done].
  destruct (datetime_add d 7); simpl; [|done].
  destruct (datetime_add d 30); simpl; [|done].
  by intros [= <-].
Qed.

Lemma make_revision_dates_unparsed s e :
  strptime s = Raise e → make_revision_dates s = Raise ValueError.
Proof.
  unfold make_revision_dates. intros H. rewrite H. simpl. f_equal.
  unfold strptime in H. destruct (format_match s) as [[[[y m] d] rest]|]; [|congruence].
  destruct (decide (rest = "")); [|congruence].
  destruct (_check_date_fields y m d); congruence.
Qed.

(** C9 (as amended): [add_note] shows a missing-field warning and leaves
    the store as it is (nothing appended, nothing written) when no subject of
    the known set is selected or when the code is empty after trimming.  It
    does not validate the completion date: a date that does not parse, or one
    after 9999-12-01, raises an exception, and the store is still left as it
    is.  Otherwise exactly one note, with the four checkpoints, is appended at
    the end of the collection, and the collection is written. *)
Theorem add_note_cases (w : world) (idx : nat) (text completion_date : string) (now_ms : Z) :
  ((idx = 0 ∨ 8 < idx)%nat →
     add_note w idx text completion_date now_ms
     = (w, Ok (Some (Warning "Missing subject" "Please select a subject."))))
  ∧ (∀ i code name, idx = S i → SUBJECT_OPTIONS !! i = Some (code, name) →
       (strip text = "" →
          add_note w idx text completion_date now_ms
          = (w, Ok (Some (Warning "Missing code" "Please enter the note code."))))
       ∧ (strip text ≠ "" → ∀ e, strptime completion_date = Raise e →
            add_note w idx text completion_date now_ms = (w, Raise ValueError))
       ∧ (strip text ≠ "" → ∀ e, make_revision_dates completion_date = Raise e →
            add_note w idx text completion_date now_ms = (w, Raise e))
       ∧ (strip text ≠ "" → ∀ revs, make_revision_dates completion_date = Ok revs →
            let new_note := mknote now_ms name (strip text) completion_date revs in
            add_note w idx text completion_date now_ms
            = (mkworld (notes w ++ [new_note]) (Some (notes w ++ [new_note])), Ok None)
            ∧ revs.*1 = LABELS)).
Proof.
  split.
  - intros H. unfold add_note.
    by destruct (currentData_unselected idx H) as [-> | ->].
  - intros i code name -> Hi.
    destruct (currentData_selected i code name Hi) as (Hd & Hne & Hsp).
    unfold add_note. rewrite Hd.
    destruct (code +:+ "|" +:+ name) as [|c data] eqn:E; [done|].
    rewrite Hsp.
    split; [|split; [|split]].
    + intros ->. by rewrite decide_True.
    + intros Hs e He. rewrite decide_False by done.
      by rewrite (make_revision_dates_unparsed _ _ He).
    + intros Hs e He. rewrite decide_False by done. by rewrite He.
    + intros Hs revs Hr. rewrite decide_False by done. rewrite Hr.
      split; [done|by eapply make_revision_dates_labels].
Qed.

Lemma add_note_cases_witness :
  add_note two_notes 0 "M01-03" "2025-01-10" 1736503320000
    = (two_notes, Ok (Some (Warning "Missing subject" "Please select a subject.")))
  ∧ add_note two_notes 6 "    " "2025-01-10" 1736503320000
    = (two_notes, Ok (Some (Warning "Missing code" "Please enter the note code.")))
  ∧ (add_note two_notes 6 " M06-03 " "2025-01-10" 1736503320000).1
    = (let n := mknote 1736503320000 "Advanced Mathematics –I" "M06-03" "2025-01-10"
                       fresh_revisions in
       mkworld [quote_note; other_note; n] (Some [quote_note; other_note; n])).
Proof.
  split; [|split].
  - apply (proj1 (add_note_cases two_notes 0 "M01-03" "2025-01-10" 1736503320000)).
    left. reflexivity.
  - destruct (proj2 (add_note_cases two_notes 6 "    " "2025-01-10" 1736503320000)
                5%nat "I64T001M06" "Advanced Mathematics –I" eq_refl eq_refl) as (H & _).
    apply H. reflexivity.
  - destruct (proj2 (add_note_cases two_notes 6 " M06-03 " "2025-01-10" 1736503320000)
                5%nat "I64T001M06" "Advanced Mathematics –I" eq_refl eq_refl)
      as (_ & _ & _ & H).
    destruct (H ltac:(vm_compute; discriminate) fresh_revisions eq_refl) as [-> _].
    reflexivity.
Defined.

(** C9 as stated fails: with a subject selected, a code entered and the
    date 9999-12-31, which parses, none of the three rejections applies, yet
    no note is appended and no missing-field warning is shown; and a date
    text that does not parse raises ValueError instead of a warning. *)
Lemma add_note_not_validated :
  currentData 1 = Some "I64T001M01|Occupational Health & Safety"
  ∧ strip "M01-01" = "M01-01"
  ∧ strptime "9999-12-31" = Ok (mkdate 9999 12 31)
  ∧ add_note two_notes 1 "M01-01" "9999-12-31" 1736503320000
    = (two_notes, Raise OverflowError)
  ∧ strptime "2025-02-30" = Raise ValueError
  ∧ add_note two_notes 1 "M01-01" "2025-02-30" 1736503320000
    = (two_notes, Raise ValueError).
Proof. repeat split; reflexivity. Qed.

(** * Reminders *)

(** The test of the poller is "today or tomorrow". *)
Lemma is_due_spec d now :
  valid_date d → valid_date now →
  is_due d now = bool_decide (d = now ∨ d = next_day now).
Proof.
  intros Hd Hn. apply eq_true_iff_eq.
  unfold is_due, date_sub_days.
  rewrite orb_true_iff, date_eqb_eq, Z.eqb_eq, bool_decide_eq_true.
  pose proof (toordinal_next_day now Hn) as Hs.
  split; (intros [H|H]; [by left|right]).
  - apply toordinal_inj; [done|by apply next_day_valid|lia].
  - subst d. lia.
Qed.

Lemma check_revisions_spec now n items sent :
  valid_date now →
  (∀ key r, (key, r) ∈ items → is_completed r = false →
            ∃ d, strptime (rev_date r) = Ok d) →
  check_revisions now n items sent
  = (sent ++ (items ≫= λ '(key, r),
        if due_on now r
        then [mktoast "Revision Reminder"
                (noteCode n +:+ " — " +:+ key +:+ " due " +:+ rev_date r)]
        else []), Ok ()).
Proof.
  intros Hn. revert sent.
  induction items as [|[key r] items IH]; intros sent Hp.
  - simpl. by rewrite app_nil_r.
  - rewrite bind_cons. cbn [check_revisions].
    assert (Hp' : ∀ key r, (key, r) ∈ items → is_completed r = false →
                           ∃ d, strptime (rev_date r) = Ok d).
    { intros k' r' Hin. apply (Hp k' r'). by right. }
    unfold due_on. fold (is_completed r).
    destruct (is_completed r) eqn:Hc; simpl.
    + by rewrite IH.
    + destruct (Hp key r ltac:(left) Hc) as [d Hd]. rewrite Hd.
      destruct (strptime_valid _ _ Hd) as [Hv _].
      rewrite <- is_due_spec by done.
      destruct (is_due d now); rewrite IH by done; [|done].
      by rewrite <- app_assoc.
Qed.

Lemma check_notes_spec now ns sent :
  valid_date now →
  (∀ n key r, n ∈ ns → (key, r) ∈ revisions n → is_completed r = false →
              ∃ d, strptime (rev_date r) = Ok d) →
  check_notes now ns sent = (sent ++ reminders now ns, Ok ()).
Proof.
  intros Hn. revert sent. unfold reminders.
  induction ns as [|n ns IH]; intros sent Hp.
  - simpl. by rewrite app_nil_r.
  - rewrite bind_cons. cbn [check_notes].
    rewrite check_revisions_spec; [|done|].
    + rewrite IH; [by rewrite app_assoc|].
      intros n' key r Hin. apply (Hp n' key r). by right.
    + intros key r. apply (Hp n key r). by left.
Qed.

Lemma elem_of_reminders today ns t :
  t ∈ reminders today ns ↔
  ∃ n key r, n ∈ ns ∧ (key, r) ∈ revisions n ∧ due_on today r = true
    ∧ t = mktoast "Revision Reminder"
            (noteCode n +:+ " — " +:+ key +:+ " due " +:+ rev_date r).
Proof.
  unfold reminders. rewrite list_elem_of_bind. split.
  - intros (n & Ht & Hn). apply list_elem_of_bind in Ht as ([key r] & Ht & Hr).
    exists n, key, r. destruct (due_on today r); [|by apply elem_of_nil in Ht].
    apply list_elem_of_singleton in Ht. done.
  - intros (n & key & r & Hn & Hr & Hd & ->). exists n. split; [|done].
    apply list_elem_of_bind. exists (key, r). split; [|done].
    rewrite Hd. by apply list_elem_of_singleton.
Qed.

(** C7: on a tick with notifications enabled and the notifier available,
    one toast is shown for each checkpoint, over all notes, whose completed
    flag is false and whose date is today or the day after today, and for no
    other checkpoint; the toast carries the note code, the label and the due
    date. *)
Theorem check_due_revisions_reminders (now : date) (ns : list note) :
  valid_date now →
  (∀ n key r, n ∈ ns → (key, r) ∈ revisions n → is_completed r = false →
              ∃ d, strptime (rev_date r) = Ok d) →
  _check_due_revisions true true now ns = (reminders now ns, Ok ())
  ∧ (∀ t, t ∈ (_check_due_revisions true true now ns).1 ↔
       ∃ n key r d, n ∈ ns ∧ (key, r) ∈ revisions n
         ∧ is_completed r = false ∧ strptime (rev_date r) = Ok d
         ∧ (d = now ∨ d = next_day now)
         ∧ t = mktoast "Revision Reminder"
                 (noteCode n +:+ " — " +:+ key +:+ " due " +:+ rev_date r)).
Proof.
  intros Hn Hp.
  assert (E : _check_due_revisions true true now ns = (reminders now ns, Ok ())).
  { unfold _check_due_revisions. simpl. by rewrite check_notes_spec. }
  split; [done|]. rewrite E. simpl. intros t. rewrite elem_of_reminders.
  split.
  - intros (n & key & r & Hin & Hr & Hd & ->). unfold due_on in Hd.
    apply andb_true_iff in Hd as [Hc Hd]. apply negb_true_iff in Hc.
    destruct (strptime (rev_date r)) as [d|] eqn:Hs; [|done].
    apply bool_decide_eq_true in Hd. by exists n, key, r, d.
  - intros (n & key & r & d & Hin & Hr & Hc & Hs & Hd & ->).
    exists n, key, r. repeat split; try done.
    unfold due_on. rewrite Hc, Hs. simpl. by apply bool_decide_eq_true.
Qed.

Lemma check_due_revisions_reminders_witness :
  _check_due_revisions true true (mkdate 2025 1 12) (notes two_notes)
  = ([ mktoast "Revision Reminder" "I64T001M01-01 — 3Days due 2025-01-13";
       mktoast "Revision Reminder" "I64T001M06-02 — 3Days due 2025-01-13" ], Ok ()).
Proof.
  refine (proj1 (check_due_revisions_reminders (mkdate 2025 1 12) (notes two_notes) _ _)).
  - unfold valid_date; simpl. vm_compute. intuition discriminate.
  - intros n key r Hn Hr _. apply list_elem_of_In in Hn. simpl in Hn.
    destruct Hn as [<-|[<-|[]]]; apply list_elem_of_In in Hr; simpl in Hr;
      destruct Hr as [[= <- <-]|[[= <- <-]|[[= <- <-]|[[= <- <-]|[]]]]];
      eexists; reflexivity.
Defined.

(** * CSV export *)

Lemma replace_no_quote v : has_quote v = false → replace QUOTE QQ v = v.
Proof.
  induction v as [|c v IH]; simpl; [done|].
  intros H. apply orb_false_iff in H as [Hc Hv]. apply bool_decide_eq_false in Hc.
  rewrite decide_False by done. by rewrite IH.
Qed.

Lemma push_str_cons v f fs : push_str v (f :: fs) = (v +:+ f) :: fs.
Proof. induction v as [|c v IH]; simpl; [done|by rewrite IH]. Qed.

(** Reading an escaped field up to its closing quote gives the field back. *)
Lemma csv_read_field v rest :
  csv_read InField (replace QUOTE QQ v +:+ String QUOTE rest)
  = push_str v <$> csv_read QuoteSeen rest.
Proof.
  induction v as [|c v IH]; cbn [replace push_str].
  - rewrite string_app_nil_l. cbn [csv_read]. rewrite decide_True by done.
    by destruct (csv_read QuoteSeen rest).
  - destruct (decide (c = QUOTE)) as [->|Hc].
    + unfold QQ at 1. rewrite !string_app_cons, string_app_nil_l. cbn [csv_read].
      rewrite !decide_True by done. rewrite IH.
      by destruct (csv_read QuoteSeen rest).
    + rewrite string_app_cons. cbn [csv_read].
      rewrite decide_False by done. rewrite IH.
      by destruct (csv_read QuoteSeen rest).
Qed.

Lemma csv_read_row v vals :
  csv_read FieldStart (join "," (quoted <$> (replace QUOTE QQ <$> (v :: vals))))
  = Some (v :: vals).
Proof.
  revert v. induction vals as [|v' vals IH]; intros v.
  - cbn [fmap list_fmap join]. unfold quoted. cbn [csv_read].
    rewrite decide_True by done. rewrite csv_read_field. cbn [csv_read fmap option_fmap option_map].
    by rewrite push_str_cons, string_app_nil_r.
  - change (join "," (quoted <$> (replace QUOTE QQ <$> (v :: v' :: vals))))
      with (quoted (replace QUOTE QQ v) +:+ ","
            +:+ join "," (quoted <$> (replace QUOTE QQ <$> (v' :: vals)))).
    unfold quoted at 1. rewrite string_app_cons. cbn [csv_read].
    rewrite decide_True by done.
    rewrite string_app_assoc, string_app_cons, string_app_nil_l.
    rewrite csv_read_field. rewrite string_app_cons, string_app_nil_l. cbn [csv_read].
    rewrite decide_False by done. rewrite decide_True by done.
    rewrite IH. cbn [fmap option_fmap option_map].
    by rewrite push_str_cons, string_app_nil_r.
Qed.

Lemma in_labels l : l ∈ LABELS ↔ l = "24H" ∨ l = "3Days" ∨ l = "1Week" ∨ l = "1Month".
Proof.
  rewrite list_elem_of_In. simpl. split.
  - intros [<-|[<-|[<-|[<-|[]]]]]; tauto.
  - intros [->|[->|[->| ->]]]; tauto.
Qed.

Lemma status_text_str r : status_text r = str (get_completed_or_False r).
Proof. destruct r as [d [[|[]|z|s]|]]; reflexivity. Qed.

Lemma csv_row_values n :
  (∀ l, l ∈ LABELS → ∃ r, getitem l (revisions n) = Ok r) →
  ∃ vals, csv_values n = Ok vals ∧ length vals = 11%nat
    ∧ csv_row n = Ok ((replace QUOTE QQ <$> take 2 vals) ++ drop 2 vals).
Proof.
  intros H. unfold csv_values, csv_row.
  destruct (H "24H") as [r1 ->]; [apply list_elem_of_In; simpl; tauto|].
  destruct (H "3Days") as [r2 ->]; [apply list_elem_of_In; simpl; tauto|].
  destruct (H "1Week") as [r3 ->]; [apply list_elem_of_In; simpl; tauto|].
  destruct (H "1Month") as [r4 ->]; [apply list_elem_of_In; simpl; tauto|].
  eexists. split; [reflexivity|]. split; [reflexivity|].
  rewrite !status_text_str. reflexivity.
Qed.

Lemma csv_lines_rows lines ns :
  (∀ n l, n ∈ ns → l ∈ LABELS → ∃ r, getitem l (revisions n) = Ok r) →
  ∃ rows, csv_lines lines ns = Ok (lines ++ rows)
    ∧ Forall2 (λ n row, ∃ cells, csv_row n = Ok cells ∧ row = join "," (quoted <$> cells))
        ns rows.
Proof.
  revert lines. induction ns as [|n ns IH]; intros lines H.
  - exists []. simpl. by rewrite app_nil_r.
  - destruct (csv_row_values n) as (vals & _ & _ & Hrow).
    { intros l. apply H. by left. }
    destruct (IH (lines ++ [join "," (quoted <$> (replace QUOTE QQ <$> take 2 vals)
                                                  ++ drop 2 vals)]))
      as (rows & Hrows & HF).
    { intros n' l Hn'. apply H. by right. }
    eexists (_ :: rows). simpl. rewrite Hrow. simpl. rewrite Hrows.
    split; [by rewrite <- app_assoc|].
    constructor; [|done]. eexists. by split.
Qed.

(** Counting the double quotes of a record: a reader of quoted fields uses
    two for each field it returns and two more for each quote inside one. *)
Lemma quotes_app s1 s2 : quotes (s1 +:+ s2) = (quotes s1 + quotes s2)%nat.
Proof.
  induction s1 as [|c s1 IH]; [done|].
  rewrite string_app_cons. cbn [quotes]. rewrite IH. lia.
Qed.

Lemma quotes_replace v : quotes (replace QUOTE QQ v) = (2 * quotes v)%nat.
Proof.
  induction v as [|c v IH]; [done|]. cbn [replace quotes].
  destruct (decide (c = QUOTE)) as [->|Hc].
  - rewrite quotes_app, IH. change (quotes QQ) with 2%nat. lia.
  - cbn [quotes]. rewrite decide_False by done. lia.
Qed.

Lemma quotes_zero v : has_quote v = false ↔ quotes v = 0%nat.
Proof.
  induction v as [|c v IH]; [done|]. cbn [has_quote quotes].
  rewrite orb_false_iff, IH, bool_decide_eq_false.
  destruct (decide (c = QUOTE)); split.
  - by intros [? _].
  - lia.
  - intros [_ ->]. lia.
  - intros Hq. split; [done|lia].
Qed.

Lemma quotes_quoted c : quotes (quoted c) = (2 + quotes c)%nat.
Proof.
  unfold quoted. cbn [quotes]. rewrite decide_True by done.
  rewrite quotes_app. change (quotes (String QUOTE "")) with 1%nat. lia.
Qed.

Lemma quotes_join_quoted cells :
  quotes (join "," (quoted <$> cells))
  = (2 * length cells + sum_list_with quotes cells)%nat.
Proof.
  induction cells as [|c cells IH]; [done|].
  destruct cells as [|c' cells].
  - cbn [fmap list_fmap join]. rewrite quotes_quoted. simpl. lia.
  - change (join "," (quoted <$> c :: c' :: cells))
      with (quoted c +:+ "," +:+ join "," (quoted <$> c' :: cells)).
    rewrite !quotes_app, quotes_quoted, IH.
    change (quotes ",") with 0%nat.
    change (sum_list_with quotes (c :: c' :: cells))
      with (quotes c + sum_list_with quotes (c' :: cells))%nat.
    change (length (c :: c' :: cells)) with (S (length (c' :: cells))). lia.
Qed.

Lemma push_quotes c fs :
  fs ≠ [] →
  length (push c fs) = length fs
  ∧ sum_list_with quotes (push c fs)
    = ((if decide (c = QUOTE) then 1 else 0) + sum_list_with quotes fs)%nat.
Proof.
  destruct fs as [|f fs]; [done|]. intros _. split; [done|].
  cbn [push sum_list_with quotes]. lia.
Qed.

Lemma csv_read_quotes s st fs :
  csv_read st s = Some fs →
  fs ≠ []
  ∧ (quotes s + match st with FieldStart => 0 | InField => 1 | QuoteSeen => 2 end
     = 2 * length fs + 2 * sum_list_with quotes fs)%nat.
Proof.
  revert st fs. induction s as [|c s IH]; intros st fs.
  - destruct st; cbn [csv_read]; try done. intros [= <-]. split; [done|]. reflexivity.
  - cbn [csv_read quotes]. destruct st.
    + destruct (decide (c = QUOTE)); [|done]. intros H.
      destruct (IH _ _ H) as [Hne Hq]. split; [done|]. lia.
    + destruct (decide (c = QUOTE)).
      * intros H. destruct (IH _ _ H) as [Hne Hq]. split; [done|]. lia.
      * destruct (csv_read InField s) as [fs'|] eqn:E; [|done]. intros [= <-].
        destruct (IH _ _ E) as [Hne Hq]. destruct (push_quotes c fs' Hne) as [Hl Hs].
        rewrite decide_False in Hs by done.
        split; [by destruct fs'|]. rewrite Hl, Hs. lia.
    + destruct (decide (c = QUOTE)) as [->|Hc].
      * destruct (csv_read InField s) as [fs'|] eqn:E; [|done]. intros [= <-].
        destruct (IH _ _ E) as [Hne Hq]. destruct (push_quotes QUOTE fs' Hne) as [Hl Hs].
        rewrite decide_True in Hs by done.
        split; [by destruct fs'|]. rewrite Hl, Hs. lia.
      * destruct (decide (c = ","%char)); [|done].
        destruct (csv_read FieldStart s) as [fs'|] eqn:E; [|done]. intros [= <-].
        destruct (IH _ _ E) as [Hne Hq]. split; [done|].
        cbn [length sum_list_with quotes]. lia.
Qed.

Lemma sum_quotes_zero vs :
  sum_list_with quotes vs = 0%nat ↔ ∀ v, v ∈ vs → has_quote v = false.
Proof.
  induction vs as [|v vs IH]; cbn [sum_list_with].
  - split; [|done]. intros _ v Hv. by apply elem_of_nil in Hv.
  - split.
    + intros H v' Hv'. apply elem_of_cons in Hv' as [->|Hv'].
      * apply quotes_zero. lia.
      * apply IH; [lia|done].
    + intros H. assert (quotes v = 0%nat) as -> by (apply quotes_zero, H; by left).
      apply IH. intros v' Hv'. apply H. by right.
Qed.

(** A row in which only the first two fields have their quotes doubled is
    read back as its values exactly when the other fields hold no quote,
    and only then is it the record with every quote doubled. *)
Lemma csv_row_read vals :
  (2 <= length vals)%nat →
  let row := join "," (quoted <$> ((replace QUOTE QQ <$> take 2 vals) ++ drop 2 vals)) in
  (csv_read FieldStart row = Some vals ↔ ∀ v, v ∈ drop 2 vals → has_quote v = false)
  ∧ (row = csv_record vals ↔ ∀ v, v ∈ drop 2 vals → has_quote v = false).
Proof.
  intros Hl row.
  assert (Hback : (∀ v, v ∈ drop 2 vals → has_quote v = false) → row = csv_record vals).
  { intros Hq. unfold row, csv_record.
    assert (drop 2 vals = replace QUOTE QQ <$> drop 2 vals) as ->.
    { clear -Hq. induction (drop 2 vals) as [|v l IHl]; [done|].
      simpl. rewrite replace_no_quote by (apply Hq; by left).
      f_equal. apply IHl. intros v' Hv'. apply Hq. by right. }
    by rewrite <- fmap_app, take_drop. }
  assert (Hrec : csv_read FieldStart (csv_record vals) = Some vals).
  { destruct vals as [|v vals]; [simpl in Hl; lia|]. apply csv_read_row. }
  assert (Hforth : csv_read FieldStart row = Some vals →
                   ∀ v, v ∈ drop 2 vals → has_quote v = false).
  { intros Hr. apply csv_read_quotes in Hr as [_ Hq].
    unfold row in Hq. rewrite quotes_join_quoted in Hq.
    rewrite length_app, length_fmap, <- length_app, take_drop in Hq.
    rewrite sum_list_with_app in Hq.
    assert (sum_list_with quotes vals
            = (sum_list_with quotes (take 2 vals) + sum_list_with quotes (drop 2 vals))%nat)
      as Hv by (by rewrite <- sum_list_with_app, take_drop).
    assert (sum_list_with quotes (replace QUOTE QQ <$> take 2 vals)
            = (2 * sum_list_with quotes (take 2 vals))%nat) as Hs.
    { clear. induction (take 2 vals) as [|v l IHl]; [done|].
      cbn [fmap list_fmap sum_list_with]. rewrite quotes_replace.
      cbn [fmap] in IHl. rewrite IHl. lia. }
    rewrite Hs, Hv in Hq. apply sum_quotes_zero. lia. }
  split; split; [done| |intros ->; by apply Hforth|done].
  intros Hq. by rewrite Hback.
Qed.

Lemma digit_no_quote c : is_digit c = true → bool_decide (c = QUOTE) = false.
Proof.
  intros H. apply bool_decide_eq_false. intros ->. done.
Qed.

Lemma re_Y_plain : plain re_Y.
Proof.
  intros s v rest. unfold re_Y.
  destruct s as [|a [|b [|c [|d s]]]]; try done.
  destruct (is_digit a) eqn:Ea, (is_digit b) eqn:Eb, (is_digit c) eqn:Ec,
    (is_digit d) eqn:Ed; try done.
  intros [= <- <-]. exists (String a (String b (String c (String d "")))).
  split; [done|]. cbn [has_quote]. by rewrite !digit_no_quote.
Qed.

Lemma two_digits_plain lo1 hi1 lo2 hi2 : plain (two_digits lo1 hi1 lo2 hi2).
Proof.
  intros s v rest. unfold two_digits.
  destruct s as [|a [|b s]]; try done.
  destruct (is_digit a) eqn:Ea, (is_digit b) eqn:Eb; try done.
  cbn [andb]. destruct (in_range lo1 hi1 a && in_range lo2 hi2 b); try done.
  intros [= <- <-]. exists (String a (String b "")).
  split; [done|]. cbn [has_quote]. by rewrite !digit_no_quote.
Qed.

Lemma one_digit_plain : plain one_digit.
Proof.
  intros s v rest. unfold one_digit.
  destruct s as [|a s]; try done.
  destruct (is_digit a) eqn:Ea; try done.
  cbn [andb]. destruct (in_range 1 9 a); try done.
  intros [= <- <-]. exists (String a "").
  split; [done|]. cbn [has_quote]. by rewrite !digit_no_quote.
Qed.

Lemma space_digit_plain : plain space_digit.
Proof.
  intros s v rest. unfold space_digit.
  destruct s as [|a s]; try done.
  destruct (decide (a = " "%char)) as [->|Ha].
  - intros H. destruct (one_digit_plain _ _ _ H) as (pre & -> & Hq).
    exists (String " " pre). split; [done|]. cbn [has_quote]. by rewrite Hq.
  - destruct a as [[] [] [] [] [] [] [] []]; try done.
Qed.

Lemma has_quote_app s1 s2 : has_quote (s1 +:+ s2) = has_quote s1 || has_quote s2.
Proof.
  induction s1 as [|c s1 IH]; [done|].
  rewrite string_app_cons. cbn [has_quote]. by rewrite IH, orb_assoc.
Qed.

Lemma first_alt_plain {A} alts (k : Z → string → option A) s r :
  Forall plain alts → first_alt alts k s = Some r →
  ∃ v pre rest, s = pre +:+ rest ∧ has_quote pre = false ∧ k v rest = Some r.
Proof.
  intros Hall. induction Hall as [|a alts Ha Hall IH]; [done|].
  cbn [first_alt]. destruct (a s) as [[v rest]|] eqn:E; cbn [mbind option_bind].
  - destruct (k v rest) as [r'|] eqn:Ek.
    + intros [= <-]. destruct (Ha _ _ _ E) as (pre & -> & Hq). by exists v, pre, rest.
    + apply IH.
  - apply IH.
Qed.

Lemma lit_plain {A} (k : string → option A) s r :
  lit "-" k s = Some r → ∃ rest, s = String "-" rest ∧ k rest = Some r.
Proof.
  unfold lit. destruct s as [|a s]; [done|].
  destruct (decide (a = "-"%char)) as [->|]; [|done]. intros H. by exists s.
Qed.

Lemma strptime_no_quote s d : strptime s = Ok d → has_quote s = false.
Proof.
  unfold strptime. destruct (format_match s) as [[[[y m] d'] rest]|] eqn:E; [|done].
  destruct (decide (rest = "")) as [->|]; [|done]. intros _.
  unfold format_match in E.
  destruct (re_Y s) as [[y0 s1]|] eqn:EY; [|done]. cbn [mbind option_bind] in E.
  destruct (re_Y_plain _ _ _ EY) as (p0 & -> & H0).
  apply lit_plain in E as (s2 & -> & E).
  apply first_alt_plain in E as (vm & p1 & s3 & -> & H1 & E);
    [|repeat constructor; auto using two_digits_plain, one_digit_plain].
  apply lit_plain in E as (s4 & -> & E).
  apply first_alt_plain in E as (vd & p2 & s5 & -> & H2 & E);
    [|repeat constructor; auto using two_digits_plain, one_digit_plain, space_digit_plain].
  injection E as _ _ _ ->.
  rewrite has_quote_app, H0. cbn [has_quote orb].
  rewrite has_quote_app, H1. cbn [has_quote orb].
  rewrite has_quote_app, H2. reflexivity.
Qed.

Lemma status_text_plain r : well_formed r → has_quote (status_text r) = false.
Proof.
  intros [_ [H|[b H]]]; unfold status_text; rewrite H; [done|by destruct b].
Qed.

(** The dates and status texts of a note whose checkpoints are well formed
    hold no double quote. *)
Lemma csv_values_plain n vals :
  csv_values n = Ok vals →
  (∃ d, strptime (completionDate n) = Ok d) →
  (∀ l r, l ∈ LABELS → getitem l (revisions n) = Ok r → well_formed r) →
  ∀ v, v ∈ drop 2 vals → has_quote v = false.
Proof.
  unfold csv_values. intros Hv [d Hd] Hwf.
  destruct (getitem "24H" (revisions n)) as [r1|] eqn:E1; [|done].
  destruct (getitem "3Days" (revisions n)) as [r2|] eqn:E2; [|done].
  destruct (getitem "1Week" (revisions n)) as [r3|] eqn:E3; [|done].
  destruct (getitem "1Month" (revisions n)) as [r4|] eqn:E4; [|done].
  cbn [mbind result_bind] in Hv. injection Hv as <-.
  assert (W1 : well_formed r1) by (apply (Hwf "24H"); [apply in_labels; tauto|done]).
  assert (W2 : well_formed r2) by (apply (Hwf "3Days"); [apply in_labels; tauto|done]).
  assert (W3 : well_formed r3) by (apply (Hwf "1Week"); [apply in_labels; tauto|done]).
  assert (W4 : well_formed r4) by (apply (Hwf "1Month"); [apply in_labels; tauto|done]).
  intros v Hin. cbn [drop] in Hin. apply list_elem_of_In in Hin. cbn [In] in Hin.
  destruct Hin as [<-|[<-|[<-|[<-|[<-|[<-|[<-|[<-|[<-|[]]]]]]]]]];
    try (by apply status_text_plain);
    try (by eapply strptime_no_quote);
    match goal with
    | |- has_quote (rev_date ?r) = false =>
        match goal with W : well_formed r |- _ =>
          destruct W as [[d' Hd'] _]; by eapply strptime_no_quote end
    end.
Qed.

(** C5 (as amended): for a non-empty collection, the CSV text is the header
    line followed by one line per note in collection order.  The header
    line names subject, code, completion date and then a date and a status
    column for 24H, 3Days, 1Week and 1Month in this order; its names are
    separated by commas and not enclosed in quotes.  On a note's line every
    field is enclosed in double quotes; the quotes inside subject and code
    are doubled, and the completion date, the checkpoint dates and the
    status texts are written as they are, so that the line is the record
    with every quote doubled, and is read back as the note's values,
    exactly when these nine hold no quote; they hold none when the dates
    are calendar dates and the flags booleans, as the program makes them.
    A subject [Test "Quote"] is written with [""Quote""]. *)
Theorem export_csv_rows (ns : list note) :
  ns ≠ [] →
  (∀ n l, n ∈ ns → l ∈ LABELS → ∃ r, getitem l (revisions n) = Ok r) →
  ∃ rows,
    export_csv ns = Ok (Saved (join NL (CSV_HEADER :: rows)))
    ∧ CSV_HEADER = join "," COLUMNS
    ∧ has_quote CSV_HEADER = false
    ∧ Forall2 (λ n row,
         ∃ vals,
           csv_values n = Ok vals ∧ length vals = 11%nat
           ∧ row = join "," (quoted <$> ((replace QUOTE QQ <$> take 2 vals) ++ drop 2 vals))
           ∧ (row = csv_record vals ↔ ∀ v, v ∈ drop 2 vals → has_quote v = false)
           ∧ (csv_read FieldStart row = Some vals
              ↔ ∀ v, v ∈ drop 2 vals → has_quote v = false)
           ∧ ((∃ d, strptime (completionDate n) = Ok d) →
              (∀ l r, l ∈ LABELS → getitem l (revisions n) = Ok r → well_formed r) →
              row = csv_record vals ∧ csv_read FieldStart row = Some vals)) ns rows
    ∧ export_csv [quote_note]
      = Ok (Saved (CSV_HEADER +:+ NL +:+
          join "," [ quoted ("Test " +:+ QQ +:+ "Quote" +:+ QQ);
                     quoted "I64T001M01-01"; quoted "2025-01-10";
                     quoted "2025-01-11"; quoted "False";
                     quoted "2025-01-13"; quoted "False";
                     quoted "2025-01-17"; quoted "False";
                     quoted "2025-02-09"; quoted "False" ])).
Proof.
  intros Hne H.
  destruct (csv_lines_rows [CSV_HEADER] ns H) as (rows & Hrows & HF).
  exists rows. split; [|split; [reflexivity|split; [reflexivity|split; [|reflexivity]]]].
  - unfold export_csv. destruct ns; [done|]. by rewrite Hrows.
  - clear Hrows Hne. induction HF as [|n row ns rows (cells & Hc & ->) HF IH]; [done|].
    constructor.
    + destruct (csv_row_values n) as (vals & Hv & Hl & Hrow).
      { intros l. apply H. by left. }
      rewrite Hc in Hrow. injection Hrow as ->.
      destruct (csv_row_read vals) as [Hread Hrec]; [lia|].
      exists vals. split; [done|]. split; [done|]. split; [done|].
      split; [done|]. split; [done|]. intros Hd Hwf.
      split; [apply Hrec|apply Hread]; by apply (csv_values_plain n).
    + apply IH. intros n' l Hn'. apply (H n' l). by right.
Qed.

Lemma export_csv_rows_witness :
  ∃ row,
    export_csv [quote_note] = Ok (Saved (join NL [CSV_HEADER; row]))
    ∧ row = csv_record [ subjectName quote_note; "I64T001M01-01"; "2025-01-10";
                         "2025-01-11"; "False"; "2025-01-13"; "False";
                         "2025-01-17"; "False"; "2025-02-09"; "False" ]
    ∧ csv_read FieldStart row
      = Some [ subjectName quote_note; "I64T001M01-01"; "2025-01-10";
               "2025-01-11"; "False"; "2025-01-13"; "False";
               "2025-01-17"; "False"; "2025-02-09"; "False" ].
Proof.
  destruct (export_csv_rows [quote_note]) as (rows & H & _ & _ & HF & _).
  - discriminate.
  - intros n l Hn Hl. apply list_elem_of_In in Hn. apply list_elem_of_In in Hl.
    simpl in Hn, Hl.
    destruct Hn as [<-|[]]; destruct Hl as [<-|[<-|[<-|[<-|[]]]]];
      eexists; reflexivity.
  - inversion HF as [|n row ns rows' (vals & Hv & _ & _ & Hrec & Hread & _) HF']; subst.
    inversion HF'; subst.
    exists row. split; [exact H|].
    injection Hv as <-.
    assert (Hq : ∀ v, v ∈ drop 2 [ subjectName quote_note; "I64T001M01-01"; "2025-01-10";
                                   "2025-01-11"; "False"; "2025-01-13"; "False";
                                   "2025-01-17"; "False"; "2025-02-09"; "False" ] →
                      has_quote v = false).
    { intros v Hin. apply list_elem_of_In in Hin. simpl in Hin.
      repeat (destruct Hin as [<-|Hin]; [reflexivity|]). destruct Hin. }
    split; [by apply Hrec|by apply Hread].
Defined.

(** C5 as stated fails twice over.  The header line holds no quote at all:
    it is not the record of the column names with every field quoted, and a
    reader of quoted fields rejects it.  And a double quote in the
    completion date is written as it is: the note's line is not the record
    of its values with every quote doubled, and the reader rejects it. *)
Lemma export_csv_bare_fields :
  (∃ row,
     export_csv [quote_note] = Ok (Saved (join NL [CSV_HEADER; row]))
     ∧ CSV_HEADER = join "," COLUMNS
     ∧ CSV_HEADER ≠ csv_record COLUMNS
     ∧ has_quote CSV_HEADER = false
     ∧ csv_read FieldStart CSV_HEADER = None)
  ∧ (∃ vals row,
       csv_values quoted_date_note = Ok vals
       ∧ export_csv [quoted_date_note] = Ok (Saved (join NL [CSV_HEADER; row]))
       ∧ vals !! 2%nat = Some ("d" +:+ String QUOTE "e")
       ∧ row ≠ csv_record vals
       ∧ csv_read FieldStart row = None).
Proof.
  split.
  - eexists. split; [reflexivity|]. split; [reflexivity|].
    split; [|split; reflexivity]. by vm_compute.
  - eexists _, _. split; [reflexivity|]. split; [reflexivity|]. split; [reflexivity|].
    split; [|reflexivity]. by vm_compute.
Qed.

(** * PDF export *)

Lemma sum_ones_length p ns :
  sum_ones p ns = length (filter (λ r, p r = true) (checkpoints ns)).
Proof.
  unfold sum_ones, checkpoints. rewrite sum_list_fmap_const. lia.
Qed.

Lemma sum_ones_pending ns :
  sum_ones (λ r, negb (truthy (get_completed r))) ns = pending_count ns.
Proof.
  rewrite sum_ones_length. unfold pending_count. f_equal.
  apply list_filter_iff. intros r. unfold is_completed. by rewrite negb_true_iff.
Qed.

Lemma sum_ones_completed ns :
  sum_ones (λ r, truthy (get_completed r)) ns = completed_count ns.
Proof. by rewrite sum_ones_length. Qed.

Lemma pdf_cell_date_cell n key r c :
  getitem key (revisions n) = Ok r → rev_completed r = Some c →
  pdf_cell n key = Ok (date_cell r).
Proof.
  intros Hr Hc. unfold pdf_cell, item_completed, date_cell, is_completed, get_completed.
  rewrite Hr. simpl. rewrite Hc. simpl.
  destruct (truthy c); [done|]. by rewrite string_app_nil_r.
Qed.

Lemma pdf_row_cells n :
  (∀ l, l ∈ LABELS → ∃ r c, getitem l (revisions n) = Ok r ∧ rev_completed r = Some c) →
  ∃ r1 r2 r3 r4,
    getitem "24H" (revisions n) = Ok r1 ∧ getitem "3Days" (revisions n) = Ok r2
    ∧ getitem "1Week" (revisions n) = Ok r3 ∧ getitem "1Month" (revisions n) = Ok r4
    ∧ pdf_row n = Ok [ noteCode n; subjectName n; completionDate n;
                       date_cell r1; date_cell r2; date_cell r3; date_cell r4 ].
Proof.
  intros H.
  destruct (H "24H") as (r1 & c1 & H1 & C1); [apply list_elem_of_In; simpl; tauto|].
  destruct (H "3Days") as (r2 & c2 & H2 & C2); [apply list_elem_of_In; simpl; tauto|].
  destruct (H "1Week") as (r3 & c3 & H3 & C3); [apply list_elem_of_In; simpl; tauto|].
  destruct (H "1Month") as (r4 & c4 & H4 & C4); [apply list_elem_of_In; simpl; tauto|].
  exists r1, r2, r3, r4. repeat split; try done.
  unfold pdf_row.
  rewrite (pdf_cell_date_cell n "24H" r1 c1), (pdf_cell_date_cell n "3Days" r2 c2),
    (pdf_cell_date_cell n "1Week" r3 c3), (pdf_cell_date_cell n "1Month" r4 c4) by done.
  reflexivity.
Qed.

Lemma pdf_rows_spec table_data ns :
  (∀ n l, n ∈ ns → l ∈ LABELS →
          ∃ r c, getitem l (revisions n) = Ok r ∧ rev_completed r = Some c) →
  ∃ rows, pdf_rows table_data ns = Ok (table_data ++ rows)
    ∧ Forall2 (λ n row, pdf_row n = Ok row) ns rows.
Proof.
  revert table_data. induction ns as [|n ns IH]; intros table_data H.
  - exists []. simpl. by rewrite app_nil_r.
  - destruct (pdf_row_cells n) as (r1 & r2 & r3 & r4 & _ & _ & _ & _ & Hrow).
    { intros l. apply (H n l). by left. }
    destruct (IH (table_data ++ [[ noteCode n; subjectName n; completionDate n;
                                   date_cell r1; date_cell r2; date_cell r3; date_cell r4 ]]))
      as (rows & Hrows & HF).
    { intros n' l Hn'. apply (H n' l). by right. }
    eexists (_ :: rows). simpl. rewrite Hrow. simpl. rewrite Hrows.
    split; [by rewrite <- app_assoc|]. by constructor.
Qed.

(** C6 (as amended): for a non-empty collection the PDF story holds one
    table, whose header row is Code, Module, Completed, 24H, 3 Days, 1 Week,
    1 Month (the third column, headed Completed, holds the completion date)
    and which has one row per note; a revision cell is the checkpoint's date,
    followed by a check mark exactly when its completed flag is true; the
    story ends with a line that states the total, pending and completed
    counts. *)
Theorem export_pdf_story (ns : list note) (generated : string) :
  ns ≠ [] →
  (∀ n l, n ∈ ns → l ∈ LABELS →
          ∃ r c, getitem l (revisions n) = Ok r ∧ rev_completed r = Some c) →
  ∃ rows,
    export_pdf ns generated
    = Ok (Saved
        [ Paragraph "Study Notes — Revision Tracker" "Title";
          Paragraph ("Generated: " +:+ generated) "Normal";
          Spacer 1 12;
          Table (PDF_HEADER :: rows) 1;
          Spacer 1 12;
          Paragraph ("Total notes: " +:+ pretty (length ns)
                     +:+ " — Pending revisions: " +:+ pretty (pending_count ns)
                     +:+ " — Completed revisions: " +:+ pretty (completed_count ns))
                    "Normal" ])
    ∧ PDF_HEADER = ["Code"; "Module"; "Completed"; "24H"; "3 Days"; "1 Week"; "1 Month"]
    ∧ Forall2 (λ n row,
         ∃ r1 r2 r3 r4,
           getitem "24H" (revisions n) = Ok r1 ∧ getitem "3Days" (revisions n) = Ok r2
           ∧ getitem "1Week" (revisions n) = Ok r3 ∧ getitem "1Month" (revisions n) = Ok r4
           ∧ row = [ noteCode n; subjectName n; completionDate n;
                     date_cell r1; date_cell r2; date_cell r3; date_cell r4 ]) ns rows
    ∧ (∀ r, (is_completed r = true → date_cell r = rev_date r +:+ " ✓")
            ∧ (is_completed r = false → date_cell r = rev_date r))
    ∧ _update_stats ns = (length ns, pending_count ns, completed_count ns).
Proof.
  intros Hne H.
  destruct (pdf_rows_spec [PDF_HEADER] ns H) as (rows & Hrows & HF).
  exists rows. split; [|split; [reflexivity|split; [|split]]].
  - unfold export_pdf. destruct ns as [|n ns']; [done|].
    fold PDF_HEADER. rewrite Hrows. simpl.
    by rewrite sum_ones_pending, sum_ones_completed.
  - clear Hrows Hne. induction HF as [|n row ns rows Hrow HF IH]; [done|].
    constructor.
    + destruct (pdf_row_cells n) as (r1 & r2 & r3 & r4 & H1 & H2 & H3 & H4 & Hr).
      { intros l. apply (H n l). by left. }
      rewrite Hrow in Hr. injection Hr as ->. by exists r1, r2, r3, r4.
    + apply IH. intros n' l Hn'. apply (H n' l). by right.
  - intros r. unfold date_cell. split; by intros ->.
  - apply update_stats_total.
Qed.

Lemma export_pdf_story_witness :
  ∃ rows,
    export_pdf [quote_note; third_note] "2025-01-15 08:30:00"
    = Ok (Saved
        [ Paragraph "Study Notes — Revision Tracker" "Title";
          Paragraph "Generated: 2025-01-15 08:30:00" "Normal";
          Spacer 1 12;
          Table (PDF_HEADER :: rows) 1;
          Spacer 1 12;
          Paragraph "Total notes: 2 — Pending revisions: 7 — Completed revisions: 1" "Normal" ])
    ∧ rows !! 1%nat = Some [ "EMPM01-01"; "Workplace Information Management"; "2025-01-10";
                            "2025-01-11 ✓"; "2025-01-13"; "2025-01-17"; "2025-02-09" ].
Proof.
  destruct (export_pdf_story [quote_note; third_note] "2025-01-15 08:30:00")
    as (rows & H & _ & HF & _).
  - discriminate.
  - intros n l Hn Hl. apply list_elem_of_In in Hn. apply list_elem_of_In in Hl.
    simpl in Hn, Hl.
    destruct Hn as [<-|[<-|[]]]; destruct Hl as [<-|[<-|[<-|[<-|[]]]]];
      eexists _, _; split; reflexivity.
  - exists rows. split; [exact H|].
    inversion HF as [|n1 row1 ns1 rows1 _ HF1]; subst.
    inversion HF1 as [|n2 row2 ns2 rows2 (r1 & r2 & r3 & r4 & H1 & H2 & H3 & H4 & ->) _];
      subst.
    injection H1 as <-. injection H2 as <-. injection H3 as <-. injection H4 as <-.
    reflexivity.
Defined.

(** C6 as stated fails on the header: the third column of the table is
    headed Completed, and no table of the story has the header row with
    Completion Date. *)
Lemma export_pdf_header_completed :
  ∃ story rows,
    export_pdf [quote_note] "2025-01-15 08:30:00" = Ok (Saved story)
    ∧ story !! 3%nat
      = Some (Table (["Code"; "Module"; "Completed"; "24H"; "3 Days"; "1 Week"; "1 Month"]
                     :: rows) 1)
    ∧ ∀ data repeatRows, Table data repeatRows ∈ story →
        data !! 0%nat
        ≠ Some ["Code"; "Module"; "Completion Date"; "24H"; "3 Days"; "1 Week"; "1 Month"].
Proof.
  eexists _, _. split; [reflexivity|]. split; [reflexivity|].
  intros data repeatRows Hin. apply list_elem_of_In in Hin. simpl in Hin.
  destruct Hin as [H|[H|[H|[H|[H|[H|[]]]]]]]; try discriminate.
  injection H as <- <-. simpl. discriminate.
Qed.

(** * Deleting a note *)

Lemma find_note_filter_ne note_id (ns : list note) :
  find_note note_id (filter (λ n, id n ≠ note_id) ns) = None.
Proof.
  apply find_note_None. intros n Hn. by apply list_elem_of_filter in Hn as [? _].
Qed.

Lemma filter_id_absent note_id (ns : list note) :
  (∀ n, n ∈ ns → id n ≠ note_id) → filter (λ n, id n ≠ note_id) ns = ns.
Proof.
  induction ns as [|n ns IH]; intros H; [done|].
  rewrite filter_cons_True by (apply H; by left).
  f_equal. apply IH. intros m Hm. apply H. by right.
Qed.

(** X1: a confirmed delete removes every note with the identifier, not
    only the first, keeps the other notes in their order, and writes the
    result; a declined delete changes nothing; deleting again changes
    nothing more. *)
Theorem delete_note_removes (w : world) (note_id : Z) :
  (∀ n, n ∈ notes (_delete_note w note_id Yes) ↔ n ∈ notes w ∧ id n ≠ note_id)
  ∧ notes (_delete_note w note_id Yes) `sublist_of` notes w
  ∧ find_note note_id (notes (_delete_note w note_id Yes)) = None
  ∧ DATA_FILE (_delete_note w note_id Yes) = Some (notes (_delete_note w note_id Yes))
  ∧ _delete_note (_delete_note w note_id Yes) note_id Yes = _delete_note w note_id Yes
  ∧ _delete_note w note_id No = w.
Proof.
  simpl. split; [|split; [|split; [|split; [|split]]]]; try done.
  - intros n. rewrite list_elem_of_filter. tauto.
  - apply sublist_filter.
  - apply find_note_filter_ne.
  - unfold save_notes; simpl. rewrite filter_id_absent; [done|].
    intros n Hn. by apply list_elem_of_filter in Hn as [? _].
Qed.

(** X2: deleting an identifier that no note has leaves the collection as it
    is, and still writes the data file. *)
Theorem delete_note_absent (w : world) (note_id : Z) :
  (∀ n, n ∈ notes w → id n ≠ note_id) →
  _delete_note w note_id Yes = mkworld (notes w) (Some (notes w)).
Proof.
  intros H. unfold _delete_note, save_notes; simpl. by rewrite filter_id_absent.
Qed.

Lemma delete_note_absent_witness :
  _delete_note two_notes 42 Yes = mkworld [quote_note; other_note] (Some [quote_note; other_note])
  ∧ DATA_FILE two_notes = None.
Proof.
  split; [|reflexivity].
  apply (delete_note_absent two_notes 42).
  intros n Hn. apply list_elem_of_In in Hn. simpl in Hn.
  destruct Hn as [<-|[<-|[]]]; discriminate.
Defined.

Lemma add_note_success_inv w idx text completion_date now_ms w1 :
  add_note w idx text completion_date now_ms = (w1, Ok None) →
  ∃ name revs,
    make_revision_dates completion_date = Ok revs
    ∧ strip text ≠ ""
    ∧ w1 = (let n := mknote now_ms name (strip text) completion_date revs in
            mkworld (notes w ++ [n]) (Some (notes w ++ [n]))).
Proof.
  unfold add_note. destruct (currentData idx) as [[|c data]|]; try done.
  destruct (split "|" (String c data)) as [|code [|name [|? ?]]]; try done.
  destruct (decide (strip text = "")); [done|].
  destruct (make_revision_dates completion_date) as [revs|e]; [|done].
  intros [= <-]. by exists name, revs.
Qed.

(** X3: deleting a note that was just added, under an identifier no other
    note has, gives back the collection as it was before the add. *)
Theorem add_note_then_delete (w w1 : world) (idx : nat) (text completion_date : string)
    (now_ms : Z) :
  add_note w idx text completion_date now_ms = (w1, Ok None) →
  (∀ n, n ∈ notes w → id n ≠ now_ms) →
  notes (_delete_note w1 now_ms Yes) = notes w
  ∧ DATA_FILE (_delete_note w1 now_ms Yes) = Some (notes w).
Proof.
  intros Ha Hfresh.
  destruct (add_note_success_inv _ _ _ _ _ _ Ha) as (name & revs & _ & _ & ->).
  unfold _delete_note, save_notes; simpl.
  rewrite filter_app, filter_id_absent by done.
  rewrite filter_cons_False by (simpl; intros H; by apply H).
  rewrite filter_nil. by rewrite app_nil_r.
Qed.

Lemma add_note_then_delete_witness :
  notes (_delete_note (add_note two_notes 6 " M06-03 " "2025-01-10" 1736503320000).1
           1736503320000 Yes) = notes two_notes.
Proof.
  refine (proj1 (add_note_then_delete two_notes _ 6 " M06-03 " "2025-01-10"
                   1736503320000 eq_refl _)).
  intros n Hn. apply list_elem_of_In in Hn. simpl in Hn.
  destruct Hn as [<-|[<-|[]]]; discriminate.
Defined.

(** X4: once an identifier is deleted, toggling a checkpoint under it does
    nothing, whatever the label. *)
Theorem delete_note_then_toggle (w : world) (note_id : Z) (key : string) :
  _toggle_revision (_delete_note w note_id Yes) note_id key
  = (_delete_note w note_id Yes, Ok ()).
Proof.
  unfold _toggle_revision. rewrite toggle_loop_find. simpl.
  by rewrite find_note_filter_ne.
Qed.

(** * The three views *)

Lemma is_all_done_spec n :
  _is_all_done n = true ↔ ∀ r, r ∈ (revisions n).*2 → is_completed r = true.
Proof.
  unfold _is_all_done. rewrite forallb_forall.
  split; intros H r Hr; apply H; by apply list_elem_of_In.
Qed.

Lemma pending_count_zero ns :
  pending_count ns = 0%nat ↔ ∀ n, n ∈ ns → _is_all_done n = true.
Proof.
  unfold pending_count, checkpoints. induction ns as [|n ns IH].
  - split; [|done]. intros _ n Hn. by apply elem_of_nil in Hn.
  - rewrite bind_cons, filter_app, length_app. split.
    + intros H n' Hn'.
      assert (H1 : length (filter (λ r, is_completed r = false) (revisions n).*2) = 0%nat) by lia.
      assert (H2 : length (filter (λ r, is_completed r = false)
                             (ns ≫= λ n, (revisions n).*2)) = 0%nat) by lia.
      apply elem_of_cons in Hn' as [->|Hn']; [|by apply IH].
      apply is_all_done_spec. intros r Hr.
      destruct (is_completed r) eqn:E; [done|].
      apply length_zero_iff_nil in H1.
      assert (Hin : r ∈ filter (λ r, is_completed r = false) (revisions n).*2)
        by (by apply list_elem_of_filter).
      rewrite H1 in Hin. by apply elem_of_nil in Hin.
    + intros H.
      assert (H2 : length (filter (λ r, is_completed r = false)
                             (ns ≫= λ n, (revisions n).*2)) = 0%nat).
      { apply IH. intros n' Hn'. apply H. by right. }
      rewrite H2, Nat.add_0_r. apply length_zero_iff_nil.
      apply elem_of_nil_inv. intros r Hr.
      apply list_elem_of_filter in Hr as [Hc Hr].
      assert (Hd : _is_all_done n = true) by (apply H; by left).
      rewrite is_all_done_spec in Hd. rewrite (Hd r Hr) in Hc. done.
Qed.

(** X5: the All view is the collection itself, and the Pending and All Done
    views split it: together they hold every note once, each keeps the
    collection's order, and no note is in both. *)
Theorem refresh_table_partition (ns : list note) :
  ∃ pending alldone,
    refresh_table ns = (ns, pending, alldone)
    ∧ pending ++ alldone ≡ₚ ns
    ∧ pending `sublist_of` ns ∧ alldone `sublist_of` ns
    ∧ (∀ n, n ∈ pending ↔ n ∈ ns ∧ _is_all_done n = false)
    ∧ (∀ n, n ∈ alldone ↔ n ∈ ns ∧ _is_all_done n = true).
Proof.
  exists (table_rows (λ n, negb (_is_all_done n)) ns), (table_rows (λ n, _is_all_done n) ns).
  unfold refresh_table, table_rows. split; [|split; [|split; [|split; [|split]]]].
  - do 2 f_equal.
    induction ns as [|n ns IH]; [done|]. rewrite filter_cons_True by done. by f_equal.
  - rewrite Permutation_app_comm.
    rewrite (list_filter_iff (λ n, negb (_is_all_done n) = true)
               (λ n, ¬ _is_all_done n = true)).
    + apply filter_app_complement.
    + intros n. destruct (_is_all_done n); simpl; split; congruence.
  - apply sublist_filter.
  - apply sublist_filter.
  - intros n. rewrite list_elem_of_filter, negb_true_iff. tauto.
  - intros n. rewrite list_elem_of_filter. tauto.
Qed.

(** X6: the pending counter of the statistics is zero exactly when the
    Pending view is empty, that is when every note is all done. *)
Theorem pending_counter_zero (ns : list note) :
  ((_update_stats ns).1.2 = 0%nat ↔ (refresh_table ns).1.2 = [])
  ∧ ((refresh_table ns).1.2 = [] ↔ ∀ n, n ∈ ns → _is_all_done n = true).
Proof.
  assert (H : (refresh_table ns).1.2 = [] ↔ ∀ n, n ∈ ns → _is_all_done n = true).
  { simpl. unfold table_rows. split.
    - intros Hnil n Hn. destruct (_is_all_done n) eqn:E; [done|].
      assert (Hin : n ∈ filter (λ n, negb (_is_all_done n) = true) ns)
        by (apply list_elem_of_filter; by rewrite E).
      rewrite Hnil in Hin. by apply elem_of_nil in Hin.
    - intros Hall. apply elem_of_nil_inv. intros n Hn.
      apply list_elem_of_filter in Hn as [Hc Hn]. by rewrite (Hall n Hn) in Hc. }
  split; [|done]. rewrite H, update_stats_total. simpl. apply pending_count_zero.
Qed.

(** * Toggling, the views and the counters *)

Lemma setitem_split {V} (k : string) (v v0 : V) (d : list (string * V)) :
  getitem k d = Ok v0 →
  ∃ d1 d2, d = d1 ++ (k, v0) :: d2 ∧ setitem k v d = d1 ++ (k, v) :: d2 ∧ k ∉ d1.*1.
Proof.
  induction d as [|[k' v'] d IH]; simpl; [done|].
  destruct (decide (k' = k)) as [->|Hne].
  - intros [= ->]. exists [], d. repeat split. apply not_elem_of_nil.
  - intros H. destruct (IH H) as (d1 & d2 & -> & -> & Hk).
    exists ((k', v') :: d1), d2. repeat split.
    simpl. apply not_elem_of_cons. split; [congruence|done].
Qed.

Lemma toggle_revision_found w note_id key i n r :
  find_note note_id (notes w) = Some (i, n) → getitem key (revisions n) = Ok r →
  notes (_toggle_revision w note_id key).1
  = <[i := with_revisions n (setitem key (flip_completed r) (revisions n))]> (notes w).
Proof.
  intros Hf Hr. unfold _toggle_revision. by rewrite toggle_loop_find, Hf, Hr.
Qed.

Lemma forallb_completed_app (l1 l2 : list rev) :
  forallb (λ r, truthy (get_completed r)) (l1 ++ l2)
  = forallb (λ r, truthy (get_completed r)) l1 && forallb (λ r, truthy (get_completed r)) l2.
Proof. apply forallb_app. Qed.

(** X7: after a checkpoint that was completed is toggled, the note is not
    all done; after one that was not completed is toggled, the note is all
    done exactly when every checkpoint under another label is completed. *)
Theorem toggle_revision_all_done (w : world) (note_id : Z) (key : string)
    (i : nat) (n : note) (r : rev) :
  find_note note_id (notes w) = Some (i, n) → getitem key (revisions n) = Ok r →
  ∃ n', notes (_toggle_revision w note_id key).1 !! i = Some n'
    ∧ (is_completed r = true → _is_all_done n' = false)
    ∧ (is_completed r = false → NoDup (revisions n).*1 →
         (_is_all_done n' = true ↔
          ∀ k' r', (k', r') ∈ revisions n → k' ≠ key → is_completed r' = true)).
Proof.
  intros Hf Hr. destruct (find_note_Some _ _ _ _ Hf) as (Hi & _ & _).
  rewrite (toggle_revision_found w note_id key i n r) by done.
  eexists. split; [apply list_lookup_insert_eq; by eapply lookup_lt_Some|].
  destruct (setitem_split key (flip_completed r) r (revisions n) Hr)
    as (d1 & d2 & Hd & Hs & Hk).
  unfold _is_all_done; simpl. rewrite Hs, fmap_app, fmap_cons, forallb_completed_app.
  simpl. rewrite truthy_get_completed_or_False.
  split.
  - intros ->. simpl. apply andb_false_r.
  - intros -> Hnd. simpl. rewrite andb_true_iff, !forallb_forall.
    rewrite Hd, fmap_app, fmap_cons in Hnd. simpl in Hnd.
    apply NoDup_app in Hnd as (_ & _ & Hnd2). apply NoDup_cons in Hnd2 as [Hk2 _].
    split.
    + intros [H1 H2] k' r' Hin Hne. rewrite Hd in Hin.
      apply elem_of_app in Hin as [Hin|Hin].
      * apply H1. apply list_elem_of_In. apply list_elem_of_fmap. by exists (k', r').
      * apply elem_of_cons in Hin as [[= -> ->]|Hin]; [done|].
        apply H2. apply list_elem_of_In. apply list_elem_of_fmap. by exists (k', r').
    + intros H. split; intros r' Hin; apply list_elem_of_In in Hin;
        apply list_elem_of_fmap in Hin as ([k' r''] & -> & Hin); simpl.
      * apply (H k' r''); [rewrite Hd; apply elem_of_app; by left|].
        intros ->. apply Hk. apply list_elem_of_fmap. by exists (key, r'').
      * apply (H k' r''); [rewrite Hd; apply elem_of_app; right; by right|].
        intros ->. apply Hk2. apply list_elem_of_fmap. by exists (key, r'').
Qed.

Lemma toggle_revision_all_done_witness :
  ∃ n', notes (_toggle_revision two_notes 1736503260000 "24H").1 !! 1%nat = Some n'
    ∧ _is_all_done n' = false.
Proof.
  destruct (toggle_revision_all_done two_notes 1736503260000 "24H" 1 other_note
              (mkrev "2025-01-11" (Some (PyBool true))) eq_refl eq_refl)
    as (n' & Hn & Hdone & _).
  exists n'. split; [exact Hn|]. apply Hdone. reflexivity.
Defined.

Lemma pending_count_app ns1 ns2 :
  pending_count (ns1 ++ ns2) = (pending_count ns1 + pending_count ns2)%nat.
Proof.
  unfold pending_count, checkpoints. by rewrite bind_app, filter_app, length_app.
Qed.

Lemma completed_count_app ns1 ns2 :
  completed_count (ns1 ++ ns2) = (completed_count ns1 + completed_count ns2)%nat.
Proof.
  unfold completed_count, checkpoints. by rewrite bind_app, filter_app, length_app.
Qed.

Lemma pending_count_cons n ns :
  pending_count (n :: ns) = (pending_count [n] + pending_count ns)%nat.
Proof. apply (pending_count_app [n]). Qed.

Lemma completed_count_cons n ns :
  completed_count (n :: ns) = (completed_count [n] + completed_count ns)%nat.
Proof. apply (completed_count_app [n]). Qed.

Lemma counts_toggled n key r :
  getitem key (revisions n) = Ok r →
  let n' := with_revisions n (setitem key (flip_completed r) (revisions n)) in
  if is_completed r
  then pending_count [n'] = S (pending_count [n])
       ∧ S (completed_count [n']) = completed_count [n]
  else S (pending_count [n']) = pending_count [n]
       ∧ completed_count [n'] = S (completed_count [n]).
Proof.
  intros Hr.
  destruct (setitem_split key (flip_completed r) r (revisions n) Hr)
    as (d1 & d2 & Hd & Hs & _).
  unfold pending_count, completed_count, checkpoints. cbn zeta.
  rewrite !bind_singleton. simpl. rewrite Hs, Hd.
  rewrite !fmap_app, !fmap_cons, !filter_app, !length_app. simpl.
  pose proof (is_completed_flip r) as Hfl.
  destruct (is_completed r) eqn:E; simpl in Hfl.
  - rewrite (filter_cons_True _ (flip_completed r)) by done.
    rewrite (filter_cons_False _ r) by congruence.
    rewrite (filter_cons_False _ (flip_completed r)) by congruence.
    rewrite (filter_cons_True _ r) by done.
    simpl. lia.
  - rewrite (filter_cons_False _ (flip_completed r)) by congruence.
    rewrite (filter_cons_True _ r) by done.
    rewrite (filter_cons_True _ (flip_completed r)) by done.
    rewrite (filter_cons_False _ r) by congruence.
    simpl. lia.
Qed.

(** X8: a toggle that finds its note and label moves exactly one
    checkpoint between the two counters of the statistics and keeps the
    total: completed to pending when the flag was true, pending to completed
    when it was false. *)
Theorem toggle_revision_moves_one (w : world) (note_id : Z) (key : string)
    (i : nat) (n : note) (r : rev) :
  find_note note_id (notes w) = Some (i, n) → getitem key (revisions n) = Ok r →
  ∃ total pending completed,
    _update_stats (notes w) = (total, pending, completed)
    ∧ if is_completed r
      then _update_stats (notes (_toggle_revision w note_id key).1)
           = (total, S pending, Nat.pred completed) ∧ (0 < completed)%nat
      else _update_stats (notes (_toggle_revision w note_id key).1)
           = (total, Nat.pred pending, S completed) ∧ (0 < pending)%nat.
Proof.
  intros Hf Hr. destruct (find_note_Some _ _ _ _ Hf) as (Hi & _ & _).
  rewrite (toggle_revision_found w note_id key i n r) by done.
  exists (length (notes w)), (pending_count (notes w)), (completed_count (notes w)).
  split; [apply update_stats_total|].
  rewrite update_stats_total, length_insert.
  rewrite insert_take_drop by (by eapply lookup_lt_Some).
  pose proof (counts_toggled n key r Hr) as Hc. cbn zeta in Hc.
  assert (Hp0 : pending_count (notes w)
                = (pending_count (take i (notes w)) + pending_count [n]
                   + pending_count (drop (S i) (notes w)))%nat).
  { rewrite <- (take_drop_middle (notes w) i n Hi) at 1.
    rewrite pending_count_app, pending_count_cons. lia. }
  assert (Hc0 : completed_count (notes w)
                = (completed_count (take i (notes w)) + completed_count [n]
                   + completed_count (drop (S i) (notes w)))%nat).
  { rewrite <- (take_drop_middle (notes w) i n Hi) at 1.
    rewrite completed_count_app, completed_count_cons. lia. }
  rewrite pending_count_app, completed_count_app, pending_count_cons, completed_count_cons.
  destruct (is_completed r); destruct Hc as [Hp Hc]; split; try lia;
    f_equal; try f_equal; lia.
Qed.

Lemma toggle_revision_moves_one_witness :
  _update_stats (notes two_notes) = (2, 7, 1)%nat
  ∧ _update_stats (notes (_toggle_revision two_notes 1736503260000 "24H").1) = (2, 8, 0)%nat.
Proof.
  destruct (toggle_revision_moves_one two_notes 1736503260000 "24H" 1 other_note
              (mkrev "2025-01-11" (Some (PyBool true))) eq_refl eq_refl)
    as (t & p & c & H0 & H1 & _).
  split; [reflexivity|]. rewrite H1. injection H0 as <- <- <-. reflexivity.
Defined.

Lemma make_revision_dates_shape s revs :
  make_revision_dates s = Ok revs →
  ∃ d d1 d3 d7 d30,
    strptime s = Ok d
    ∧ datetime_add d 1 = Ok d1 ∧ datetime_add d 3 = Ok d3
    ∧ datetime_add d 7 = Ok d7 ∧ datetime_add d 30 = Ok d30
    ∧ revs = [ ("24H", mkrev (strftime d1) (Some (PyBool false)));
               ("3Days", mkrev (strftime d3) (Some (PyBool false)));
               ("1Week", mkrev (strftime d7) (Some (PyBool false)));
               ("1Month", mkrev (strftime d30) (Some (PyBool false))) ].
Proof.
  unfold make_revision_dates.
  destruct (strptime s) as [d|]; simpl; [|done].
  destruct (datetime_add d 1) as [d1|] eqn:E1; simpl; [|done].
  destruct (datetime_add d 3) as [d3|] eqn:E3; simpl; [|done].
  destruct (datetime_add d 7) as [d7|] eqn:E7; simpl; [|done].
  destruct (datetime_add d 30) as [d30|] eqn:E30; simpl; [|done].
  intros [= <-]. by exists d, d1, d3, d7, d30.
Qed.

(** X9: a successful add raises the total by one and the pending counter
    by four, and leaves the completed counter. *)
Theorem add_note_counts (w w1 : world) (idx : nat) (text completion_date : string)
    (now_ms : Z) :
  add_note w idx text completion_date now_ms = (w1, Ok None) →
  ∃ total pending completed,
    _update_stats (notes w) = (total, pending, completed)
    ∧ _update_stats (notes w1) = (S total, (pending + 4)%nat, completed).
Proof.
  intros Ha.
  destruct (add_note_success_inv _ _ _ _ _ _ Ha) as (name & revs & Hr & _ & ->).
  destruct (make_revision_dates_shape _ _ Hr) as (d & d1 & d3 & d7 & d30 & _ & _ & _ & _ & _ & ->).
  exists (length (notes w)), (pending_count (notes w)), (completed_count (notes w)).
  split; [apply update_stats_total|].
  cbn zeta. cbn [notes].
  match goal with |- context [notes w ++ [?x]] => set (new_note := x) end.
  assert (Hp : pending_count [new_note] = 4%nat) by reflexivity.
  assert (Hc : completed_count [new_note] = 0%nat) by reflexivity.
  rewrite update_stats_total, length_app, pending_count_app, completed_count_app, Hp, Hc.
  simpl. f_equal; [f_equal|]; lia.
Qed.

Lemma add_note_counts_witness :
  _update_stats (notes (add_note two_notes 6 " M06-03 " "2025-01-10" 1736503320000).1)
  = (3, 11, 1)%nat.
Proof.
  destruct (add_note_counts two_notes
              (add_note two_notes 6 " M06-03 " "2025-01-10" 1736503320000).1
              6 " M06-03 " "2025-01-10" 1736503320000 eq_refl)
    as (t & p & c & H0 & H1).
  rewrite H1. injection H0 as <- <- <-. reflexivity.
Defined.

(** * The schedule through time *)

Lemma datetime_add_ok d k dk :
  valid_date d → datetime_add d (Z.of_nat k) = Ok dk →
  dk = plus_days k d ∧ valid_date dk ∧ toordinal dk = toordinal d + Z.of_nat k
  ∧ strptime (strftime dk) = Ok dk.
Proof.
  intros Hd Ha.
  assert (Hle : toordinal d + Z.of_nat k <= _MAXORDINAL).
  { unfold datetime_add in Ha.
    destruct (Z.leb_spec (toordinal d + Z.of_nat k) _MAXORDINAL); [done|].
    by rewrite andb_false_r in Ha. }
  rewrite datetime_add_plus_days in Ha by done. injection Ha as <-.
  destruct (plus_days_spec k d Hd) as [Hv Ho].
  split; [done|]. split; [done|]. split; [done|].
  apply strptime_strftime; [done|]. apply year_bound; [done|lia].
Qed.

Lemma plus_days_inj d a b : valid_date d → plus_days a d = plus_days b d → a = b.
Proof.
  intros Hd H. apply (f_equal toordinal) in H.
  destruct (plus_days_spec a d Hd) as [_ Ha], (plus_days_spec b d Hd) as [_ Hb]. lia.
Qed.

Lemma schedule_shape s d revs :
  strptime s = Ok d → make_revision_dates s = Ok revs →
  revs = schedule d
  ∧ ∀ k, (k <= 30)%nat →
      valid_date (plus_days k d) ∧ toordinal (plus_days k d) = toordinal d + Z.of_nat k
      ∧ strptime (strftime (plus_days k d)) = Ok (plus_days k d).
Proof.
  intros Hs Hr. destruct (strptime_valid _ _ Hs) as [Hd _].
  destruct (make_revision_dates_shape _ _ Hr)
    as (d' & d1 & d3 & d7 & d30 & Hs' & H1 & H3 & H7 & H30 & ->).
  rewrite Hs in Hs'. injection Hs' as <-.
  destruct (datetime_add_ok d 1 d1 Hd H1) as (-> & _).
  destruct (datetime_add_ok d 3 d3 Hd H3) as (-> & _).
  destruct (datetime_add_ok d 7 d7 Hd H7) as (-> & _).
  destruct (datetime_add_ok d 30 d30 Hd H30) as (-> & _ & Ho & _).
  split; [reflexivity|]. intros k Hk.
  destruct (plus_days_spec k d Hd) as [Hv Hok]. split; [done|]. split; [done|].
  apply strptime_strftime; [done|]. apply year_bound; [done|].
  pose proof (toordinal_pos _ Hd).
  unfold datetime_add in H30. change (Z.of_nat 30) with 30 in *.
  destruct (Z.leb_spec (toordinal d + 30) _MAXORDINAL); [lia|].
  by rewrite andb_false_r in H30.
Qed.

(** X10: every date [make_revision_dates] writes is read back by
    [strptime], the reader the table and the poller use; read back, the four
    dates lie 1, 3, 7 and 30 days after the completion date by the poller's
    own subtraction, so each is strictly after it. *)
Theorem schedule_dates_read_back (s : string) (d : date) (revs : list (string * rev)) :
  strptime s = Ok d → make_revision_dates s = Ok revs →
  Forall2 (λ (lk : string * nat) (kr : string * rev),
             kr.1 = lk.1
             ∧ rev_completed kr.2 = Some (PyBool false)
             ∧ ∃ dk, strptime (rev_date kr.2) = Ok dk
                 ∧ date_sub_days dk d = Z.of_nat lk.2 ∧ before d dk)
          OFFSETS revs.
Proof.
  intros Hs Hr. destruct (schedule_shape s d revs Hs Hr) as [-> H].
  unfold schedule. apply Forall2_fmap_r, Forall_Forall2_diag, Forall_forall.
  intros [label k] Hin. simpl. split; [done|]. split; [done|].
  assert (Hk : (1 <= k <= 30)%nat).
  { apply list_elem_of_In in Hin. simpl in Hin.
    destruct Hin as [[= <- <-]|[[= <- <-]|[[= <- <-]|[[= <- <-]|[]]]]]; lia. }
  destruct (H k ltac:(lia)) as (_ & Ho & Hp). exists (plus_days k d).
  unfold date_sub_days, before. split; [done|]. lia.
Qed.

Lemma schedule_dates_read_back_witness :
  Forall2 (λ (lk : string * nat) (kr : string * rev),
             kr.1 = lk.1
             ∧ rev_completed kr.2 = Some (PyBool false)
             ∧ ∃ dk, strptime (rev_date kr.2) = Ok dk
                 ∧ date_sub_days dk (mkdate 2025 1 10) = Z.of_nat lk.2
                 ∧ before (mkdate 2025 1 10) dk)
          OFFSETS fresh_revisions.
Proof.
  assert (H1 : strptime "2025-01-10" = Ok (mkdate 2025 1 10)) by (vm_compute; reflexivity).
  assert (H2 : make_revision_dates "2025-01-10" = Ok fresh_revisions)
    by (vm_compute; reflexivity).
  exact (schedule_dates_read_back "2025-01-10" (mkdate 2025 1 10) fresh_revisions H1 H2).
Defined.

Lemma highlight_by_ordinal r dk today :
  strptime (rev_date r) = Ok dk → valid_date today → is_completed r = false →
  _fill_table_highlight r today
  = Ok (status_style
          (if toordinal dk <? toordinal today then Overdue
           else if toordinal dk =? toordinal today then DueToday else Upcoming)).
Proof.
  intros Hs Ht Hc. destruct (strptime_valid _ _ Hs) as [Hd _].
  unfold _fill_table_highlight. rewrite Hs. simpl.
  unfold is_completed in Hc. rewrite Hc.
  rewrite date_ltb_before, date_eqb_decide by done. unfold before.
  destruct (Z.ltb_spec (toordinal dk) (toordinal today)).
  - by rewrite bool_decide_eq_true_2.
  - rewrite bool_decide_eq_false_2 by lia.
    destruct (Z.eqb_spec (toordinal dk) (toordinal today)) as [E|E].
    + rewrite bool_decide_eq_true_2; [done|]. by apply toordinal_inj.
    + rewrite bool_decide_eq_false_2; [done|]. by intros ->.
Qed.

Lemma getitem_schedule d label k :
  (label, k) ∈ OFFSETS →
  (k <= 30)%nat
  ∧ getitem label (schedule d) = Ok (mkrev (strftime (plus_days k d)) (Some (PyBool false))).
Proof.
  intros Hlk. apply list_elem_of_In in Hlk. simpl in Hlk.
  destruct Hlk as [[= <- <-]|[[= <- <-]|[[= <- <-]|[[= <- <-]|[]]]]];
    (split; [lia|reflexivity]).
Qed.

(** X11: [j] days after the completion date, a checkpoint of a note as
    [make_revision_dates] made it, with offset [k], is shown as upcoming
    while [j < k], as due today when [j = k], and as overdue afterwards. *)
Theorem fresh_checkpoint_status (s : string) (d : date) (revs : list (string * rev))
    (j k : nat) (label : string) (r : rev) :
  strptime s = Ok d → make_revision_dates s = Ok revs →
  (label, k) ∈ OFFSETS → getitem label revs = Ok r →
  _fill_table_highlight r (plus_days j d)
  = Ok (status_style (if (j <? k)%nat then Upcoming
                      else if (j =? k)%nat then DueToday else Overdue)).
Proof.
  intros Hs Hr Hlk Hg. destruct (strptime_valid _ _ Hs) as [Hd _].
  destruct (schedule_shape s d revs Hs Hr) as [-> H].
  destruct (plus_days_spec j d Hd) as [Hjv Hjo].
  destruct (getitem_schedule d label k Hlk) as [Hk Hg'].
  rewrite Hg' in Hg. injection Hg as <-.
  destruct (H k Hk) as (Hkv & Hko & Hkp).
  rewrite (highlight_by_ordinal _ (plus_days k d)); [|exact Hkp|exact Hjv|reflexivity].
  rewrite Hko, Hjo.
  destruct (Nat.ltb_spec j k).
  - destruct (Z.ltb_spec (toordinal d + Z.of_nat k) (toordinal d + Z.of_nat j)); [lia|].
    destruct (Z.eqb_spec (toordinal d + Z.of_nat k) (toordinal d + Z.of_nat j)); [lia|done].
  - destruct (Nat.eqb_spec j k).
    + destruct (Z.ltb_spec (toordinal d + Z.of_nat k) (toordinal d + Z.of_nat j)); [lia|].
      destruct (Z.eqb_spec (toordinal d + Z.of_nat k) (toordinal d + Z.of_nat j)); [done|lia].
    + destruct (Z.ltb_spec (toordinal d + Z.of_nat k) (toordinal d + Z.of_nat j)); [done|lia].
Qed.

Lemma fresh_checkpoint_status_witness :
  _fill_table_highlight (mkrev "2025-01-17" (Some (PyBool false))) (plus_days 7 (mkdate 2025 1 10))
    = Ok (Some "color: orange; font-weight:600")
  ∧ _fill_table_highlight (mkrev "2025-01-13" (Some (PyBool false))) (plus_days 7 (mkdate 2025 1 10))
    = Ok (Some "color: red; font-weight:600")
  ∧ plus_days 7 (mkdate 2025 1 10) = mkdate 2025 1 17.
Proof.
  assert (H1 : strptime "2025-01-10" = Ok (mkdate 2025 1 10)) by (vm_compute; reflexivity).
  assert (H2 : make_revision_dates "2025-01-10" = Ok fresh_revisions)
    by (vm_compute; reflexivity).
  split; [|split; [|vm_compute; reflexivity]].
  - apply (fresh_checkpoint_status "2025-01-10" (mkdate 2025 1 10) fresh_revisions
             7 7 "1Week" (mkrev "2025-01-17" (Some (PyBool false))) H1 H2).
    + apply list_elem_of_In. simpl. tauto.
    + vm_compute; reflexivity.
  - apply (fresh_checkpoint_status "2025-01-10" (mkdate 2025 1 10) fresh_revisions
             7 3 "3Days" (mkrev "2025-01-13" (Some (PyBool false))) H1 H2).
    + apply list_elem_of_In. simpl. tauto.
    + vm_compute; reflexivity.
Defined.

(** * The poller and completed checkpoints *)

Lemma check_revisions_noteCode now n n' items sent :
  noteCode n = noteCode n' →
  check_revisions now n items sent = check_revisions now n' items sent.
Proof.
  intros Hc. revert sent. induction items as [|[key r] items IH]; intros sent; [done|].
  cbn [check_revisions]. destruct (truthy (get_completed r)); [apply IH|].
  destruct (strptime (rev_date r)) as [rd|]; [|done].
  destruct (is_due rd now); [|apply IH]. rewrite Hc. apply IH.
Qed.

Lemma check_revisions_filter now n items sent :
  check_revisions now n (filter (λ kr, is_completed kr.2 = false) items) sent
  = check_revisions now n items sent.
Proof.
  revert sent. induction items as [|[key r] items IH]; intros sent; [done|].
  cbn [check_revisions]. fold (is_completed r).
  destruct (is_completed r) eqn:E.
  - rewrite filter_cons_False by (simpl; congruence). apply IH.
  - rewrite filter_cons_True by done. cbn [check_revisions]. fold (is_completed r).
    rewrite E. destruct (strptime (rev_date r)) as [rd|]; [|done].
    destruct (is_due rd now); apply IH.
Qed.

Lemma check_notes_drop_completed now ns sent :
  check_notes now (drop_completed <$> ns) sent = check_notes now ns sent.
Proof.
  revert sent. induction ns as [|n ns IH]; intros sent; [done|].
  rewrite fmap_cons. cbn [check_notes].
  unfold drop_completed at 1 2. cbn [revisions with_revisions].
  rewrite (check_revisions_noteCode now _ n) by done.
  rewrite check_revisions_filter.
  destruct (check_revisions now n (revisions n) sent) as [sent' [[]|e]]; [apply IH|done].
Qed.

(** X12: the poller never looks at a completed checkpoint: it shows the
    same toasts and ends the same way on the collection with the completed
    checkpoints removed, so a completed checkpoint whose date does not parse
    cannot make a tick fail. *)
Theorem check_due_revisions_skips_completed (enabled toaster : bool) (now : date)
    (ns : list note) :
  _check_due_revisions enabled toaster now (drop_completed <$> ns)
  = _check_due_revisions enabled toaster now ns.
Proof.
  unfold _check_due_revisions. destruct enabled, toaster; simpl; try done.
  apply check_notes_drop_completed.
Qed.

(** * What the exports need *)

Lemma csv_row_result n :
  (∀ cells, csv_row n = Ok cells →
     ∀ l, l ∈ LABELS → ∃ r, getitem l (revisions n) = Ok r)
  ∧ (∀ e, csv_row n = Raise e →
       e = KeyError ∧ ∃ l, l ∈ LABELS ∧ getitem l (revisions n) = Raise KeyError).
Proof.
  unfold csv_row.
  destruct (getitem "24H" (revisions n)) as [r1|e1] eqn:E1; simpl;
    [|apply getitem_raises in E1 as E; subst; split; [done|];
      intros e [= <-]; split; [done|]; exists "24H"; split; [apply in_labels; tauto|done]].
  destruct (getitem "3Days" (revisions n)) as [r2|e2] eqn:E2; simpl;
    [|apply getitem_raises in E2 as E; subst; split; [done|];
      intros e [= <-]; split; [done|]; exists "3Days"; split; [apply in_labels; tauto|done]].
  destruct (getitem "1Week" (revisions n)) as [r3|e3] eqn:E3; simpl;
    [|apply getitem_raises in E3 as E; subst; split; [done|];
      intros e [= <-]; split; [done|]; exists "1Week"; split; [apply in_labels; tauto|done]].
  destruct (getitem "1Month" (revisions n)) as [r4|e4] eqn:E4; simpl;
    [|apply getitem_raises in E4 as E; subst; split; [done|];
      intros e [= <-]; split; [done|]; exists "1Month"; split; [apply in_labels; tauto|done]].
  split; [|done]. intros cells _ l Hl. apply in_labels in Hl.
  destruct Hl as [->|[->|[->| ->]]]; eauto.
Qed.

Lemma csv_lines_result lines ns :
  (∀ out, csv_lines lines ns = Ok out →
     ∀ n l, n ∈ ns → l ∈ LABELS → ∃ r, getitem l (revisions n) = Ok r)
  ∧ (∀ e, csv_lines lines ns = Raise e →
       e = KeyError
       ∧ ∃ n l, n ∈ ns ∧ l ∈ LABELS ∧ getitem l (revisions n) = Raise KeyError).
Proof.
  revert lines. induction ns as [|n ns IH]; intros lines.
  - split; [|done]. intros out _ n l Hn. by apply elem_of_nil in Hn.
  - cbn [csv_lines]. destruct (csv_row_result n) as [Hok Herr].
    destruct (csv_row n) as [cells|e0]; simpl.
    + destruct (IH (lines ++ [join "," (quoted <$> cells)])) as [IHok IHerr]. split.
      * intros out Hout n' l Hn'. apply elem_of_cons in Hn' as [->|Hn'].
        -- by apply (Hok cells).
        -- by apply (IHok out).
      * intros e He. destruct (IHerr e He) as (-> & n' & l & Hn' & Hl & Hg).
        split; [done|]. exists n', l. split; [by right|done].
    + split; [done|]. intros e [= <-].
      destruct (Herr e0 eq_refl) as (-> & l & Hl & Hg).
      split; [done|]. exists n, l. split; [by left|done].
Qed.

(** What [export_csv] computes, by the shape of the collection: nothing for
    the empty one, the text when every note has the four labels, KeyError
    when one is missing. *)
Lemma export_csv_cases ns :
  (ns = [] ∧ export_csv ns = Ok (NoNotes (Information "Export" "No notes to export.")))
  ∨ (ns ≠ []
     ∧ (∀ n l, n ∈ ns → l ∈ LABELS → ∃ r, getitem l (revisions n) = Ok r)
     ∧ ∃ text, export_csv ns = Ok (Saved text))
  ∨ (ns ≠ []
     ∧ (∃ n l, n ∈ ns ∧ l ∈ LABELS ∧ getitem l (revisions n) = Raise KeyError)
     ∧ export_csv ns = Raise KeyError).
Proof.
  destruct ns as [|n ns]; [by left|]. right.
  destruct (csv_lines_result [CSV_HEADER] (n :: ns)) as [Hok Herr].
  unfold export_csv. destruct (csv_lines [CSV_HEADER] (n :: ns)) as [lines|e] eqn:E.
  - left. split; [done|]. split; [by apply (Hok lines)|]. by eexists.
  - right. destruct (Herr e eq_refl) as [-> Hm]. by split.
Qed.

Lemma missing_label (ns : list note) :
  (∃ n l, n ∈ ns ∧ l ∈ LABELS ∧ getitem l (revisions n) = Raise KeyError) →
  ¬ (∀ n l, n ∈ ns → l ∈ LABELS → ∃ r, getitem l (revisions n) = Ok r).
Proof.
  intros (n & l & Hn & Hl & Hg) Hall. destruct (Hall n l Hn Hl) as [r Hr]. congruence.
Qed.

(** X13: the CSV export in full.  For the empty collection it shows that
    there is nothing to export and opens no file.  When a note lacks one of
    the four labels it raises KeyError before any file is opened.
    Otherwise (a missing completed key is tolerated) it opens the file and,
    if that succeeds, writes the whole text in one call; it ends with the
    exception of the opening or of the writing when there is one, and with
    the dialog that names the file when there is none.  So no file is
    opened exactly for the empty collection and for a missing label, and
    the file is reported as saved exactly when the collection is not empty,
    every note has the four labels, and opening and writing both succeed. *)
Theorem export_csv_outcome (open_w : string → result ())
    (f_write : string → string → result ()) (ns : list note) (fname : string) :
  (ns = [] →
   export_csv_file open_w f_write ns fname
   = ([], Ok (Information "Export" "No notes to export.")))
  ∧ ((∃ n l, n ∈ ns ∧ l ∈ LABELS ∧ getitem l (revisions n) = Raise KeyError) →
     export_csv_file open_w f_write ns fname = ([], Raise KeyError))
  ∧ (ns ≠ [] →
     (∀ n l, n ∈ ns → l ∈ LABELS → ∃ r, getitem l (revisions n) = Ok r) →
     ∃ text,
       export_csv ns = Ok (Saved text)
       ∧ export_csv_file open_w f_write ns fname
         = match open_w fname with
           | Raise e => ([CallOpen fname], Raise e)
           | Ok _ =>
               ([CallOpen fname; CallWrite fname text],
                match f_write fname text with
                | Raise e => Raise e
                | Ok _ => Ok (Information "Export" ("CSV saved to: " +:+ fname))
                end)
           end)
  ∧ ((export_csv_file open_w f_write ns fname).1 = [] ↔
     ns = [] ∨ ∃ n l, n ∈ ns ∧ l ∈ LABELS ∧ getitem l (revisions n) = Raise KeyError)
  ∧ ((export_csv_file open_w f_write ns fname).2
     = Ok (Information "Export" ("CSV saved to: " +:+ fname)) ↔
     ns ≠ []
     ∧ (∀ n l, n ∈ ns → l ∈ LABELS → ∃ r, getitem l (revisions n) = Ok r)
     ∧ (∃ u, open_w fname = Ok u)
     ∧ ∃ text u, export_csv ns = Ok (Saved text) ∧ f_write fname text = Ok u).
Proof.
  unfold export_csv_file.
  destruct (export_csv_cases ns) as [[-> E]|[(Hne & Hall & text & E)|(Hne & Hm & E)]];
    rewrite E.
  - split; [done|]. split.
    { intros (n & l & Hn & _). by apply elem_of_nil in Hn. }
    split; [done|]. split; [split; [by left|done]|].
    split; [|by intros [? _]]. cbn [snd]. intros [=].
  - split; [done|]. split; [intros Hm; by destruct (missing_label ns Hm)|].
    split; [intros _ _; by exists text|]. split.
    + split.
      * destruct (open_w fname); discriminate.
      * intros [->|Hm]; [done|by destruct (missing_label ns Hm)].
    + split.
      * destruct (open_w fname) as [u|]; [|discriminate]. cbn [snd].
        destruct (f_write fname text) as [u'|] eqn:Ew; [|discriminate]. intros _.
        split; [done|]. split; [done|]. split; [by exists u|]. by exists text, u'.
      * intros (_ & _ & [u ->] & text' & u' & [= <-] & ->). reflexivity.
  - split; [done|]. split; [done|].
    split; [intros _ Hall; by destruct (missing_label ns Hm)|]. split.
    + split; [by right|done].
    + split; [discriminate|]. intros (_ & Hall & _). by destruct (missing_label ns Hm).
Qed.

Lemma export_csv_outcome_witness :
  ∃ text,
    export_csv [quote_note; other_note] = Ok (Saved text)
    ∧ export_csv_file (λ _, Ok ()) (λ _ _, Raise OSError) [quote_note; other_note]
        "study-notes-1736503200.csv"
      = ([ CallOpen "study-notes-1736503200.csv";
           CallWrite "study-notes-1736503200.csv" text ], Raise OSError).
Proof.
  destruct (export_csv_outcome (λ _, Ok ()) (λ _ _, Raise OSError) [quote_note; other_note]
              "study-notes-1736503200.csv") as (_ & _ & H & _).
  destruct H as (text & Ht & Hf).
  - discriminate.
  - intros n l Hn Hl. apply list_elem_of_In in Hn. apply list_elem_of_In in Hl.
    cbn [In] in Hn, Hl.
    destruct Hn as [<-|[<-|[]]]; destruct Hl as [<-|[<-|[<-|[<-|[]]]]];
      eexists; reflexivity.
  - exists text. split; [exact Ht|exact Hf].
Defined.

Lemma pdf_cell_result n key :
  (∀ cell, pdf_cell n key = Ok cell →
     ∃ r c, getitem key (revisions n) = Ok r ∧ rev_completed r = Some c)
  ∧ (∀ e, pdf_cell n key = Raise e → e = KeyError ∧ lacks_flag n key).
Proof.
  unfold pdf_cell, item_completed, lacks_flag.
  destruct (getitem key (revisions n)) as [r|e0] eqn:E; simpl.
  - destruct (rev_completed r) as [c|] eqn:Ec; simpl.
    + split; [|done]. intros cell _. by exists r, c.
    + split; [done|]. intros e [= <-]. split; [done|]. right. by exists r.
  - apply getitem_raises in E. subst. split; [done|]. intros e [= <-]. split; [done|by left].
Qed.

Lemma pdf_row_result n :
  (∀ row, pdf_row n = Ok row →
     ∀ l, l ∈ LABELS → ∃ r c, getitem l (revisions n) = Ok r ∧ rev_completed r = Some c)
  ∧ (∀ e, pdf_row n = Raise e → e = KeyError ∧ ∃ l, l ∈ LABELS ∧ lacks_flag n l).
Proof.
  unfold pdf_row.
  destruct (pdf_cell_result n "24H") as [O1 R1], (pdf_cell_result n "3Days") as [O2 R2],
    (pdf_cell_result n "1Week") as [O3 R3], (pdf_cell_result n "1Month") as [O4 R4].
  destruct (pdf_cell n "24H") as [c1|e1]; simpl;
    [|split; [done|]; intros e [= <-]; destruct (R1 e1 eq_refl) as [-> Hm];
      split; [done|]; exists "24H"; split; [apply in_labels; tauto|done]].
  destruct (pdf_cell n "3Days") as [c2|e2]; simpl;
    [|split; [done|]; intros e [= <-]; destruct (R2 e2 eq_refl) as [-> Hm];
      split; [done|]; exists "3Days"; split; [apply in_labels; tauto|done]].
  destruct (pdf_cell n "1Week") as [c3|e3]; simpl;
    [|split; [done|]; intros e [= <-]; destruct (R3 e3 eq_refl) as [-> Hm];
      split; [done|]; exists "1Week"; split; [apply in_labels; tauto|done]].
  destruct (pdf_cell n "1Month") as [c4|e4]; simpl;
    [|split; [done|]; intros e [= <-]; destruct (R4 e4 eq_refl) as [-> Hm];
      split; [done|]; exists "1Month"; split; [apply in_labels; tauto|done]].
  split; [|done]. intros row _ l Hl. apply in_labels in Hl.
  destruct Hl as [->|[->|[->| ->]]]; eauto.
Qed.

Lemma pdf_rows_result table_data ns :
  (∀ out, pdf_rows table_data ns = Ok out →
     ∀ n l, n ∈ ns → l ∈ LABELS →
            ∃ r c, getitem l (revisions n) = Ok r ∧ rev_completed r = Some c)
  ∧ (∀ e, pdf_rows table_data ns = Raise e →
       e = KeyError ∧ ∃ n l, n ∈ ns ∧ l ∈ LABELS ∧ lacks_flag n l).
Proof.
  revert table_data. induction ns as [|n ns IH]; intros table_data.
  - split; [|done]. intros out _ n l Hn. by apply elem_of_nil in Hn.
  - cbn [pdf_rows]. destruct (pdf_row_result n) as [Hok Herr].
    destruct (pdf_row n) as [row|e0]; simpl.
    + destruct (IH (table_data ++ [row])) as [IHok IHerr]. split.
      * intros out Hout n' l Hn'. apply elem_of_cons in Hn' as [->|Hn'].
        -- by apply (Hok row).
        -- by apply (IHok out).
      * intros e He. destruct (IHerr e He) as (-> & n' & l & Hn' & Hl & Hm).
        split; [done|]. exists n', l. split; [by right|done].
    + split; [done|]. intros e [= <-].
      destruct (Herr e0 eq_refl) as (-> & l & Hl & Hm).
      split; [done|]. exists n, l. split; [by left|done].
Qed.

(** What [export_pdf] computes, by the shape of the collection. *)
Lemma export_pdf_cases ns generated :
  (ns = []
   ∧ export_pdf ns generated = Ok (NoNotes (Information "Export" "No notes to export.")))
  ∨ (ns ≠ []
     ∧ (∀ n l, n ∈ ns → l ∈ LABELS →
               ∃ r c, getitem l (revisions n) = Ok r ∧ rev_completed r = Some c)
     ∧ ∃ story, export_pdf ns generated = Ok (Saved story))
  ∨ (ns ≠ []
     ∧ (∃ n l, n ∈ ns ∧ l ∈ LABELS ∧ lacks_flag n l)
     ∧ export_pdf ns generated = Raise KeyError).
Proof.
  destruct ns as [|n ns]; [by left|]. right.
  destruct (pdf_rows_result [["Code"; "Module"; "Completed"; "24H"; "3 Days";
                               "1 Week"; "1 Month"]] (n :: ns)) as [Hok Herr].
  unfold export_pdf. destruct (pdf_rows _ (n :: ns)) as [rows|e] eqn:E.
  - left. split; [done|]. split; [by apply (Hok rows)|]. by eexists.
  - right. destruct (Herr e eq_refl) as [-> Hm]. by split.
Qed.

Lemma missing_flag (ns : list note) :
  (∃ n l, n ∈ ns ∧ l ∈ LABELS ∧ lacks_flag n l) →
  ¬ (∀ n l, n ∈ ns → l ∈ LABELS →
            ∃ r c, getitem l (revisions n) = Ok r ∧ rev_completed r = Some c).
Proof.
  intros (n & l & Hn & Hl & Hm) Hall. destruct (Hall n l Hn Hl) as (r & c & Hr & Hc).
  destruct Hm as [Hm|(r' & Hr' & Hc')]; congruence.
Qed.

(** X14: the PDF export in full.  For the empty collection it shows that
    there is nothing to export and builds no document.  When a note lacks
    one of the four labels, or one of these checkpoints lacks its completed
    key, it raises KeyError before the document is built.  Otherwise it
    hands the story to the document builder once and ends as the builder
    does: with the builder's exception when it raises one (a story that
    does not fit the page, a file that cannot be written), and with the
    dialog that names the file when it does not.  Its demand on the notes
    is stronger than the CSV export's: whenever the PDF export reaches the
    builder, the CSV export reaches the opening of its file. *)
Theorem export_pdf_outcome (doc_build : string → list flowable → result ())
    (ns : list note) (generated fname : string) :
  (ns = [] →
   export_pdf_file doc_build ns generated fname
   = ([], Ok (Information "Export" "No notes to export.")))
  ∧ ((∃ n l, n ∈ ns ∧ l ∈ LABELS ∧ lacks_flag n l) →
     export_pdf_file doc_build ns generated fname = ([], Raise KeyError))
  ∧ (ns ≠ [] →
     (∀ n l, n ∈ ns → l ∈ LABELS →
             ∃ r c, getitem l (revisions n) = Ok r ∧ rev_completed r = Some c) →
     ∃ story,
       export_pdf ns generated = Ok (Saved story)
       ∧ export_pdf_file doc_build ns generated fname
         = ([CallBuild fname story],
            match doc_build fname story with
            | Raise e => Raise e
            | Ok _ => Ok (Information "Export" ("PDF saved to: " +:+ fname))
            end))
  ∧ ((export_pdf_file doc_build ns generated fname).1 = [] ↔
     ns = [] ∨ ∃ n l, n ∈ ns ∧ l ∈ LABELS ∧ lacks_flag n l)
  ∧ (∀ open_w f_write fname',
       (export_pdf_file doc_build ns generated fname).1 ≠ [] →
       (export_csv_file open_w f_write ns fname').1 ≠ []).
Proof.
  unfold export_pdf_file.
  destruct (export_pdf_cases ns generated)
    as [[-> E]|[(Hne & Hall & story & E)|(Hne & Hm & E)]]; rewrite E.
  - split; [done|]. split.
    { intros (n & l & Hn & _). by apply elem_of_nil in Hn. }
    split; [done|]. split; [split; [by left|done]|]. by intros ? ? ? H.
  - split; [done|]. split; [intros Hm; by destruct (missing_flag ns Hm)|].
    split; [intros _ _; by exists story|]. split.
    + split; [discriminate|]. intros [->|Hm]; [done|by destruct (missing_flag ns Hm)].
    + intros open_w f_write fname' _. unfold export_csv_file.
      destruct (export_csv_cases ns) as [[-> _]|[(_ & _ & text & ->)|(_ & Hc & _)]].
      * done.
      * destruct (open_w fname'); discriminate.
      * exfalso. apply (missing_label ns Hc). intros n l Hn Hl.
        destruct (Hall n l Hn Hl) as (r & _ & Hr & _). by exists r.
  - split; [done|]. split; [done|].
    split; [intros _ Hall; by destruct (missing_flag ns Hm)|]. split.
    + split; [by right|done].
    + by intros ? ? ? H.
Qed.

Lemma export_pdf_outcome_witness :
  (∃ story,
     export_pdf [quote_note; third_note] "2025-01-15 08:30:00" = Ok (Saved story)
     ∧ export_pdf_file (λ _ _, Raise LayoutError) [quote_note; third_note]
         "2025-01-15 08:30:00" "study-notes-1736929800.pdf"
       = ([CallBuild "study-notes-1736929800.pdf" story], Raise LayoutError))
  ∧ export_pdf_file (λ _ _, Ok ()) [quote_note; other_note]
      "2025-01-15 08:30:00" "study-notes-1736929800.pdf"
    = ([], Raise KeyError).
Proof.
  split.
  - destruct (export_pdf_outcome (λ _ _, Raise LayoutError) [quote_note; third_note]
                "2025-01-15 08:30:00" "study-notes-1736929800.pdf") as (_ & _ & H & _).
    destruct H as (story & Hs & Hf).
    + discriminate.
    + intros n l Hn Hl. apply list_elem_of_In in Hn. apply list_elem_of_In in Hl.
      cbn [In] in Hn, Hl.
      destruct Hn as [<-|[<-|[]]]; destruct Hl as [<-|[<-|[<-|[<-|[]]]]];
        eexists _, _; split; reflexivity.
    + exists story. split; [exact Hs|exact Hf].
  - destruct (export_pdf_outcome (λ _ _, Ok ()) [quote_note; other_note]
                "2025-01-15 08:30:00" "study-notes-1736929800.pdf") as (_ & H & _).
    apply H. exists other_note, "1Week".
    split; [apply list_elem_of_In; cbn [In]; tauto|].
    split; [apply in_labels; tauto|]. right. eexists. split; reflexivity.
Defined.

(** * The button of a checkpoint *)

(** X15: a checkpoint's button reads Undo exactly when its date is shown
    in green, the completed style, and Done otherwise; toggling the
    checkpoint changes the button's text. *)
Theorem button_text_follows_flag (r : rev) (today d : date) :
  strptime (rev_date r) = Ok d →
  (button_text r = "Undo" ↔
   _fill_table_highlight r today = Ok (Some "color: green; font-weight:600"))
  ∧ (button_text r = "Done" ↔
     _fill_table_highlight r today ≠ Ok (Some "color: green; font-weight:600"))
  ∧ button_text (flip_completed r) ≠ button_text r.
Proof.
  intros Hs. unfold _fill_table_highlight, button_text. rewrite Hs. simpl.
  rewrite truthy_get_completed_or_False. fold (is_completed r).
  destruct (is_completed r); simpl.
  - repeat split; try done; intros H; (done || by destruct H).
  - destruct (date_ltb d today), (date_eqb d today); repeat split; done.
Qed.

Lemma button_text_follows_flag_witness :
  button_text (mkrev "2025-01-11" (Some (PyBool true))) = "Undo"
  ∧ button_text (flip_completed (mkrev "2025-01-11" (Some (PyBool true)))) ≠ "Undo".
Proof.
  destruct (button_text_follows_flag (mkrev "2025-01-11" (Some (PyBool true)))
              (mkdate 2025 3 1) (mkdate 2025 1 11)) as (H1 & _ & H3).
  - vm_compute; reflexivity.
  - split; [apply H1; vm_compute; reflexivity|].
    intros E. apply H3. rewrite E. symmetry. apply H1. vm_compute; reflexivity.
Defined.

(** * Reminders for a fresh note *)

#[local] Arguments plus_days : simpl never.
#[local] Arguments strftime : simpl never.

Lemma due_on_schedule d j k :
  valid_date d → (k <= 30)%nat →
  strptime (strftime (plus_days k d)) = Ok (plus_days k d) →
  due_on (plus_days j d) (mkrev (strftime (plus_days k d)) (Some (PyBool false)))
  = bool_decide (k = j ∨ k = S j).
Proof.
  intros Hd Hk Hp. unfold due_on. simpl. rewrite Hp.
  apply bool_decide_ext. change (next_day (plus_days j d)) with (plus_days (S j) d).
  split; (intros [H|H]; [left|right]).
  - by apply (plus_days_inj d).
  - by apply (plus_days_inj d).
  - by subst.
  - by subst.
Qed.

(** X16: for a note whose checkpoints are as [make_revision_dates] made
    them, the poller [j] days after the completion date shows the reminder of
    the checkpoint with offset [k] exactly when [k = j] or [k = j + 1], that
    is on the day before the checkpoint and on its day; this is never more
    than one toast per tick. *)
Theorem fresh_note_reminders (s : string) (d : date) (n : note) (j : nat) :
  strptime s = Ok d → make_revision_dates s = Ok (revisions n) →
  _check_due_revisions true true (plus_days j d) [n]
  = ((λ lk : string * nat, reminder n lk.1 (strftime (plus_days lk.2 d)))
       <$> filter (λ lk : string * nat, lk.2 = j ∨ lk.2 = S j) OFFSETS, Ok ())
  ∧ (length (_check_due_revisions true true (plus_days j d) [n]).1 <= 1)%nat.
Proof.
  intros Hs Hr. destruct (strptime_valid _ _ Hs) as [Hd _].
  destruct (schedule_shape s d (revisions n) Hs Hr) as [Hrev H].
  destruct (plus_days_spec j d Hd) as [Hjv _].
  destruct (H 1%nat ltac:(lia)) as (_ & _ & P1), (H 3%nat ltac:(lia)) as (_ & _ & P3),
    (H 7%nat ltac:(lia)) as (_ & _ & P7), (H 30%nat ltac:(lia)) as (_ & _ & P30).
  assert (E : _check_due_revisions true true (plus_days j d) [n]
              = (reminders (plus_days j d) [n], Ok ())).
  { unfold _check_due_revisions. cbn [negb]. rewrite check_notes_spec; [done|done|].
    intros n' key r Hn' Hin _. apply list_elem_of_singleton in Hn' as ->.
    rewrite Hrev in Hin. unfold schedule, OFFSETS in Hin. cbn [fmap list_fmap] in Hin.
    apply list_elem_of_In in Hin. cbn [In] in Hin.
    destruct Hin as [[= <- <-]|[[= <- <-]|[[= <- <-]|[[= <- <-]|[]]]]]; eauto. }
  rewrite E. cbn [fst].
  assert (R : reminders (plus_days j d) [n]
              = (λ lk : string * nat, reminder n lk.1 (strftime (plus_days lk.2 d)))
                  <$> filter (λ lk : string * nat, lk.2 = j ∨ lk.2 = S j) OFFSETS).
  { unfold reminders. rewrite bind_singleton, Hrev. unfold schedule, OFFSETS.
    cbn [fmap list_fmap]. rewrite !bind_cons. cbn [mbind list_bind].
    rewrite !due_on_schedule by (done || lia).
    repeat case_bool_decide; try (exfalso; lia);
      repeat first [ rewrite filter_cons_True by (simpl; lia)
                   | rewrite filter_cons_False by (simpl; lia) ];
      rewrite filter_nil; reflexivity. }
  rewrite R. split; [done|].
  rewrite length_fmap. unfold OFFSETS.
  destruct (decide (1%nat = j ∨ 1%nat = S j)), (decide (3%nat = j ∨ 3%nat = S j)),
    (decide (7%nat = j ∨ 7%nat = S j)), (decide (30%nat = j ∨ 30%nat = S j));
    try (exfalso; lia);
    repeat first [ rewrite filter_cons_True by (simpl; lia)
                 | rewrite filter_cons_False by (simpl; lia) ];
    rewrite filter_nil; simpl; lia.
Qed.

Lemma fresh_note_reminders_witness :
  _check_due_revisions true true (plus_days 2 (mkdate 2025 1 10)) [quote_note]
  = ([reminder quote_note "3Days" "2025-01-13"], Ok ()).
Proof.
  assert (H1 : strptime "2025-01-10" = Ok (mkdate 2025 1 10)) by (vm_compute; reflexivity).
  assert (H2 : make_revision_dates "2025-01-10" = Ok (revisions quote_note))
    by (vm_compute; reflexivity).
  destruct (fresh_note_reminders "2025-01-10" (mkdate 2025 1 10) quote_note 2 H1 H2)
    as [H _].
  rewrite H. vm_compute. reflexivity.
Defined.

(** * Trimming the note code *)

Lemma string_rev_app_app (s1 s2 : string) : String.rev_app s1 s2 = String.rev s1 +:+ s2.
Proof.
  revert s2. induction s1 as [|a s1 IH]; intros s2; [done|].
  unfold String.rev. cbn [String.rev_app].
  rewrite (IH (String a s2)), (IH (String a "")), string_app_assoc. done.
Qed.

Lemma string_rev_app (s1 s2 : string) :
  String.rev (s1 +:+ s2) = String.rev s2 +:+ String.rev s1.
Proof.
  induction s1 as [|a s1 IH].
  - by rewrite string_app_nil_l, string_app_nil_r.
  - rewrite string_app_cons. unfold String.rev at 1 3. cbn [String.rev_app].
    rewrite !string_rev_app_app, IH, string_app_assoc. done.
Qed.

Lemma string_rev_involutive (s : string) : String.rev (String.rev s) = s.
Proof.
  induction s as [|a s IH]; [done|].
  unfold String.rev at 2. cbn [String.rev_app].
  rewrite string_rev_app_app, string_rev_app, IH. done.
Qed.

Lemma drop_space_id back s : starts_space back s = false → drop_space back s = s.
Proof.
  destruct s as [|a [|b [|c s3]]]; simpl; try done.
  - rewrite orb_false_r. by intros ->.
  - rewrite orb_false_r. intros H. apply orb_false_iff in H as [-> ->]. done.
  - intros H. apply orb_false_iff in H as [-> H].
    apply orb_false_iff in H as [-> ->]. done.
Qed.

Lemma drop_space_props back n s :
  (String.length s <= n)%nat →
  starts_space back (drop_space back s) = false
  ∧ ∃ p, s = p +:+ drop_space back s.
Proof.
  revert s. induction n as [|n IH]; intros s Hn.
  { destruct s; [|simpl in Hn; lia]. split; [done|]. by exists "". }
  destruct s as [|a s1]; [split; [done|by exists ""]|].
  simpl in Hn. cbn [drop_space].
  destruct (space1 a) eqn:E1.
  { destruct (IH s1 ltac:(lia)) as [H1 [p Hp]]. split; [done|].
    exists (String a p). rewrite string_app_cons. by f_equal. }
  destruct s1 as [|b s2].
  { split; [simpl; by rewrite E1|by exists ""]. }
  simpl in Hn.
  destruct (if back then space2 b a else space2 a b) eqn:E2.
  { destruct (IH s2 ltac:(lia)) as [H1 [p Hp]]. split; [done|].
    exists (String a (String b p)). rewrite !string_app_cons. by do 2 f_equal. }
  destruct s2 as [|c s3].
  { split; [simpl; by rewrite E1, E2|by exists ""]. }
  simpl in Hn.
  destruct (if back then space3 c b a else space3 a b c) eqn:E3.
  { destruct (IH s3 ltac:(lia)) as [H1 [p Hp]]. split; [done|].
    exists (String a (String b (String c p))). rewrite !string_app_cons. by do 3 f_equal. }
  split; [simpl; by rewrite E1, E2, E3|by exists ""].
Qed.

Lemma starts_space_app back s x :
  starts_space back s = true → starts_space back (s +:+ x) = true.
Proof.
  destruct s as [|a [|b [|c s3]]]; rewrite ?string_app_cons, ?string_app_nil_l;
    cbn [starts_space]; try done.
  - rewrite orb_false_r. by intros ->.
  - rewrite orb_false_r. intros H.
    apply orb_true_iff in H as [->|H]; [done|]. rewrite H.
    destruct x; by rewrite ?orb_true_r.
Qed.

Lemma strip_trimmed s :
  starts_space false (strip s) = false
  ∧ starts_space true (String.rev (strip s)) = false.
Proof.
  unfold strip. rewrite string_rev_involutive.
  set (t := drop_space false s). set (u := drop_space true (String.rev t)).
  destruct (drop_space_props false (String.length s) s ltac:(lia)) as [Ht _].
  destruct (drop_space_props true (String.length (String.rev t)) (String.rev t) ltac:(lia))
    as [Hu [p Hp]].
  fold t in Ht. fold u in Hu, Hp. split; [|done].
  destruct (starts_space false (String.rev u)) eqn:E; [|done].
  apply (starts_space_app false _ (String.rev p)) in E.
  rewrite <- string_rev_app, <- Hp, string_rev_involutive in E. congruence.
Qed.

Lemma strip_idempotent s : strip (strip s) = strip s.
Proof.
  destruct (strip_trimmed s) as [H1 H2].
  unfold strip at 1. rewrite (drop_space_id false) by done.
  rewrite (drop_space_id true) by done. apply string_rev_involutive.
Qed.

(** X17: the code of a note that [add_note] stores is trimmed: it is not
    empty, it neither begins nor ends with white space, and trimming it
    again gives the same text. *)
Theorem add_note_code_trimmed (w w1 : world) (idx : nat) (text completion_date : string)
    (now_ms : Z) :
  add_note w idx text completion_date now_ms = (w1, Ok None) →
  ∃ n, notes w1 = notes w ++ [n]
    ∧ noteCode n = strip text ∧ noteCode n ≠ ""
    ∧ strip (noteCode n) = noteCode n
    ∧ starts_space false (noteCode n) = false
    ∧ starts_space true (String.rev (noteCode n)) = false.
Proof.
  intros Ha.
  destruct (add_note_success_inv _ _ _ _ _ _ Ha) as (name & revs & _ & Hne & ->).
  eexists. split; [reflexivity|]. cbn [noteCode].
  destruct (strip_trimmed text) as [H1 H2].
  split; [done|]. split; [done|]. split; [apply strip_idempotent|]. by split.
Qed.

Lemma add_note_code_trimmed_witness :
  ∃ n, notes (add_note two_notes 6 " M06-03 " "2025-01-10" 1736503320000).1
       = notes two_notes ++ [n]
    ∧ noteCode n = "M06-03".
Proof.
  destruct (add_note_code_trimmed two_notes
              (add_note two_notes 6 " M06-03 " "2025-01-10" 1736503320000).1
              6 " M06-03 " "2025-01-10" 1736503320000)
    as (n & Hn & Hc & _).
  - vm_compute; reflexivity.
  - exists n. split; [exact Hn|]. rewrite Hc. vm_compute; reflexivity.
Defined.

(** * A date the poller cannot read *)

Lemma strptime_raises s e : strptime s = Raise e → e = ValueError.
Proof.
  unfold strptime. destruct (format_match s) as [[[[y m] d] rest]|]; [|congruence].
  destruct (decide (rest = "")); [|congruence].
  destruct (_check_date_fields y m d); congruence.
Qed.

Lemma check_revisions_app now n items1 items2 sent :
  check_revisions now n (items1 ++ items2) sent
  = match check_revisions now n items1 sent with
    | (sent', Ok _) => check_revisions now n items2 sent'
    | (sent', Raise e) => (sent', Raise e)
    end.
Proof.
  revert sent. induction items1 as [|[key r] items1 IH]; intros sent; [done|].
  rewrite <- app_comm_cons. cbn [check_revisions].
  destruct (truthy (get_completed r)); [apply IH|].
  destruct (strptime (rev_date r)) as [rd|]; [|done].
  destruct (is_due rd now); apply IH.
Qed.

Lemma check_notes_app now ns1 ns2 sent :
  check_notes now (ns1 ++ ns2) sent
  = match check_notes now ns1 sent with
    | (sent', Ok _) => check_notes now ns2 sent'
    | (sent', Raise e) => (sent', Raise e)
    end.
Proof.
  revert sent. induction ns1 as [|n ns1 IH]; intros sent; [done|].
  rewrite <- app_comm_cons. cbn [check_notes].
  destruct (check_revisions now n (revisions n) sent) as [sent' [[]|e]]; [apply IH|done].
Qed.

(** X18: the poller stops at the first checkpoint that is not completed
    and whose date, a text of ASCII characters, does not parse: the tick
    ends with ValueError, the toasts shown are those due among the
    checkpoints before it, and no later checkpoint or note is looked at. *)
Theorem check_due_revisions_stops (now : date) (ns1 ns2 : list note) (n : note)
    (items1 items2 : list (string * rev)) (key : string) (r : rev) (e : exn) :
  valid_date now →
  (∀ n' key' r', n' ∈ ns1 → (key', r') ∈ revisions n' → is_completed r' = false →
                 ∃ d, strptime (rev_date r') = Ok d) →
  revisions n = items1 ++ (key, r) :: items2 →
  (∀ key' r', (key', r') ∈ items1 → is_completed r' = false →
              ∃ d, strptime (rev_date r') = Ok d) →
  is_completed r = false →
  is_ascii (rev_date r) = true → strptime (rev_date r) = Raise e →
  _check_due_revisions true true now (ns1 ++ n :: ns2)
  = (reminders now (ns1 ++ [with_revisions n items1]), Raise ValueError).
Proof.
  intros Hn H1 Hrev Hi Hc _ Hs. apply strptime_raises in Hs as He. subst e.
  unfold _check_due_revisions. cbn [negb].
  rewrite check_notes_app, check_notes_spec by done.
  cbn [check_notes]. rewrite Hrev, check_revisions_app, check_revisions_spec by done.
  cbn [check_revisions]. unfold is_completed in Hc. rewrite Hc, Hs.
  f_equal. unfold reminders. rewrite bind_app, bind_singleton. simpl. done.
Qed.

Lemma check_due_revisions_stops_witness :
  _check_due_revisions true true (mkdate 2025 1 12)
    [quote_note;
     mknote 7 "Workplace Communication Management" "EMPM02-01" "2025-01-10"
       [ ("24H", mkrev "2025-01-13" (Some (PyBool false)));
         ("3Days", mkrev "13/01/2025" (Some (PyBool false)));
         ("1Week", mkrev "2025-01-13" (Some (PyBool false))) ];
     other_note]
  = ([ reminder quote_note "3Days" "2025-01-13";
       mktoast "Revision Reminder" "EMPM02-01 — 24H due 2025-01-13" ], Raise ValueError).
Proof.
  set (bad := mknote 7 "Workplace Communication Management" "EMPM02-01" "2025-01-10" _).
  change [quote_note; bad; other_note] with ([quote_note] ++ bad :: [other_note]).
  rewrite (check_due_revisions_stops (mkdate 2025 1 12) [quote_note] [other_note] bad
             [("24H", mkrev "2025-01-13" (Some (PyBool false)))]
             [("1Week", mkrev "2025-01-13" (Some (PyBool false)))]
             "3Days" (mkrev "13/01/2025" (Some (PyBool false))) ValueError).
  - vm_compute; reflexivity.
  - unfold valid_date; simpl. vm_compute. intuition discriminate.
  - intros n' key' r' Hn' Hin _. apply list_elem_of_singleton in Hn' as ->.
    apply list_elem_of_In in Hin. simpl in Hin.
    destruct Hin as [[= <- <-]|[[= <- <-]|[[= <- <-]|[[= <- <-]|[]]]]];
      eexists; vm_compute; reflexivity.
  - reflexivity.
  - intros key' r' Hin _. apply list_elem_of_singleton in Hin as [= -> ->].
    eexists; vm_compute; reflexivity.
  - reflexivity.
  - reflexivity.
  - vm_compute; reflexivity.
Defined.
